(** * Debt Tracker: the debt / payment lifecycle of [myapp]

    A shallow embedding of the Django models [Debt] and [Payment]
    (myapp/models.py), of [DebtForm] (myapp/forms.py) and of the views that
    move a debt through its lifecycle (myapp/views.py), followed by the
    properties of the lifecycle.

    Conventions of the embedding.
    - Money.  [DecimalField(max_digits=10, decimal_places=2)] values are
      integers counting centavos ([Z]).  The views convert them with
      [float(...)]; their sums and comparisons are made here on the exact
      values, which decide as the doubles do except where an amount meets
      the balance to the centavo.  [float_balance] is [Debt.balance] as the
      doubles give it, and [fits_decimal] says that a value fits the field.
    - Rows are records; tables are finite maps from primary key to row.  A
      model instance fetched by a view is a local copy: only [save()] /
      [objects.create()] write it back to the table.
    - A view is a function from the database and the request to an
      [Outcome]: the new database, the new session, the response and the
      flash messages queued with [messages.error/success/...].
    - [timezone.now()], [secrets.token_hex] and [uuid.uuid4] read the
      [World] passed to the view. *)

From stdpp Require Import gmap strings list fin_maps pretty.
From Stdlib Require Import ZArith Ascii String Lia.
From Stdlib.Strings Require Import Byte.
From Stdlib Require Floats Uint63.

Local Open Scope string_scope.
Local Open Scope Z_scope.

(** ** Python helpers *)

(** [x == y] on [str]. *)
Definition str_eq (x y : string) : bool := String.eqb x y.

(** [x in xs] on a list of [str]. *)
Definition str_in (x : string) (xs : list string) : bool :=
  existsb (str_eq x) xs.

(** [not s] on a [str]: the empty string is falsy. *)
Definition str_falsy (s : string) : bool := str_eq s "".

(** [not x] on a nullable [DateTimeField]: [None] is falsy, a datetime is
    truthy. *)
Definition none_falsy {A} (x : option A) : bool :=
  match x with
  | None => true
  | Some _ => false
  end.

(** [f"{c:.2f}"] of an amount of [c] centavos. *)
Definition fmt2f (c : Z) : string :=
  let a := Z.abs c in
  let cents := a mod 100 in
  (if c <? 0 then "-" else "") +:+ pretty (a / 100) +:+ "." +:+
  (if cents <? 10 then "0" else "") +:+ pretty cents.

(** [str.upper()] on the ASCII letters. *)
Definition upper_ascii (c : ascii) : ascii :=
  let n := N_of_ascii c in
  if ((97 <=? n) && (n <=? 122))%N then ascii_of_N (n - 32) else c.

Fixpoint upper (s : string) : string :=
  match s with
  | EmptyString => EmptyString
  | String c s' => String (upper_ascii c) (upper s')
  end.

(** One lowercase hexadecimal digit, as [bytes.hex()] prints it. *)
Definition hex_digit (n : N) : ascii :=
  if (n <? 10)%N then ascii_of_N (48 + n) else ascii_of_N (87 + n).

(** [secrets.token_hex(n)] is [token_bytes(n).hex()]: two digits a byte. *)
Fixpoint hex (bs : list byte) : string :=
  match bs with
  | [] => EmptyString
  | b :: bs' =>
      let n := Byte.to_N b in
      String (hex_digit (n / 16)%N) (String (hex_digit (n mod 16)%N) (hex bs'))
  end.

(** ** The world a request runs in *)

Record World := {
  now : Z;                    (* timezone.now() *)
  entropy : list byte;        (* what secrets.token_bytes draws from *)
  uuid4 : string;             (* uuid.uuid4() *)
  REPORTLAB_AVAILABLE : bool  (* views.py: set by the reportlab import *)
}.

(** [secrets.token_hex(nbytes)]. *)
Definition token_hex (w : World) (nbytes : nat) : string :=
  hex (take nbytes (entropy w)).

(** ** Uploaded files *)

Record UploadedFile := { file_name : string; file_size : Z }.

(** [not f] on [request.FILES.get(...)]: [None], or a file whose name is
    empty ([File.__bool__] is [bool(self.name)]). *)
Definition file_falsy (f : option UploadedFile) : bool :=
  match f with
  | None => true
  | Some u => str_falsy (file_name u)
  end.

(** ** models.py *)

Record CustomUser := {
  user_id : nat;
  username : string;
  full_name : string;
  account_type : string;
  is_superuser : bool
}.

Module Debt.

Record t := mk {
  id : nat;
  creditor : nat;                       (* ForeignKey(CustomUser) *)
  debtor : nat;                         (* ForeignKey(CustomUser) *)
  type_ : string;                       (* default 'money' *)
  amount : Z;
  product_name : string;
  description : string;
  debt_proof : option UploadedFile;
  creditor_proof : option UploadedFile;
  payment_proof : option UploadedFile;
  paid_amount : Z;                      (* default 0 *)
  status : string;                      (* default 'pending_confirmation' *)
  hidden_from_debtor : bool;
  hidden_from_creditor : bool;
  date_paid : option Z
}.

Definition with_id (pk : nat) (d : t) : t :=
  mk pk (creditor d) (debtor d) (type_ d) (amount d) (product_name d)
     (description d) (debt_proof d) (creditor_proof d) (payment_proof d)
     (paid_amount d) (status d) (hidden_from_debtor d)
     (hidden_from_creditor d) (date_paid d).

Definition with_creditor (u : nat) (d : t) : t :=
  mk (id d) u (debtor d) (type_ d) (amount d) (product_name d)
     (description d) (debt_proof d) (creditor_proof d) (payment_proof d)
     (paid_amount d) (status d) (hidden_from_debtor d)
     (hidden_from_creditor d) (date_paid d).

Definition with_debtor (u : nat) (d : t) : t :=
  mk (id d) (creditor d) u (type_ d) (amount d) (product_name d)
     (description d) (debt_proof d) (creditor_proof d) (payment_proof d)
     (paid_amount d) (status d) (hidden_from_debtor d)
     (hidden_from_creditor d) (date_paid d).

Definition with_creditor_proof (f : option UploadedFile) (d : t) : t :=
  mk (id d) (creditor d) (debtor d) (type_ d) (amount d) (product_name d)
     (description d) (debt_proof d) f (payment_proof d)
     (paid_amount d) (status d) (hidden_from_debtor d)
     (hidden_from_creditor d) (date_paid d).

Definition with_payment_proof (f : option UploadedFile) (d : t) : t :=
  mk (id d) (creditor d) (debtor d) (type_ d) (amount d) (product_name d)
     (description d) (debt_proof d) (creditor_proof d) f
     (paid_amount d) (status d) (hidden_from_debtor d)
     (hidden_from_creditor d) (date_paid d).

Definition with_paid_amount (a : Z) (d : t) : t :=
  mk (id d) (creditor d) (debtor d) (type_ d) (amount d) (product_name d)
     (description d) (debt_proof d) (creditor_proof d) (payment_proof d)
     a (status d) (hidden_from_debtor d)
     (hidden_from_creditor d) (date_paid d).

Definition with_status (s : string) (d : t) : t :=
  mk (id d) (creditor d) (debtor d) (type_ d) (amount d) (product_name d)
     (description d) (debt_proof d) (creditor_proof d) (payment_proof d)
     (paid_amount d) s (hidden_from_debtor d)
     (hidden_from_creditor d) (date_paid d).

Definition with_date_paid (x : option Z) (d : t) : t :=
  mk (id d) (creditor d) (debtor d) (type_ d) (amount d) (product_name d)
     (description d) (debt_proof d) (creditor_proof d) (payment_proof d)
     (paid_amount d) (status d) (hidden_from_debtor d)
     (hidden_from_creditor d) x.

(** [Debt.balance]:
    [max(0, float(self.amount) - float(self.paid_amount))]. *)
Definition balance (self : t) : Z :=
  Z.max 0 (amount self - paid_amount self).

(** [Debt.can_be_paid]: "only active debts". *)
Definition can_be_paid (self : t) : bool := str_eq (status self) "active".

End Debt.

(** [float(d)] for a [Decimal] of two places, given in centavos: the double
    nearest to [c / 100].  (The quotient of two doubles is rounded once, and
    [|c|] is a double itself below [2^53]; the fields hold ten digits.) *)
Definition float_of_decimal (c : Z) : PrimFloat.float :=
  let q := PrimFloat.div (PrimFloat.of_uint63 (Uint63.of_Z (Z.abs c)))
                         (PrimFloat.of_uint63 (Uint63.of_Z 100)) in
  if c <? 0 then PrimFloat.opp q else q.

(** [max(0, x)]: [x] when [x > 0], and the integer [0], here [0.0],
    otherwise. *)
Definition max0 (x : PrimFloat.float) : PrimFloat.float :=
  let zero := PrimFloat.of_uint63 (Uint63.of_Z 0) in
  if PrimFloat.ltb zero x then x else zero.

(** [Debt.balance] as the property computes it:
    [max(0, float(self.amount) - float(self.paid_amount))] in doubles.
    [Debt.balance] above is the same quantity in exact centavos. *)
Definition float_balance (self : Debt.t) : PrimFloat.float :=
  max0 (PrimFloat.sub (float_of_decimal (Debt.amount self))
                      (float_of_decimal (Debt.paid_amount self))).

(** [DecimalField(max_digits=10, decimal_places=2)] can store [x] centavos:
    [save()] raises on a value of more than eight digits before the
    point. *)
Definition fits_decimal (x : Z) : Prop := - 10 ^ 10 < x < 10 ^ 10.

Module Payment.

Record t := mk {
  id : nat;
  debt : nat;                           (* ForeignKey(Debt) *)
  payer : nat;                          (* ForeignKey(CustomUser) *)
  amount : Z;
  method : string;
  debtor_proof : option UploadedFile;
  creditor_proof : option UploadedFile;
  payment_date : option Z;
  status : string;                      (* default 'completed' *)
  receipt_no : string;                  (* default uuid.uuid4 *)
  transaction_id : string;              (* default '' *)
  receipt_file : option string;
  verified_at : option Z
}.

Definition with_debtor_proof (f : option UploadedFile) (p : t) : t :=
  mk (id p) (debt p) (payer p) (amount p) (method p) f
     (creditor_proof p) (payment_date p) (status p) (receipt_no p)
     (transaction_id p) (receipt_file p) (verified_at p).

Definition with_creditor_proof (f : option UploadedFile) (p : t) : t :=
  mk (id p) (debt p) (payer p) (amount p) (method p) (debtor_proof p)
     f (payment_date p) (status p) (receipt_no p)
     (transaction_id p) (receipt_file p) (verified_at p).

Definition with_payment_date (x : option Z) (p : t) : t :=
  mk (id p) (debt p) (payer p) (amount p) (method p) (debtor_proof p)
     (creditor_proof p) x (status p) (receipt_no p)
     (transaction_id p) (receipt_file p) (verified_at p).

Definition with_status (s : string) (p : t) : t :=
  mk (id p) (debt p) (payer p) (amount p) (method p) (debtor_proof p)
     (creditor_proof p) (payment_date p) s (receipt_no p)
     (transaction_id p) (receipt_file p) (verified_at p).

Definition with_transaction_id (s : string) (p : t) : t :=
  mk (id p) (debt p) (payer p) (amount p) (method p) (debtor_proof p)
     (creditor_proof p) (payment_date p) (status p) (receipt_no p)
     s (receipt_file p) (verified_at p).

Definition with_receipt_file (f : option string) (p : t) : t :=
  mk (id p) (debt p) (payer p) (amount p) (method p) (debtor_proof p)
     (creditor_proof p) (payment_date p) (status p) (receipt_no p)
     (transaction_id p) f (verified_at p).

Definition with_verified_at (x : option Z) (p : t) : t :=
  mk (id p) (debt p) (payer p) (amount p) (method p) (debtor_proof p)
     (creditor_proof p) (payment_date p) (status p) (receipt_no p)
     (transaction_id p) (receipt_file p) x.

(** [Payment(debt=..., payer=..., amount=..., method=...)]: every other
    field takes the default declared on the model. *)
Definition init (w : World) (pk debt_id payer_id : nat) (amt : Z)
    (meth : string) : t :=
  mk pk debt_id payer_id amt meth None None None "completed" (uuid4 w) ""
     None None.

(** The body of [Payment.save] before [super().save()]. *)
Definition pre_save (w : World) (self : t) : t :=
  let self :=
    if str_falsy (transaction_id self)
    then with_transaction_id ("TXN-" +:+ upper (token_hex w 8)) self
    else self in
  let self :=
    if str_eq (status self) "completed" && none_falsy (payment_date self)
    then with_payment_date (Some (now w)) self
    else self in
  let self :=
    if str_eq (status self) "completed" && none_falsy (verified_at self)
    then with_verified_at (Some (now w)) self
    else self in
  self.

End Payment.

Record Notification := {
  notif_user : nat;
  notification_type : string;
  message : string;
  related_debt : option nat
}.

Record AdminActivityLog := {
  log_user : nat;
  action : string;
  log_description : string;
  related_id : option nat
}.

(** ** The database *)

Record DB := {
  users : list CustomUser;
  debts : gmap nat Debt.t;
  payments : gmap nat Payment.t;
  notifications : list Notification;
  activity_log : list AdminActivityLog
}.

(** [CustomUser.objects.get(username=...)]; [None] is [DoesNotExist]. *)
Definition get_user (db : DB) (name : string) : option CustomUser :=
  List.find (fun u => str_eq (username u) name) (users db).

(** [CustomUser.objects.get(pk=...)], used for the names in messages. *)
Definition user_by_id (db : DB) (pk : nat) : option CustomUser :=
  List.find (fun u => Nat.eqb (user_id u) pk) (users db).

(** [obj.full_name] of a related user. *)
Definition full_name_of (db : DB) (pk : nat) : string :=
  match user_by_id db pk with
  | Some u => full_name u
  | None => ""
  end.

(** [debt.save()] on an instance that has a primary key. *)
Definition save_debt (d : Debt.t) (db : DB) : DB :=
  {| users := users db;
     debts := <[Debt.id d := d]> (debts db);
     payments := payments db;
     notifications := notifications db;
     activity_log := activity_log db |}.

(** [payment.save()]: [Payment.save] and then the row is written. *)
Definition save_payment (w : World) (p : Payment.t) (db : DB) : Payment.t * DB :=
  let p' := Payment.pre_save w p in
  (p', {| users := users db;
          debts := debts db;
          payments := <[Payment.id p' := p']> (payments db);
          notifications := notifications db;
          activity_log := activity_log db |}).

(** [Notification.objects.create(...)]. *)
Definition create_notification (n : Notification) (db : DB) : DB :=
  {| users := users db;
     debts := debts db;
     payments := payments db;
     notifications := n :: notifications db;
     activity_log := activity_log db |}.

(** [AdminActivityLog.objects.create(...)]. *)
Definition create_log (l : AdminActivityLog) (db : DB) : DB :=
  {| users := users db;
     debts := debts db;
     payments := payments db;
     notifications := notifications db;
     activity_log := l :: activity_log db |}.

(** The primary key the database gives to a new row: a key that is not in
    the table, and not 0 ([AutoField] keys start at 1). *)
Definition new_debt_id (db : DB) : nat :=
  fresh ({[0%nat]} ∪ dom (debts db)).
Definition new_payment_id (db : DB) : nat :=
  fresh ({[0%nat]} ∪ dom (payments db)).

(** [Debt.update_payment_status]: saves only when it marks the debt paid. *)
Definition update_payment_status (w : World) (self : Debt.t) (db : DB)
    : bool * Debt.t * DB :=
  if (Debt.balance self <=? 0) && str_eq (Debt.status self) "active"
  then
    let self := Debt.with_status "paid" self in
    let self := Debt.with_date_paid (Some (now w)) self in
    (true, self, save_debt self db)
  else (false, self, db).

(** ** forms.py: [DebtForm] *)

(** What Django's own field cleaning hands to the form's hooks: the cleaned
    value of a field, or the error of its built-in validation (required,
    valid choice, decimal syntax, [MinValueValidator(0.01)], length). *)
Inductive cleaned (A : Type) : Type :=
  | Valid (value : A)
  | Invalid (error : string).
Arguments Valid {A} value.
Arguments Invalid {A} error.

Definition cleaned_get {A} (c : cleaned A) : option A :=
  match c with
  | Valid a => Some a
  | Invalid _ => None
  end.

Definition cleaned_errors {A} (field : string) (c : cleaned A)
    : list (string * string) :=
  match c with
  | Valid _ => []
  | Invalid e => [(field, e)]
  end.

(** The bound [DebtForm(request.POST, request.FILES)], field by field. *)
Record DebtFormData := {
  f_type : cleaned string;
  f_amount : cleaned Z;
  f_product_name : cleaned string;
  f_description : cleaned string;
  f_debt_proof : cleaned (option UploadedFile);
  f_creditor_username : cleaned string
}.

(** [str.lower()] on the ASCII letters. *)
Definition lower_ascii (c : ascii) : ascii :=
  let n := N_of_ascii c in
  if ((65 <=? n) && (n <=? 90))%N then ascii_of_N (n + 32) else c.

Fixpoint lower (s : string) : string :=
  match s with
  | EmptyString => EmptyString
  | String c s' => String (lower_ascii c) (lower s')
  end.

(** [s.split('.')[-1]]: what follows the last dot, all of [s] without one. *)
Fixpoint split_dot_last (s acc : string) : string :=
  match s with
  | EmptyString => acc
  | String c s' =>
      if Ascii.eqb c "."%char then split_dot_last s' EmptyString
      else split_dot_last s' (acc +:+ String c EmptyString)
  end.

(** [DebtForm.clean_creditor_username]. *)
Definition clean_creditor_username (db : DB) (name : string) : cleaned string :=
  match get_user db name with
  | Some creditor =>
      if negb (str_eq (account_type creditor) "creditor")
      then Invalid ("User '" +:+ name +:+ "' is not a creditor account.")
      else Valid name
  | None => Invalid ("No creditor found with username '" +:+ name +:+ "'.")
  end.

(** [DebtForm.clean_debt_proof]. *)
Definition clean_debt_proof (proof : option UploadedFile)
    : cleaned (option UploadedFile) :=
  match proof with
  | Some f =>
      if str_falsy (file_name f) then Valid proof
      else if file_size f >? 10 * 1024 * 1024
      then Invalid "File size must not exceed 10MB."
      else
        let allowed_extensions :=
          [".jpg"; ".jpeg"; ".png"; ".gif"; ".pdf"; ".bmp"; ".webp"] in
        let file_ext := split_dot_last (lower (file_name f)) EmptyString in
        if negb (str_in ("." +:+ file_ext) allowed_extensions)
        then Invalid "Invalid file type. Allowed: JPG, PNG, GIF, PDF, BMP, WEBP."
        else Valid proof
  | None => Valid proof
  end.

(** [not amount] on a cleaned decimal: missing, or zero. *)
Definition amount_falsy (a : option Z) : bool :=
  match a with
  | None => true
  | Some v => v =? 0
  end.

(** [not product_name]: missing, or empty. *)
Definition name_falsy (s : option string) : bool :=
  match s with
  | None => true
  | Some v => str_falsy v
  end.

(** [DebtForm.clean]: the error it raises, if any, and the product name it
    leaves in [cleaned_data]. *)
Definition clean (debt_type : option string) (product_name : option string)
    (amount : option Z) : list (string * string) * option string :=
  if bool_decide (debt_type = Some "money") then
    if amount_falsy amount
    then ([("amount", "Amount is required for money debts.")], product_name)
    else ([], Some "")
  else if bool_decide (debt_type = Some "product") then
    if name_falsy product_name
    then ([("product_name", "Product name is required for product debts.")],
          product_name)
    else if amount_falsy amount
    then ([("amount", "Amount (estimated value) is required for product debts.")],
          product_name)
    else ([], product_name)
  else ([], product_name).

(** The form after [full_clean]: [cleaned_data] and [errors]. *)
Record DebtForm := {
  cd_type : option string;
  cd_amount : option Z;
  cd_product_name : option string;
  cd_description : option string;
  cd_debt_proof : option (option UploadedFile);
  cd_creditor_username : option string;
  errors : list (string * string)
}.

(** Field cleaning in declaration order (each [clean_<field>] hook runs only
    on a field that passed its built-in validation), then [clean]. *)
Definition full_clean (db : DB) (data : DebtFormData) : DebtForm :=
  let proof :=
    match f_debt_proof data with
    | Valid p => clean_debt_proof p
    | Invalid e => Invalid e
    end in
  let creditor_username :=
    match f_creditor_username data with
    | Valid u => clean_creditor_username db u
    | Invalid e => Invalid e
    end in
  let '(clean_errs, product_name) :=
    clean (cleaned_get (f_type data)) (cleaned_get (f_product_name data))
          (cleaned_get (f_amount data)) in
  {| cd_type := cleaned_get (f_type data);
     cd_amount := cleaned_get (f_amount data);
     cd_product_name := product_name;
     cd_description := cleaned_get (f_description data);
     cd_debt_proof := cleaned_get proof;
     cd_creditor_username := cleaned_get creditor_username;
     errors :=
       cleaned_errors "type" (f_type data) ++
       cleaned_errors "amount" (f_amount data) ++
       cleaned_errors "product_name" (f_product_name data) ++
       cleaned_errors "description" (f_description data) ++
       cleaned_errors "debt_proof" proof ++
       cleaned_errors "creditor_username" creditor_username ++
       clean_errs |}.

(** [form.is_valid()]. *)
Definition is_valid (form : DebtForm) : bool :=
  match errors form with
  | [] => true
  | _ :: _ => false
  end.

(** [form.add_error(field, message)]. *)
Definition add_error (field msg : string) (form : DebtForm) : DebtForm :=
  {| cd_type := cd_type form;
     cd_amount := cd_amount form;
     cd_product_name := cd_product_name form;
     cd_description := cd_description form;
     cd_debt_proof := cd_debt_proof form;
     cd_creditor_username := cd_creditor_username form;
     errors := errors form ++ [(field, msg)] |}.

(** [form.save(commit=False)]: a [Debt] built from [cleaned_data], the
    other fields at their model defaults; the key is given at [save()]. *)
Definition form_save (form : DebtForm) : Debt.t :=
  Debt.mk 0%nat 0%nat 0%nat
    (default "money" (cd_type form))
    (default 0 (cd_amount form))
    (default "" (cd_product_name form))
    (default "" (cd_description form))
    (default None (cd_debt_proof form))
    None None 0 "pending_confirmation" false false None.

(** ** Requests, sessions, responses *)

Module Session.
(** The three keys the payment flow keeps in [request.session]. *)
Record t := mk {
  payment_debt_id : option nat;
  payment_amount : option Z;
  payment_method : option string
}.
Definition empty : t := mk None None None.
End Session.

Record HttpRequest := {
  user : CustomUser;                   (* request.user, logged in *)
  method : string;                     (* request.method *)
  POST : gmap string string;
  FILES : gmap string UploadedFile;
  session : Session.t
}.

Inductive HttpResponse :=
  | redirect (to : string) (arg : option nat)
  | render (template : string) (form_errors : list (string * string))
  | Http404
  | ServerError.

(** [messages.ERROR], [messages.SUCCESS], ... *)
Inductive Level := ERROR | SUCCESS | INFO | WARNING.

Record Outcome := {
  out_db : DB;
  out_session : Session.t;
  response : HttpResponse;
  messages : list (Level * string)
}.

(** The view returns without touching the database or the session. *)
Definition reply (db : DB) (request : HttpRequest) (r : HttpResponse)
    (msgs : list (Level * string)) : Outcome :=
  {| out_db := db; out_session := session request; response := r;
     messages := msgs |}.

(** [a != b] on model instances compares primary keys. *)
Definition is_not_user (pk : nat) (u : CustomUser) : bool :=
  negb (Nat.eqb pk (user_id u)).

(** [c.isspace()], on the UTF-8 bytes that a string holds here.  In one
    byte: tab to carriage return, the separators FS to US and the space. *)
Definition is_space (c : ascii) : bool :=
  let n := N_of_ascii c in
  ((n =? 32) || ((9 <=? n) && (n <=? 13)) || ((28 <=? n) && (n <=? 31)))%N.

(** In two bytes: U+0085 and U+00A0. *)
Definition is_space2 (c1 c2 : ascii) : bool :=
  let n1 := N_of_ascii c1 in
  let n2 := N_of_ascii c2 in
  ((n1 =? 194) && ((n2 =? 133) || (n2 =? 160)))%N.

(** In three bytes: U+1680, U+2000 to U+200A, U+2028, U+2029, U+202F,
    U+205F and U+3000. *)
Definition is_space3 (c1 c2 c3 : ascii) : bool :=
  let n1 := N_of_ascii c1 in
  let n2 := N_of_ascii c2 in
  let n3 := N_of_ascii c3 in
  (((n1 =? 225) && (n2 =? 154) && (n3 =? 128))
   || ((n1 =? 226) && (n2 =? 128)
       && (((128 <=? n3) && (n3 <=? 138)) || (n3 =? 168) || (n3 =? 169)
           || (n3 =? 175)))
   || ((n1 =? 226) && (n2 =? 129) && (n3 =? 159))
   || ((n1 =? 227) && (n2 =? 128) && (n3 =? 128)))%N.

Fixpoint lstrip (s : string) : string :=
  match s with
  | EmptyString => EmptyString
  | String c1 r1 =>
      if is_space c1 then lstrip r1 else
      match r1 with
      | EmptyString => s
      | String c2 r2 =>
          if is_space2 c1 c2 then lstrip r2 else
          match r2 with
          | EmptyString => s
          | String c3 r3 => if is_space3 c1 c2 c3 then lstrip r3 else s
          end
      end
  end.

Fixpoint rstrip (s : string) : string :=
  match s with
  | EmptyString => EmptyString
  | String c s' =>
      match rstrip s' with
      | EmptyString => if is_space c then EmptyString else String c EmptyString
      | String c2 EmptyString as r =>
          if is_space2 c c2 then EmptyString else String c r
      | String c2 (String c3 EmptyString) as r =>
          if is_space3 c c2 c3 then EmptyString else String c r
      | r => String c r
      end
  end.

(** [s.strip()]. *)
Definition strip (s : string) : string := rstrip (lstrip s).

(** The peso sign of the messages. *)
Definition peso : string := "₱".

(** ** views.py *)

Section Views.

(** Python's [float(s)] on a submitted string, in centavos; [None] when
    it raises [ValueError]. *)
Variable float_of_str : string -> option Z.

(** [add_debt]. *)
Definition add_debt (db : DB) (request : HttpRequest) (data : DebtFormData)
    : Outcome :=
  if negb (str_eq (account_type (user request)) "debtor") then
    reply db request (redirect "myapp:home" None)
      [(ERROR, "Only debtors can add debts.")]
  else if str_eq (method request) "POST" then
    let form := full_clean db data in
    if is_valid form then
      let creditor_username := default "" (cd_creditor_username form) in
      match get_user db creditor_username with
      | Some creditor =>
          let debt := form_save form in
          let debt := Debt.with_debtor (user_id (user request)) debt in
          let debt := Debt.with_creditor (user_id creditor) debt in
          let debt := Debt.with_status "pending_confirmation" debt in
          (* debt.save() of a new instance: the row gets its key *)
          let debt := Debt.with_id (new_debt_id db) debt in
          let db := save_debt debt db in
          let db := create_notification
            {| notif_user := user_id creditor;
               notification_type := "new_debt";
               message := full_name (user request) +:+
                 " has added a new debt of " +:+ peso +:+
                 fmt2f (Debt.amount debt) +:+ ". Please review and confirm.";
               related_debt := Some (Debt.id debt) |} db in
          {| out_db := db; out_session := session request;
             response := redirect "myapp:debtor_dashboard" None;
             messages :=
               [(SUCCESS, "Debt added successfully! Waiting for " +:+
                          full_name creditor +:+ " to confirm.")] |}
      | None =>
          let form := add_error "creditor_username" "Creditor not found." form in
          reply db request (render "add_debt.html" (errors form)) []
      end
    else reply db request (render "add_debt.html" (errors form)) []
  else reply db request (render "add_debt.html" []) [].

(** [confirm_debt]. *)
Definition confirm_debt (db : DB) (request : HttpRequest) (id : nat)
    : Outcome :=
  match debts db !! id with
  | None => reply db request Http404 []
  | Some debt =>
      if is_not_user (Debt.creditor debt) (user request) then
        reply db request (redirect "myapp:creditor_dashboard" None)
          [(ERROR, "You can only confirm debts where you are the creditor.")]
      else if negb (str_eq (Debt.status debt) "pending_confirmation") then
        reply db request (redirect "myapp:creditor_dashboard" None)
          [(ERROR, "This debt is not pending confirmation.")]
      else if str_eq (method request) "POST" then
        let debt := Debt.with_status "active" debt in
        let db := save_debt debt db in
        let db := create_notification
          {| notif_user := Debt.debtor debt;
             notification_type := "debt_confirmed";
             message := full_name (user request) +:+
               " has confirmed your debt of " +:+ peso +:+
               fmt2f (Debt.amount debt) +:+ ". The debt is now active.";
             related_debt := Some (Debt.id debt) |} db in
        {| out_db := db; out_session := session request;
           response := redirect "myapp:creditor_dashboard" None;
           messages :=
             [(SUCCESS, "Debt confirmed! " +:+
                        full_name_of db (Debt.debtor debt) +:+
                        " now owes you " +:+ peso +:+
                        fmt2f (Debt.amount debt) +:+ ".")] |}
      else reply db request (render "confirm_debt.html" []) []
  end.

(** [reject_debt]. *)
Definition reject_debt (db : DB) (request : HttpRequest) (id : nat)
    : Outcome :=
  match debts db !! id with
  | None => reply db request Http404 []
  | Some debt =>
      if is_not_user (Debt.creditor debt) (user request) then
        reply db request (redirect "myapp:creditor_dashboard" None)
          [(ERROR, "You can only reject debts where you are the creditor.")]
      else if negb (str_eq (Debt.status debt) "pending_confirmation") then
        reply db request (redirect "myapp:creditor_dashboard" None)
          [(ERROR, "This debt is not pending confirmation.")]
      else if str_eq (method request) "POST" then
        let debt := Debt.with_status "rejected" debt in
        let db := save_debt debt db in
        let db := create_notification
          {| notif_user := Debt.debtor debt;
             notification_type := "debt_rejected";
             message := full_name (user request) +:+
               " has rejected your debt submission of " +:+ peso +:+
               fmt2f (Debt.amount debt) +:+ ".";
             related_debt := Some (Debt.id debt) |} db in
        {| out_db := db; out_session := session request;
           response := redirect "myapp:creditor_dashboard" None;
           messages := [(SUCCESS, "Debt rejected.")] |}
      else reply db request (redirect "myapp:creditor_dashboard" None) []
  end.

(** The amount [mark_as_paid] reads:
    [request.POST.get('payment_amount', debt.balance)], then [float(...)]
    with the balance in its place on [ValueError] / [TypeError]. *)
Definition entered_amount (request : HttpRequest) (debt : Debt.t) : Z :=
  match POST request !! "payment_amount" with
  | None => Debt.balance debt
  | Some s =>
      match float_of_str s with
      | Some v => v
      | None => Debt.balance debt
      end
  end.

(** [mark_as_paid]. *)
Definition mark_as_paid (db : DB) (w : World) (request : HttpRequest)
    (id : nat) : Outcome :=
  if negb (str_eq (account_type (user request)) "creditor") then
    reply db request (redirect "myapp:home" None)
      [(ERROR, "Only creditors can mark debts as paid.")]
  else
  match debts db !! id with
  | None => reply db request Http404 []
  | Some debt =>
      if is_not_user (Debt.creditor debt) (user request) then
        reply db request (redirect "myapp:creditor_dashboard" None)
          [(ERROR, "You can only mark your own debts as paid.")]
      else if str_eq (method request) "POST" then
        let creditor_proof := FILES request !! "creditor_proof" in
        if file_falsy creditor_proof then
          reply db request (render "mark_as_paid.html" [])
            [(ERROR, "Proof of receipt is required. Please upload a photo or PDF of the cash receipt.")]
        else
          let payment_amount := entered_amount request debt in
          let payment_amount :=
            if payment_amount >? Debt.balance debt
            then Debt.balance debt else payment_amount in
          let debt :=
            Debt.with_paid_amount (Debt.paid_amount debt + payment_amount) debt in
          let debt := Debt.with_payment_proof creditor_proof debt in
          let debt :=
            if Debt.balance debt <=? 0
            then Debt.with_date_paid (Some (now w)) (Debt.with_status "paid" debt)
            else debt in
          let db := save_debt debt db in
          let payment :=
            Payment.init w (new_payment_id db) (Debt.id debt)
              (Debt.debtor debt) payment_amount "cash" in
          let payment := Payment.with_status "completed" payment in
          let payment := Payment.with_payment_date (Some (now w)) payment in
          let payment := Payment.with_verified_at (Some (now w)) payment in
          let payment := Payment.with_creditor_proof creditor_proof payment in
          let '(payment, db) := save_payment w payment db in
          let db := create_notification
            {| notif_user := Debt.debtor debt;
               notification_type := "payment_confirmed";
               message := full_name (user request) +:+
                 " has marked your debt of " +:+ peso +:+
                 fmt2f payment_amount +:+ " as paid.";
               related_debt := Some (Debt.id debt) |} db in
          {| out_db := db; out_session := session request;
             response := redirect "myapp:creditor_dashboard" None;
             messages :=
               [(SUCCESS, "Debt marked as paid (" +:+ peso +:+
                          fmt2f payment_amount +:+ ").")] |}
      else reply db request (render "mark_as_paid.html" []) []
  end.

(** [pay_debt]: the page that offers the payment methods. *)
Definition pay_debt (db : DB) (request : HttpRequest) (id : nat) : Outcome :=
  if negb (str_eq (account_type (user request)) "debtor") then
    reply db request (redirect "myapp:home" None)
      [(ERROR, "Only debtors can make payments.")]
  else
  match debts db !! id with
  | None => reply db request Http404 []
  | Some debt =>
      if is_not_user (Debt.debtor debt) (user request) then
        reply db request (redirect "myapp:debtor_dashboard" None)
          [(ERROR, "You can only pay your own debts.")]
      else if negb (str_in (Debt.status debt) ["active"; "pending_confirmation"]) then
        reply db request (redirect "myapp:debtor_dashboard" None)
          [(ERROR, "This debt cannot be paid.")]
      else
        let remaining_balance := Debt.balance debt in
        if remaining_balance <=? 0 then
          reply db request (redirect "myapp:debtor_dashboard" None)
            [(INFO, "This debt is already fully paid.")]
        else reply db request (render "payment_method.html" []) []
  end.

(** [submit_payment]. *)
Definition submit_payment (db : DB) (request : HttpRequest) (id : nat)
    : Outcome :=
  if negb (str_eq (account_type (user request)) "debtor") then
    reply db request (redirect "myapp:home" None)
      [(ERROR, "Only debtors can make payments.")]
  else
  match debts db !! id with
  | None => reply db request Http404 []
  | Some debt =>
      if is_not_user (Debt.debtor debt) (user request) then
        reply db request (redirect "myapp:debtor_dashboard" None)
          [(ERROR, "You can only pay your own debts.")]
      else if str_eq (method request) "POST" then
        let method_ := strip (default "" (POST request !! "method")) in
        match float_of_str (default "0" (POST request !! "amount")) with
        | None =>
            reply db request (redirect "myapp:pay_debt" (Some id))
              [(ERROR, "Invalid payment amount.")]
        | Some payment_amount =>
            let remaining_balance := Debt.balance debt in
            if payment_amount <=? 0 then
              reply db request (redirect "myapp:pay_debt" (Some id))
                [(ERROR, "Payment amount must be greater than zero.")]
            else if payment_amount >? remaining_balance then
              reply db request (redirect "myapp:pay_debt" (Some id))
                [(ERROR, "Payment amount cannot exceed remaining balance (" +:+
                         peso +:+ fmt2f remaining_balance +:+ ").")]
            else
              let sess :=
                Session.mk (Some (Debt.id debt)) (Some payment_amount)
                           (Some method_) in
              if str_eq method_ "cash" then
                {| out_db := db; out_session := sess;
                   response := redirect "myapp:upload_debtor_proof" (Some 0%nat);
                   messages := [] |}
              else if str_eq method_ "gcash" then
                {| out_db := db; out_session := sess;
                   response := redirect "myapp:gcash_payment" None;
                   messages := [] |}
              else
                {| out_db := db; out_session := sess;
                   response := redirect "myapp:pay_debt" (Some id);
                   messages := [(ERROR, "Invalid payment method selected.")] |}
        end
      else reply db request (redirect "myapp:pay_debt" (Some id)) []
  end.

(** Clearing the three payment keys of the session. *)
Definition clear_payment_session (s : Session.t) : Session.t :=
  Session.mk None None None.

(** [payment.receipt_file.save(f'receipt_{payment.receipt_no}.pdf', ...)]
    followed by [payment.save()], when reportlab is installed. *)
Definition attach_receipt (w : World) (payment : Payment.t) (db : DB)
    : Payment.t * DB :=
  if REPORTLAB_AVAILABLE w then
    let payment :=
      Payment.with_receipt_file
        (Some ("receipt_" +:+ Payment.receipt_no payment +:+ ".pdf")) payment in
    save_payment w payment db
  else (payment, db).

(** [not debt_id] on [request.session.get('payment_debt_id')]. *)
Definition session_debt_id (s : Session.t) : option nat :=
  match Session.payment_debt_id s with
  | None => None
  | Some O => None
  | Some pk => Some pk
  end.

(** [gcash_payment]: the mock gateway. *)
Definition gcash_payment (db : DB) (w : World) (request : HttpRequest)
    : Outcome :=
  if negb (str_eq (account_type (user request)) "debtor") then
    reply db request (redirect "myapp:creditor_dashboard" None) []
  else
  match session_debt_id (session request) with
  | None =>
      reply db request (redirect "myapp:debtor_dashboard" None)
        [(ERROR, "No payment session found. Please start a new payment.")]
  | Some debt_id =>
  match debts db !! debt_id with
  | None => reply db request Http404 []
  | Some debt =>
      if is_not_user (Debt.debtor debt) (user request) then
        reply db request (redirect "myapp:debtor_dashboard" None)
          [(ERROR, "Access denied.")]
      else if str_eq (method request) "POST" then
        let payment_amount :=
          default (Debt.balance debt)
                  (Session.payment_amount (session request)) in
        let payment :=
          Payment.init w (new_payment_id db) (Debt.id debt)
            (user_id (user request)) payment_amount "gcash" in
        let payment := Payment.with_status "completed" payment in
        let payment := Payment.with_payment_date (Some (now w)) payment in
        let payment := Payment.with_verified_at (Some (now w)) payment in
        let '(payment, db) := save_payment w payment db in
        let debt :=
          Debt.with_paid_amount (Debt.paid_amount debt + payment_amount) debt in
        let debt :=
          if Debt.balance debt <=? 0
          then Debt.with_date_paid (Some (now w)) (Debt.with_status "paid" debt)
          else debt in
        let db := save_debt debt db in
        let '(payment, db) := attach_receipt w payment db in
        let sess := clear_payment_session (session request) in
        let db := create_notification
          {| notif_user := user_id (user request);
             notification_type := "payment_success";
             message := "Your payment of " +:+ peso +:+ fmt2f payment_amount +:+
                        " via GCash was successful!";
             related_debt := Some (Debt.id debt) |} db in
        let db := create_notification
          {| notif_user := Debt.creditor debt;
             notification_type := "payment_received";
             message := full_name (user request) +:+ " has paid " +:+ peso +:+
                        fmt2f payment_amount +:+ " via GCash.";
             related_debt := Some (Debt.id debt) |} db in
        {| out_db := db; out_session := sess;
           response := redirect "myapp:payment_success" (Some (Payment.id payment));
           messages :=
             [(SUCCESS, "Payment of " +:+ peso +:+ fmt2f payment_amount +:+
                        " processed successfully!")] |}
      else reply db request (render "mock_gcash_payment.html" []) []
  end
  end.

(** [upload_debtor_proof]: the debtor's proof of a cash payment.  The
    [payment_id] of the URL is not used by the view. *)
Definition upload_debtor_proof (db : DB) (w : World) (request : HttpRequest)
    (payment_id : nat) : Outcome :=
  if negb (str_eq (account_type (user request)) "debtor") then
    reply db request (redirect "myapp:home" None)
      [(ERROR, "Only debtors can upload payment proof.")]
  else
  let payment_amount := default 0 (Session.payment_amount (session request)) in
  match session_debt_id (session request) with
  | None =>
      reply db request (redirect "myapp:debtor_dashboard" None)
        [(ERROR, "No payment session found. Please start a new payment.")]
  | Some debt_id =>
  match debts db !! debt_id with
  | None => reply db request Http404 []
  | Some debt =>
      if is_not_user (Debt.debtor debt) (user request) then
        reply db request (redirect "myapp:debtor_dashboard" None)
          [(ERROR, "Access denied.")]
      else if str_eq (method request) "POST" then
        let proof_file := FILES request !! "proof" in
        if file_falsy proof_file then
          reply db request (render "upload_debtor_proof.html" [])
            [(ERROR, "Please upload a proof of payment.")]
        else
          let payment :=
            Payment.init w (new_payment_id db) (Debt.id debt)
              (user_id (user request)) payment_amount "cash" in
          let payment := Payment.with_status "pending_confirmation" payment in
          let payment := Payment.with_debtor_proof proof_file payment in
          let '(payment, db) := save_payment w payment db in
          (* "don't update paid_amount yet" *)
          let debt := Debt.with_status "awaiting_confirmation" debt in
          let db := save_debt debt db in
          let sess := clear_payment_session (session request) in
          let db := create_notification
            {| notif_user := user_id (user request);
               notification_type := "payment_submitted";
               message := "Your payment proof of " +:+ peso +:+
                          fmt2f payment_amount +:+
                          " has been uploaded. Waiting for creditor confirmation.";
               related_debt := Some (Debt.id debt) |} db in
          let db := create_notification
            {| notif_user := Debt.creditor debt;
               notification_type := "payment_proof_received";
               message := full_name (user request) +:+
                          " has uploaded proof of cash payment (" +:+ peso +:+
                          fmt2f payment_amount +:+
                          "). Please review and confirm.";
               related_debt := Some (Debt.id debt) |} db in
          {| out_db := db; out_session := sess;
             response := redirect "myapp:payment_success" (Some (Payment.id payment));
             messages :=
               [(SUCCESS, "Payment proof uploaded! Waiting for creditor confirmation.")] |}
      else reply db request (render "upload_debtor_proof.html" []) []
  end
  end.

(** [confirm_cash_payment]: the creditor confirms or rejects the proof. *)
Definition confirm_cash_payment (db : DB) (w : World) (request : HttpRequest)
    (payment_id : nat) : Outcome :=
  if negb (str_eq (account_type (user request)) "creditor") then
    reply db request (redirect "myapp:home" None)
      [(ERROR, "Only creditors can confirm payments.")]
  else
  match payments db !! payment_id with
  | None => reply db request Http404 []
  | Some payment =>
  match debts db !! Payment.debt payment with
  | None => reply db request ServerError []
  | Some debt =>
      if is_not_user (Debt.creditor debt) (user request) then
        reply db request (redirect "myapp:creditor_dashboard" None)
          [(ERROR, "You can only confirm payments for your debts.")]
      else if negb (str_eq (Payment.status payment) "pending_confirmation") then
        reply db request (redirect "myapp:creditor_dashboard" None)
          [(ERROR, "This payment has already been processed.")]
      else if str_eq (method request) "POST" then
        let action := POST request !! "action" in
        if bool_decide (action = Some "confirm") then
          let payment := Payment.with_status "completed" payment in
          let payment := Payment.with_verified_at (Some (now w)) payment in
          let payment := Payment.with_payment_date (Some (now w)) payment in
          let '(payment, db) := save_payment w payment db in
          let debt :=
            Debt.with_paid_amount
              (Debt.paid_amount debt + Payment.amount payment) debt in
          let debt :=
            if Debt.balance debt <=? 0
            then Debt.with_date_paid (Some (now w)) (Debt.with_status "paid" debt)
            else Debt.with_status "active" debt in
          let db := save_debt debt db in
          let '(payment, db) := attach_receipt w payment db in
          let db := create_notification
            {| notif_user := Payment.payer payment;
               notification_type := "payment_confirmed";
               message := "Your cash payment of " +:+ peso +:+
                          fmt2f (Payment.amount payment) +:+
                          " has been confirmed by " +:+
                          full_name (user request) +:+ "!";
               related_debt := Some (Debt.id debt) |} db in
          {| out_db := db; out_session := session request;
             response := redirect "myapp:creditor_dashboard" None;
             messages :=
               [(SUCCESS, "Payment of " +:+ peso +:+
                          fmt2f (Payment.amount payment) +:+
                          " confirmed successfully!")] |}
        else if bool_decide (action = Some "reject") then
          let payment := Payment.with_status "rejected" payment in
          let '(payment, db) := save_payment w payment db in
          let debt := Debt.with_status "active" debt in
          let db := save_debt debt db in
          let db := create_notification
            {| notif_user := Payment.payer payment;
               notification_type := "payment_rejected";
               message := "Your payment proof of " +:+ peso +:+
                          fmt2f (Payment.amount payment) +:+
                          " was rejected. Please contact " +:+
                          full_name (user request) +:+ " for clarification.";
               related_debt := Some (Debt.id debt) |} db in
          {| out_db := db; out_session := session request;
             response := redirect "myapp:creditor_dashboard" None;
             messages := [(WARNING, "Payment proof rejected.")] |}
        else reply db request (redirect "myapp:creditor_dashboard" None) []
      else reply db request (render "confirm_cash_payment.html" []) []
  end
  end.

(** [@user_passes_test(is_superuser)]: anyone else is sent to the login
    page. *)
Definition login_redirect (db : DB) (request : HttpRequest) : Outcome :=
  reply db request (redirect "login" None) [].

(** [admin_approve_payment].  Both of its [redirect('admin_payments')]
    name a URL that urls.py defines only inside the namespace [myapp]
    ([app_name]), so [reverse] raises [NoReverseMatch]: the request ends in
    a server error, after the writes and the flash message. *)
Definition admin_approve_payment (db : DB) (w : World) (request : HttpRequest)
    (payment_id : nat) : Outcome :=
  if negb (is_superuser (user request)) then login_redirect db request else
  match payments db !! payment_id with
  | None => reply db request Http404 []
  | Some payment =>
      if str_eq (method request) "POST" then
        let payment := Payment.with_status "completed" payment in
        let payment := Payment.with_verified_at (Some (now w)) payment in
        let '(payment, db) := save_payment w payment db in
        match debts db !! Payment.debt payment with
        | None => reply db request ServerError []
        | Some debt =>
            (* debt.paid_amount += payment.amount, on the instance *)
            let debt :=
              Debt.with_paid_amount
                (Debt.paid_amount debt + Payment.amount payment) debt in
            (* the only save() of the debt is inside this call *)
            let '(_, debt, db) := update_payment_status w debt db in
            let db := create_log
              {| log_user := user_id (user request);
                 action := "approve_payment";
                 log_description := "Admin " +:+ username (user request) +:+
                   " approved payment #" +:+ Payment.receipt_no payment;
                 related_id := Some (Payment.id payment) |} db in
            {| out_db := db; out_session := session request;
               response := ServerError;
               messages :=
                 [(SUCCESS, "Payment #" +:+ Payment.receipt_no payment +:+
                            " has been approved.")] |}
        end
      else reply db request ServerError []
  end.

(** [admin_reject_payment]; its redirects fail as those of
    [admin_approve_payment] do. *)
Definition admin_reject_payment (db : DB) (w : World) (request : HttpRequest)
    (payment_id : nat) : Outcome :=
  if negb (is_superuser (user request)) then login_redirect db request else
  match payments db !! payment_id with
  | None => reply db request Http404 []
  | Some payment =>
      if str_eq (method request) "POST" then
        let payment := Payment.with_status "rejected" payment in
        let '(payment, db) := save_payment w payment db in
        let db := create_log
          {| log_user := user_id (user request);
             action := "reject_payment";
             log_description := "Admin " +:+ username (user request) +:+
               " rejected payment #" +:+ Payment.receipt_no payment;
             related_id := Some (Payment.id payment) |} db in
        {| out_db := db; out_session := session request;
           response := ServerError;
           messages :=
             [(SUCCESS, "Payment #" +:+ Payment.receipt_no payment +:+
                        " has been rejected.")] |}
      else reply db request ServerError []
  end.

End Views.

(** ** urls.py: the routes of the lifecycle *)

Inductive Route :=
  | add_debt_url (data : DebtFormData)
  | confirm_debt_url (id : nat)
  | reject_debt_url (id : nat)
  | mark_paid_url (id : nat)
  | pay_debt_url (id : nat)
  | submit_payment_url (id : nat)
  | gcash_payment_url
  | upload_debtor_proof_url (payment_id : nat)
  | confirm_cash_payment_url (payment_id : nat)
  | admin_approve_payment_url (payment_id : nat)
  | admin_reject_payment_url (payment_id : nat).

Definition dispatch (float_of_str : string -> option Z) (db : DB) (w : World)
    (request : HttpRequest) (r : Route) : Outcome :=
  match r with
  | add_debt_url data => add_debt db request data
  | confirm_debt_url id => confirm_debt db request id
  | reject_debt_url id => reject_debt db request id
  | mark_paid_url id => mark_as_paid float_of_str db w request id
  | pay_debt_url id => pay_debt db request id
  | submit_payment_url id => submit_payment float_of_str db request id
  | gcash_payment_url => gcash_payment db w request
  | upload_debtor_proof_url pid => upload_debtor_proof db w request pid
  | confirm_cash_payment_url pid => confirm_cash_payment db w request pid
  | admin_approve_payment_url pid => admin_approve_payment db w request pid
  | admin_reject_payment_url pid => admin_reject_payment db w request pid
  end.

(** ** A decimal reader and a small cast, to run the views *)

Definition digit_of (c : ascii) : option Z :=
  let n := N_of_ascii c in
  if ((48 <=? n) && (n <=? 57))%N then Some (Z.of_N (n - 48)) else None.

(** Reads digits into [acc]; stops at the first other character. *)
Fixpoint read_digits (s : string) (acc : Z) (count : nat)
    : Z * nat * string :=
  match s with
  | EmptyString => (acc, count, s)
  | String c s' =>
      match digit_of c with
      | Some d => read_digits s' (10 * acc + d) (S count)
      | None => (acc, count, s)
      end
  end.

(** [float] on the literals the amount inputs submit ([step="0.01"]):
    digits, then at most two decimals, with an optional minus sign.  Every
    other string is refused, so this reader stands for [float] only in the
    examples below; the theorems hold for every reader. *)
Definition float_decimal (s : string) : option Z :=
  let '(neg, body) :=
    match s with
    | String "-"%char s' => (true, s')
    | _ => (false, s)
    end in
  let '(whole, n, rest) := read_digits body 0 0 in
  if Nat.eqb n 0 then None else
  let sign := if neg then (-1) else 1 in
  match rest with
  | EmptyString => Some (sign * (100 * whole))
  | String "."%char frac =>
      match read_digits frac 0 0 with
      | (f, 0%nat, EmptyString) => Some (sign * (100 * whole))
      | (f, 1%nat, EmptyString) => Some (sign * (100 * whole + 10 * f))
      | (f, 2%nat, EmptyString) => Some (sign * (100 * whole + f))
      | _ => None
      end
  | _ => None
  end.

Module Cast.

Definition alice : CustomUser :=
  {| user_id := 1; username := "alice"; full_name := "Alice Reyes";
     account_type := "debtor"; is_superuser := false |}.
Definition bob : CustomUser :=
  {| user_id := 2; username := "bob"; full_name := "Bob Cruz";
     account_type := "creditor"; is_superuser := false |}.
Definition root : CustomUser :=
  {| user_id := 3; username := "root"; full_name := "Site Admin";
     account_type := "admin"; is_superuser := true |}.

Definition db0 : DB :=
  {| users := [alice; bob; root]; debts := ∅; payments := ∅;
     notifications := []; activity_log := [] |}.

Definition world (t : Z) (b : byte) : World :=
  {| now := t; entropy := repeat b 8; uuid4 := "receipt-" +:+ pretty t;
     REPORTLAB_AVAILABLE := true |}.

Definition photo : UploadedFile :=
  {| file_name := "receipt.jpg"; file_size := 52000 |}.

(** A POST from [u] with the given form fields and files. *)
Definition post (u : CustomUser) (fields : list (string * string))
    (files : list (string * UploadedFile)) (s : Session.t) : HttpRequest :=
  {| user := u; method := "POST"; POST := list_to_map fields;
     FILES := list_to_map files; session := s |}.

(** The form of a money debt of [amount] centavos owed to [creditor]. *)
Definition money_form (amount : Z) (creditor : string) : DebtFormData :=
  {| f_type := Valid "money"; f_amount := Valid amount;
     f_product_name := Valid ""; f_description := Valid "";
     f_debt_proof := Valid None; f_creditor_username := Valid creditor |}.

Definition run := dispatch float_decimal.

End Cast.

(** ** Predicates of the statements *)

(** The digits [0-9A-F]. *)
Definition is_upper_hex (c : ascii) : bool :=
  let n := N_of_ascii c in
  (((48 <=? n) && (n <=? 57)) || ((65 <=? n) && (n <=? 70)))%N.

Fixpoint string_forall (P : ascii -> bool) (s : string) : bool :=
  match s with
  | EmptyString => true
  | String c s' => P c && string_forall P s'
  end.

(** An account that is a creditor and has the submitted username. *)
Definition names_creditor (db : DB) (data : DebtFormData) (c : CustomUser)
    : Prop :=
  exists name,
    f_creditor_username data = Valid name /\
    get_user db name = Some c /\
    account_type c = "creditor".

(** Every debt of the table has paid at most its amount. *)
Definition within_amount (db : DB) : Prop :=
  forall (id : nat) (d : Debt.t),
    debts db !! id = Some d -> Debt.paid_amount d <= Debt.amount d.

(** ** Four runs of the application

    Each step is one request; the debtor's browser carries her session from
    one of her requests to the next. *)

Module Trace.
Import Cast.

(** Alice records a debt of 500.00 to Bob, and Bob confirms it. *)
Definition added : Outcome :=
  run db0 (world 1 Byte.x01) (post alice [] [] Session.empty)
      (add_debt_url (money_form 50000 "bob")).
Definition confirmed : Outcome :=
  run (out_db added) (world 2 Byte.x02)
      (post bob [] [] Session.empty) (confirm_debt_url 1).

(** Alice submits a cash payment of 400.00 and uploads her proof. *)
Definition cash1_chosen : Outcome :=
  run (out_db confirmed) (world 3 Byte.x03)
      (post alice [("amount", "400.00"); ("method", "cash")] []
            Session.empty)
      (submit_payment_url 1).
Definition cash1_uploaded : Outcome :=
  run (out_db cash1_chosen) (world 4 Byte.x04)
      (post alice [] [("proof", photo)] (out_session cash1_chosen))
      (upload_debtor_proof_url 0).

(** Before Bob has looked at it, she submits 400.00 in cash once more. *)
Definition cash2_chosen : Outcome :=
  run (out_db cash1_uploaded) (world 5 Byte.x05)
      (post alice [("amount", "400.00"); ("method", "cash")] []
            (out_session cash1_uploaded))
      (submit_payment_url 1).
Definition cash2_uploaded : Outcome :=
  run (out_db cash2_chosen) (world 6 Byte.x06)
      (post alice [] [("proof", photo)] (out_session cash2_chosen))
      (upload_debtor_proof_url 0).

(** Bob confirms the first payment, then the second. *)
Definition cash1_confirmed : Outcome :=
  run (out_db cash2_uploaded) (world 7 Byte.x07)
      (post bob [("action", "confirm")] [] Session.empty)
      (confirm_cash_payment_url 1).
Definition cash2_confirmed : Outcome :=
  run (out_db cash1_confirmed) (world 8 Byte.x08)
      (post bob [("action", "confirm")] [] Session.empty)
      (confirm_cash_payment_url 2).

(** Instead of Bob, the admin approves the first payment while it is
    pending ... *)
Definition admin_approved_pending : Outcome :=
  run (out_db cash1_uploaded) (world 5 Byte.x05)
      (post root [] [] Session.empty) (admin_approve_payment_url 1).

(** ... or approves it after Bob has already confirmed it, on a debt of
    800.00 of which those 400.00 are paid. *)
Definition added800 : Outcome :=
  run db0 (world 1 Byte.x01) (post alice [] [] Session.empty)
      (add_debt_url (money_form 80000 "bob")).
Definition confirmed800 : Outcome :=
  run (out_db added800) (world 2 Byte.x02)
      (post bob [] [] Session.empty) (confirm_debt_url 1).
Definition chosen800 : Outcome :=
  run (out_db confirmed800) (world 3 Byte.x03)
      (post alice [("amount", "400.00"); ("method", "cash")] []
            Session.empty)
      (submit_payment_url 1).
Definition uploaded800 : Outcome :=
  run (out_db chosen800) (world 4 Byte.x04)
      (post alice [] [("proof", photo)] (out_session chosen800))
      (upload_debtor_proof_url 0).
Definition bob_confirmed800 : Outcome :=
  run (out_db uploaded800) (world 5 Byte.x05)
      (post bob [("action", "confirm")] [] Session.empty)
      (confirm_cash_payment_url 1).
Definition bob_again800 : Outcome :=
  run (out_db bob_confirmed800) (world 6 Byte.x06)
      (post bob [("action", "confirm")] [] Session.empty)
      (confirm_cash_payment_url 1).
Definition admin_again800 : Outcome :=
  run (out_db bob_confirmed800) (world 6 Byte.x06)
      (post root [] [] Session.empty) (admin_approve_payment_url 1).

(** The two ways a pending cash payment is rejected. *)
Definition bob_rejected : Outcome :=
  run (out_db cash1_uploaded) (world 5 Byte.x05)
      (post bob [("action", "reject")] [] Session.empty)
      (confirm_cash_payment_url 1).
Definition admin_rejected : Outcome :=
  run (out_db cash1_uploaded) (world 5 Byte.x05)
      (post root [] [] Session.empty) (admin_reject_payment_url 1).

(** Bob rejects the debt; Alice pays it all the same. *)
Definition debt_rejected : Outcome :=
  run (out_db added) (world 2 Byte.x02)
      (post bob [] [] Session.empty) (reject_debt_url 1).
Definition page_refused : Outcome :=
  run (out_db debt_rejected) (world 3 Byte.x03)
      (post alice [] [] Session.empty) (pay_debt_url 1).
Definition gcash_chosen : Outcome :=
  run (out_db debt_rejected) (world 3 Byte.x03)
      (post alice [("amount", "500.00"); ("method", "gcash")] []
            Session.empty)
      (submit_payment_url 1).
Definition gcash_paid : Outcome :=
  run (out_db gcash_chosen) (world 4 Byte.x04)
      (post alice [] [] (out_session gcash_chosen)) gcash_payment_url.

(** Alice owes Bob 0.30, and Bob marks 0.10 of it as paid. *)
Definition added030 : Outcome :=
  run db0 (world 1 Byte.x01) (post alice [] [] Session.empty)
      (add_debt_url (money_form 30 "bob")).
Definition confirmed030 : Outcome :=
  run (out_db added030) (world 2 Byte.x02)
      (post bob [] [] Session.empty) (confirm_debt_url 1).
Definition marked010 : Outcome :=
  run (out_db confirmed030) (world 3 Byte.x03)
      (post bob [("payment_amount", "0.10")] [("creditor_proof", photo)]
            Session.empty)
      (mark_paid_url 1).

End Trace.

(** ** views.py: the other debt views *)

(** [upload_proof_of_release]: the creditor's proof that the money or item
    was handed over; it activates a pending debt. *)
Definition upload_proof_of_release (db : DB) (request : HttpRequest)
    (id : nat) : Outcome :=
  match debts db !! id with
  | None => reply db request Http404 []
  | Some debt =>
      if is_not_user (Debt.creditor debt) (user request) then
        reply db request (redirect "myapp:creditor_dashboard" None)
          [(ERROR, "You can only upload proof for debts where you are the creditor.")]
      else if negb (str_eq (Debt.status debt) "pending_confirmation")
              && negb (str_eq (Debt.status debt) "active") then
        reply db request (redirect "myapp:creditor_dashboard" None)
          [(ERROR, "Cannot upload proof for this debt.")]
      else if str_eq (method request) "POST" then
        let proof_file := FILES request !! "creditor_proof" in
        if negb (file_falsy proof_file) then
          let debt := Debt.with_creditor_proof proof_file debt in
          let debt :=
            if str_eq (Debt.status debt) "pending_confirmation"
            then Debt.with_status "active" debt else debt in
          let db := save_debt debt db in
          let db := create_notification
            {| notif_user := Debt.debtor debt;
               notification_type := "proof_uploaded";
               message := full_name (user request) +:+
                 " has uploaded proof of release for the debt of " +:+ peso +:+
                 fmt2f (Debt.amount debt) +:+ ".";
               related_debt := Some (Debt.id debt) |} db in
          {| out_db := db; out_session := session request;
             response := redirect "myapp:creditor_dashboard" None;
             messages := [(SUCCESS, "Proof of release uploaded successfully!")] |}
        else
          reply db request (redirect "myapp:creditor_dashboard" None)
            [(ERROR, "Please select a file to upload.")]
      else reply db request (render "upload_proof_of_release.html" []) []
  end.

(** [debt.delete()]: the row goes, and with it the rows that point to it
    through a [ForeignKey(..., on_delete=CASCADE)]: its payments and its
    notifications.  A notification would also go with a deleted payment it
    points to, but no view sets [related_payment] and [Notification] leaves
    the field out.  (Of the two [post_delete] receivers of signals.py, one
    only resets the id sequence of an empty table and the other returns at
    once, [ENABLE_DEBT_RENUMBERING] being [False].) *)
Definition delete_cascade (self : Debt.t) (db : DB) : DB :=
  {| users := users db;
     debts := delete (Debt.id self) (debts db);
     payments :=
       filter (fun kp => Payment.debt kp.2 <> Debt.id self) (payments db);
     notifications :=
       filter (fun n => related_debt n <> Some (Debt.id self))
              (notifications db);
     activity_log := activity_log db |}.

Definition with_hidden_from_debtor (b : bool) (d : Debt.t) : Debt.t :=
  Debt.mk (Debt.id d) (Debt.creditor d) (Debt.debtor d) (Debt.type_ d)
    (Debt.amount d) (Debt.product_name d) (Debt.description d)
    (Debt.debt_proof d) (Debt.creditor_proof d) (Debt.payment_proof d)
    (Debt.paid_amount d) (Debt.status d) b (Debt.hidden_from_creditor d)
    (Debt.date_paid d).

(** [delete_debt]: the debtor removes a debt from her list. *)
Definition delete_debt (db : DB) (request : HttpRequest) (id : nat)
    : Outcome :=
  match debts db !! id with
  | None => reply db request Http404 []
  | Some debt =>
      if is_not_user (Debt.debtor debt) (user request) then
        reply db request (redirect "myapp:debtor_dashboard" None)
          [(ERROR, "You can only delete your own debts.")]
      else if negb (str_in (Debt.status debt)
                      ["pending_confirmation"; "rejected"; "paid"]) then
        reply db request (redirect "myapp:debtor_dashboard" None)
          [(ERROR, "You can only delete debts that are pending confirmation, rejected, or fully paid.")]
      else if str_eq (method request) "POST" then
        let debt_status := Debt.status debt in
        if str_eq debt_status "paid" then
          (* soft delete: hide from the debtor only *)
          let debt := with_hidden_from_debtor true debt in
          let db := save_debt debt db in
          {| out_db := db; out_session := session request;
             response := redirect "myapp:debtor_dashboard" None;
             messages :=
               [(SUCCESS, "Paid debt removed from your view. Creditor records remain intact.")] |}
        else
          let db := delete_cascade debt db in
          {| out_db := db; out_session := session request;
             response := redirect "myapp:debtor_dashboard" None;
             messages := [(SUCCESS, "Debt deleted successfully.")] |}
      else reply db request (redirect "myapp:debtor_dashboard" None) []
  end.

(** [creditor_delete_debt]: the creditor deletes a paid debt ("hard delete
    since hidden_from_creditor field is commented out for production"). *)
Definition creditor_delete_debt (db : DB) (request : HttpRequest) (id : nat)
    : Outcome :=
  match debts db !! id with
  | None => reply db request Http404 []
  | Some debt =>
      if is_not_user (Debt.creditor debt) (user request) then
        reply db request (redirect "myapp:creditor_dashboard" None)
          [(ERROR, "You can only delete debts where you are the creditor.")]
      else if negb (str_eq (Debt.status debt) "paid") then
        reply db request (redirect "myapp:creditor_dashboard" None)
          [(ERROR, "You can only delete debts that are fully paid.")]
      else if str_eq (method request) "POST" then
        let db := delete_cascade debt db in
        {| out_db := db; out_session := session request;
           response := redirect "myapp:creditor_dashboard" None;
           messages := [(SUCCESS, "Paid debt deleted successfully.")] |}
      else reply db request (redirect "myapp:creditor_dashboard" None) []
  end.

(** [send_reminder]: a notification to the debtor of an unpaid debt.  The
    view does not look at [request.method]. *)
Definition send_reminder (db : DB) (request : HttpRequest) (id : nat)
    : Outcome :=
  if negb (str_eq (account_type (user request)) "creditor") then
    reply db request (redirect "myapp:home" None)
      [(ERROR, "Only creditors can send reminders.")]
  else
  match debts db !! id with
  | None => reply db request Http404 []
  | Some debt =>
      if is_not_user (Debt.creditor debt) (user request) then
        reply db request (redirect "myapp:creditor_dashboard" None)
          [(ERROR, "You can only send reminders for your own debts.")]
      else if str_eq (Debt.status debt) "paid" then
        reply db request (redirect "myapp:creditor_dashboard" None)
          [(INFO, "This debt is already paid.")]
      else
        let db := create_notification
          {| notif_user := Debt.debtor debt;
             notification_type := "payment_reminder";
             message := "Reminder: You have an outstanding debt of " +:+ peso +:+
                        fmt2f (Debt.balance debt) +:+ " to " +:+
                        full_name (user request) +:+ ".";
             related_debt := Some (Debt.id debt) |} db in
        {| out_db := db; out_session := session request;
           response := redirect "myapp:creditor_dashboard" None;
           messages :=
             [(SUCCESS, "Payment reminder sent to " +:+
                        full_name_of db (Debt.debtor debt) +:+ ".")] |}
  end.

(** The routes of these four views, beside those of the payment flow. *)
Inductive Page :=
  | lifecycle (r : Route)
  | upload_proof_of_release_url (id : nat)
  | delete_debt_url (id : nat)
  | creditor_delete_debt_url (id : nat)
  | send_reminder_url (id : nat).

Definition serve (float_of_str : string -> option Z) (db : DB) (w : World)
    (request : HttpRequest) (page : Page) : Outcome :=
  match page with
  | lifecycle r => dispatch float_of_str db w request r
  | upload_proof_of_release_url id => upload_proof_of_release db request id
  | delete_debt_url id => delete_debt db request id
  | creditor_delete_debt_url id => creditor_delete_debt db request id
  | send_reminder_url id => send_reminder db request id
  end.

(** ** views.py: the grouping loop of [all_debts_view] *)

Section Grouping.

(** The loop adds Python floats, and float addition is not associative: the
    sums are kept as the code computes them.  [F] stands for the floats,
    [float] for the conversion of a [Decimal] (here in centavos) and [fadd]
    for [+]. *)
Variable F : Type.
Variable float : Z -> F.
Variable fadd : F -> F -> F.

(** One value of [debtors_dict] in [all_debts_view]. *)
Record DebtorGroup := {
  group_debtor : nat;
  group_debts : list Debt.t;
  total_amount : F;
  total_paid : F;
  total_balance : F
}.

(** [debtors_dict[debtor_id]] after the loop body has run for [debt]: the
    debt is appended and the three sums grow. *)
Definition group_add (debt : Debt.t) (g : DebtorGroup) : DebtorGroup :=
  {| group_debtor := group_debtor g;
     group_debts := (group_debts g ++ [debt])%list;
     total_amount := fadd (total_amount g) (float (Debt.amount debt));
     total_paid := fadd (total_paid g) (float (Debt.paid_amount debt));
     total_balance := fadd (total_balance g) (float (Debt.balance debt)) |}.

(** The entry a debtor gets when first met; its sums start at [0]. *)
Definition group_new (debtor_id : nat) : DebtorGroup :=
  {| group_debtor := debtor_id; group_debts := [];
     total_amount := float 0; total_paid := float 0;
     total_balance := float 0 |}.

(** A [dict] keeps its keys in the order they were first set:
    [d[k] = f(d[k])] for a key that is present. *)
Fixpoint dict_update (k : nat) (f : DebtorGroup -> DebtorGroup)
    (d : list (nat * DebtorGroup)) : list (nat * DebtorGroup) :=
  match d with
  | [] => []
  | (k', g) :: d' =>
      if Nat.eqb k' k then (k', f g) :: d' else (k', g) :: dict_update k f d'
  end.

(** [k in d]. *)
Definition dict_has (k : nat) (d : list (nat * DebtorGroup)) : bool :=
  existsb (fun kg => Nat.eqb kg.1 k) d.

(** The body of the loop of [all_debts_view] for one debt. *)
Definition group_step (debtors_dict : list (nat * DebtorGroup))
    (debt : Debt.t) : list (nat * DebtorGroup) :=
  let debtor_id := Debt.debtor debt in
  let debtors_dict :=
    if negb (dict_has debtor_id debtors_dict)
    then (debtors_dict ++ [(debtor_id, group_new debtor_id)])%list
    else debtors_dict in
  dict_update debtor_id (group_add debt) debtors_dict.

(** The loop of [all_debts_view]: the creditor's debts, grouped by debtor. *)
Definition group_by_debtor (debts : list Debt.t) : list (nat * DebtorGroup) :=
  fold_left group_step debts [].

(** [total] after [total += float(f(d))] for each [d] of [debts] in turn,
    from [0]. *)
Definition running_total (f : Debt.t -> Z) (debts : list Debt.t) : F :=
  fold_left (fun total d => fadd total (float (f d))) debts (float 0).

(** What the grouping has built once it has gone through [debts]: an entry
    holds its debtor's debts in order and their three running sums. *)
Definition grouped (groups : list (nat * DebtorGroup)) (debts : list Debt.t)
    : Prop :=
  NoDup groups.*1 /\
  (forall d, d ∈ debts -> Debt.debtor d ∈ groups.*1) /\
  forall (k : nat) (g : DebtorGroup),
    (k, g) ∈ groups ->
    group_debtor g = k /\
    group_debts g = filter (fun d => Debt.debtor d = k) debts /\
    total_amount g = running_total Debt.amount (group_debts g) /\
    total_paid g = running_total Debt.paid_amount (group_debts g) /\
    total_balance g = running_total Debt.balance (group_debts g).

End Grouping.

Arguments group_debtor {F} _.
Arguments group_debts {F} _.
Arguments total_amount {F} _.
Arguments total_paid {F} _.
Arguments total_balance {F} _.
Arguments group_add {F} float fadd debt g.
Arguments group_new {F} float debtor_id.
Arguments dict_update {F} k f d.
Arguments dict_has {F} k d.
Arguments group_step {F} float fadd debtors_dict debt.
Arguments group_by_debtor {F} float fadd debts.
Arguments running_total {F} float fadd f debts.
Arguments grouped {F} float fadd groups debts.

(** ** Predicates of the invariants *)

(** Every row is stored under its own primary key. *)
Definition keyed (db : DB) : Prop :=
  (forall (k : nat) (d : Debt.t), debts db !! k = Some d -> Debt.id d = k) /\
  (forall (k : nat) (p : Payment.t),
     payments db !! k = Some p -> Payment.id p = k).

(** Every payment belongs to a debt of the table. *)
Definition attached (db : DB) : Prop :=
  forall (k : nat) (p : Payment.t),
    payments db !! k = Some p -> is_Some (debts db !! Payment.debt p).

(** [Debt.STATUS_CHOICES]. *)
Definition STATUS_CHOICES : list string :=
  ["pending_confirmation"; "active"; "awaiting_confirmation"; "rejected";
   "paid"].

(** Every debt has one of the declared statuses. *)
Definition statuses_declared (db : DB) : Prop :=
  forall (k : nat) (d : Debt.t),
    debts db !! k = Some d -> Debt.status d ∈ STATUS_CHOICES.

(** What a request may change in a debt: everything but who owes what to
    whom. *)
Definition same_terms (d d' : Debt.t) : Prop :=
  Debt.id d' = Debt.id d /\
  Debt.creditor d' = Debt.creditor d /\
  Debt.debtor d' = Debt.debtor d /\
  Debt.type_ d' = Debt.type_ d /\
  Debt.amount d' = Debt.amount d /\
  Debt.product_name d' = Debt.product_name d /\
  Debt.debt_proof d' = Debt.debt_proof d.

(** What a request may change in a payment: its status, its dates, its
    generated fields. *)
Definition same_payment (p p' : Payment.t) : Prop :=
  Payment.id p' = Payment.id p /\
  Payment.debt p' = Payment.debt p /\
  Payment.payer p' = Payment.payer p /\
  Payment.amount p' = Payment.amount p /\
  Payment.method p' = Payment.method p /\
  Payment.receipt_no p' = Payment.receipt_no p.

(** What one request does to the debt table: nothing, or it rewrites one
    debt without touching its terms, or it adds a pending debt under a
    fresh key. *)
Definition debts_change (db db' : DB) : Prop :=
  debts db' = debts db \/
  (exists (k : nat) (d d' : Debt.t),
     debts db !! k = Some d /\
     debts db' = <[Debt.id d := d']> (debts db) /\
     same_terms d d' /\
     (Debt.status d' = Debt.status d \/ Debt.status d' ∈ STATUS_CHOICES)) \/
  (exists d' : Debt.t,
     debts db' = <[new_debt_id db := d']> (debts db) /\
     Debt.id d' = new_debt_id db /\
     Debt.status d' = "pending_confirmation").

(** What one request does to the payment table: nothing, or it rewrites
    one payment, or it adds a payment of an existing debt under a fresh
    key. *)
Definition payments_change (db db' : DB) : Prop :=
  payments db' = payments db \/
  (exists (k : nat) (p p' : Payment.t),
     payments db !! k = Some p /\
     payments db' = <[Payment.id p := p']> (payments db) /\
     same_payment p p') \/
  (exists (k : nat) (d : Debt.t) (p' : Payment.t),
     debts db !! k = Some d /\
     payments db' = <[new_payment_id db := p']> (payments db) /\
     Payment.id p' = new_payment_id db /\
     Payment.debt p' = Debt.id d /\
     is_Some (debts db' !! Debt.id d)).

(** One request of the payment flow, seen from the tables. *)
Definition lifecycle_step (db db' : DB) : Prop :=
  users db' = users db /\
  debts_change db db' /\
  payments_change db db' /\
  (exists new, notifications db' = (new ++ notifications db)%list /\
               (List.length new <= 2)%nat) /\
  (exists new, activity_log db' = (new ++ activity_log db)%list /\
               (List.length new <= 1)%nat).

(** The three together. *)
Definition well_formed (db : DB) : Prop :=
  keyed db /\ attached db /\ statuses_declared db.

(** The accounts alone, before any debt is recorded. *)
Definition fresh_db (accounts : list CustomUser) : DB :=
  {| users := accounts; debts := ∅; payments := ∅;
     notifications := []; activity_log := [] |}.

(** A sequence of requests, each in its world, served one after the
    other. *)
Definition serve_all (float_of_str : string -> option Z) (db : DB)
    (requests : list (World * HttpRequest * Page)) : DB :=
  fold_left
    (fun db wrp => out_db (serve float_of_str db wrp.1.1 wrp.1.2 wrp.2))
    requests db.

(** ** Predicates of the money statements *)

(** The four views that take money in: the others are meant to leave the
    amounts alone. *)
Definition takes_money (page : Page) : bool :=
  match page with
  | lifecycle (mark_paid_url _) => true
  | lifecycle gcash_payment_url => true
  | lifecycle (confirm_cash_payment_url _) => true
  | lifecycle (admin_approve_payment_url _) => true
  | _ => false
  end.

(** No debt of [db] that is still in [db'] has had its amount, its paid
    amount or its date of payment changed, or has become paid. *)
Definition money_untouched (db db' : DB) : Prop :=
  forall (k : nat) (d d' : Debt.t),
    debts db !! k = Some d ->
    debts db' !! k = Some d' ->
    Debt.amount d' = Debt.amount d /\
    Debt.paid_amount d' = Debt.paid_amount d /\
    Debt.date_paid d' = Debt.date_paid d /\
    (Debt.status d' = "paid" -> Debt.status d = "paid").

(** Every debt that has become paid between [db] and [db'] has nothing
    left to pay and is dated [now]. *)
Definition paid_when_settled (w : World) (db db' : DB) : Prop :=
  forall (k : nat) (d d' : Debt.t),
    debts db !! k = Some d ->
    Debt.status d <> "paid" ->
    debts db' !! k = Some d' ->
    Debt.status d' = "paid" ->
    Debt.balance d' = 0 /\ Debt.date_paid d' = Some (now w).

(** * Properties *)

(** ** Strings, keys and tables *)

Lemma str_eq_true (x y : string) : str_eq x y = true <-> x = y.
Proof. unfold str_eq. apply String.eqb_eq. Qed.

Lemma str_eq_refl (x : string) : str_eq x x = true.
Proof. by apply str_eq_true. Qed.

Lemma str_eq_false (x y : string) : str_eq x y = false <-> x <> y.
Proof. unfold str_eq. apply String.eqb_neq. Qed.

Lemma is_not_user_false (pk : nat) (u : CustomUser) :
  pk = user_id u -> is_not_user pk u = false.
Proof. intros ->. unfold is_not_user. by rewrite Nat.eqb_refl. Qed.

Lemma file_falsy_named (f : UploadedFile) :
  file_name f <> "" -> file_falsy (Some f) = false.
Proof. intros H. simpl. unfold str_falsy. by apply str_eq_false. Qed.

Lemma new_payment_id_fresh (db : DB) : payments db !! new_payment_id db = None.
Proof.
  apply not_elem_of_dom. unfold new_payment_id.
  pose proof (is_fresh ({[0%nat]} ∪ dom (payments db))) as H. set_solver.
Qed.

Lemma new_debt_id_fresh (db : DB) : debts db !! new_debt_id db = None.
Proof.
  apply not_elem_of_dom. unfold new_debt_id.
  pose proof (is_fresh ({[0%nat]} ∪ dom (debts db))) as H. set_solver.
Qed.

Lemma new_debt_id_nonzero (db : DB) : new_debt_id db <> 0%nat.
Proof.
  unfold new_debt_id.
  pose proof (is_fresh ({[0%nat]} ∪ dom (debts db))) as H. set_solver.
Qed.

(** ** The balance *)

Lemma balance_nonneg (d : Debt.t) : 0 <= Debt.balance d.
Proof. unfold Debt.balance. lia. Qed.

Lemma balance_le_amount (d : Debt.t) :
  0 <= Debt.paid_amount d -> 0 <= Debt.amount d ->
  Debt.balance d <= Debt.amount d.
Proof. unfold Debt.balance. lia. Qed.

Lemma balance_within (d : Debt.t) :
  Debt.paid_amount d <= Debt.amount d ->
  Debt.balance d = Debt.amount d - Debt.paid_amount d.
Proof. unfold Debt.balance. lia. Qed.


Lemma max0_not_negative (x : PrimFloat.float) :
  PrimFloat.ltb (max0 x) (PrimFloat.of_uint63 (Uint63.of_Z 0)) = false.
Proof.
  unfold max0.
  destruct (PrimFloat.ltb (PrimFloat.of_uint63 (Uint63.of_Z 0)) x) eqn:H;
    [| reflexivity].
  rewrite FloatAxioms.ltb_spec in *.
  change (FloatOps.Prim2SF (PrimFloat.of_uint63 (Uint63.of_Z 0)))
    with (SpecFloat.S754_zero false) in *.
  destruct (FloatOps.Prim2SF x) as [[] | [] | | [] m e]; cbn in *;
    try discriminate; reflexivity.
Qed.

Lemma sub_self_not_positive (x : PrimFloat.float) :
  PrimFloat.ltb (PrimFloat.of_uint63 (Uint63.of_Z 0)) (PrimFloat.sub x x)
  = false.
Proof.
  rewrite FloatAxioms.ltb_spec, FloatAxioms.sub_spec.
  change (FloatOps.Prim2SF (PrimFloat.of_uint63 (Uint63.of_Z 0)))
    with (SpecFloat.S754_zero false).
  destruct (FloatOps.Prim2SF x) as [[] | [] | | s m e]; try reflexivity.
  unfold FloatAxioms.SF64sub, SpecFloat.SFsub.
  rewrite Z.sub_diag. reflexivity.
Qed.



(** ** [Payment.save] *)

Lemma upper_hex_digit (n : N) :
  (n < 16)%N -> is_upper_hex (upper_ascii (hex_digit n)) = true.
Proof.
  intros Hn.
  assert (Hall : forallb
            (fun k => is_upper_hex (upper_ascii (hex_digit (N.of_nat k))))
            (seq 0 16) = true) by reflexivity.
  rewrite forallb_forall in Hall.
  specialize (Hall (N.to_nat n)).
  rewrite N2Nat.id in Hall. apply Hall.
  apply in_seq. lia.
Qed.

Lemma upper_hex_all (bs : list byte) :
  string_forall is_upper_hex (upper (hex bs)) = true.
Proof.
  induction bs as [| b bs IH]; [reflexivity |].
  pose proof (Byte.to_N_bounded b) as Hb.
  cbn [hex upper string_forall].
  rewrite !upper_hex_digit, IH; [reflexivity | |].
  - apply N.mod_lt. lia.
  - apply N.Div0.div_lt_upper_bound. lia.
Qed.

Lemma length_hex (bs : list byte) :
  String.length (upper (hex bs)) = (2 * List.length bs)%nat.
Proof.
  induction bs as [| b bs IH]; [reflexivity |].
  cbn [hex upper String.length List.length]. rewrite IH. lia.
Qed.

Lemma pre_save_transaction_id (w : World) (p : Payment.t) :
  Payment.transaction_id (Payment.pre_save w p) =
  if str_falsy (Payment.transaction_id p)
  then "TXN-" +:+ upper (token_hex w 8)
  else Payment.transaction_id p.
Proof.
  destruct p as [pk d u a m dp cp pd st rn tid rf va].
  unfold Payment.pre_save, str_falsy, str_eq.
  destruct (tid =? "")%string eqn:Et, (st =? "completed")%string eqn:Es, pd, va;
    repeat (cbn; rewrite ?Et, ?Es); reflexivity.
Qed.

Lemma pre_save_status (w : World) (p : Payment.t) :
  Payment.status (Payment.pre_save w p) = Payment.status p.
Proof.
  destruct p as [pk d u a m dp cp pd st rn tid rf va].
  unfold Payment.pre_save, str_falsy, str_eq.
  destruct (tid =? "")%string eqn:Et, (st =? "completed")%string eqn:Es, pd, va;
    repeat (cbn; rewrite ?Et, ?Es); reflexivity.
Qed.

Lemma pre_save_payment_date (w : World) (p : Payment.t) :
  Payment.payment_date (Payment.pre_save w p) =
  if str_eq (Payment.status p) "completed" && none_falsy (Payment.payment_date p)
  then Some (now w)
  else Payment.payment_date p.
Proof.
  destruct p as [pk d u a m dp cp pd st rn tid rf va].
  unfold Payment.pre_save, str_falsy, str_eq.
  destruct (tid =? "")%string eqn:Et, (st =? "completed")%string eqn:Es, pd, va;
    repeat (cbn; rewrite ?Et, ?Es); reflexivity.
Qed.

Lemma pre_save_verified_at (w : World) (p : Payment.t) :
  Payment.verified_at (Payment.pre_save w p) =
  if str_eq (Payment.status p) "completed" && none_falsy (Payment.verified_at p)
  then Some (now w)
  else Payment.verified_at p.
Proof.
  destruct p as [pk d u a m dp cp pd st rn tid rf va].
  unfold Payment.pre_save, str_falsy, str_eq.
  destruct (tid =? "")%string eqn:Et, (st =? "completed")%string eqn:Es, pd, va;
    repeat (cbn; rewrite ?Et, ?Es); reflexivity.
Qed.

Lemma pre_save_frame (w : World) (p : Payment.t) :
  Payment.id (Payment.pre_save w p) = Payment.id p /\
  Payment.debt (Payment.pre_save w p) = Payment.debt p /\
  Payment.payer (Payment.pre_save w p) = Payment.payer p /\
  Payment.amount (Payment.pre_save w p) = Payment.amount p /\
  Payment.method (Payment.pre_save w p) = Payment.method p /\
  Payment.receipt_no (Payment.pre_save w p) = Payment.receipt_no p.
Proof.
  destruct p as [pk d u a m dp cp pd st rn tid rf va].
  unfold Payment.pre_save, str_falsy, str_eq.
  destruct (tid =? "")%string eqn:Et, (st =? "completed")%string eqn:Es, pd, va;
    repeat (cbn; rewrite ?Et, ?Es); repeat split; reflexivity.
Qed.

Lemma pre_save_id (w : World) (p : Payment.t) :
  Payment.id (Payment.pre_save w p) = Payment.id p.
Proof. apply pre_save_frame. Qed.

Lemma pre_save_debt (w : World) (p : Payment.t) :
  Payment.debt (Payment.pre_save w p) = Payment.debt p.
Proof. apply pre_save_frame. Qed.

Lemma pre_save_amount (w : World) (p : Payment.t) :
  Payment.amount (Payment.pre_save w p) = Payment.amount p.
Proof. apply pre_save_frame. Qed.

(** C9.  A [Payment] built without a status is 'completed'; its first
    [save()] stamps [payment_date] and [verified_at] with the current time
    and gives it the [transaction_id] 'TXN-' followed by upper-case
    hexadecimal digits; and no later [save()] of any payment replaces a
    [transaction_id], a [payment_date] or a [verified_at] that is set. *)
Theorem payment_save_stamps_once
    (w w' : World) (db db' : DB) (pk debt_id payer_id : nat) (amt : Z)
    (meth : string) :
  let p0 := Payment.init w pk debt_id payer_id amt meth in
  let p1 := (save_payment w p0 db).1 in
  Payment.status p0 = "completed" /\
  payments (save_payment w p0 db).2 !! pk = Some p1 /\
  Payment.payment_date p1 = Some (now w) /\
  Payment.verified_at p1 = Some (now w) /\
  Payment.transaction_id p1 = "TXN-" +:+ upper (token_hex w 8) /\
  string_forall is_upper_hex (upper (token_hex w 8)) = true /\
  (forall p : Payment.t,
     Payment.transaction_id p <> "" ->
     Payment.transaction_id (save_payment w' p db').1 = Payment.transaction_id p) /\
  (forall (p : Payment.t) (t : Z),
     Payment.payment_date p = Some t ->
     Payment.payment_date (save_payment w' p db').1 = Some t) /\
  (forall (p : Payment.t) (t : Z),
     Payment.verified_at p = Some t ->
     Payment.verified_at (save_payment w' p db').1 = Some t) /\
  save_payment w' p1 db' = (p1, (save_payment w' p1 db').2).
Proof.
  cbn zeta. cbn [save_payment fst snd].
  split_and!.
  - reflexivity.
  - cbn. apply lookup_insert_eq.
  - reflexivity.
  - reflexivity.
  - reflexivity.
  - apply upper_hex_all.
  - intros p Hp. rewrite pre_save_transaction_id.
    apply str_eq_false in Hp. unfold str_falsy. by rewrite Hp.
  - intros p t Hp. rewrite pre_save_payment_date, Hp.
    by rewrite andb_false_r.
  - intros p t Hp. rewrite pre_save_verified_at, Hp.
    by rewrite andb_false_r.
  - reflexivity.
Qed.

(** The first payment of [Trace], saved again an hour later with other
    random bytes: the three fields stay. *)
Lemma payment_save_stamps_once_witness :
  let w := Cast.world 7 Byte.x2a in
  let w' := Cast.world 3607 Byte.xff in
  let p1 := (save_payment w (Payment.init w 1 1 1 40000 "cash") Cast.db0).1 in
  Payment.transaction_id p1 = "TXN-2A2A2A2A2A2A2A2A" /\
  Payment.transaction_id (save_payment w' p1 Cast.db0).1 = "TXN-2A2A2A2A2A2A2A2A" /\
  Payment.payment_date (save_payment w' p1 Cast.db0).1 = Some 7 /\
  Payment.verified_at (save_payment w' p1 Cast.db0).1 = Some 7.
Proof.
  intros w w' p1.
  pose proof (payment_save_stamps_once w w' Cast.db0 Cast.db0 1 1 1 40000 "cash")
    as (_ & _ & Hd & Hv & Ht & _ & Ktid & Kdate & Kver & _).
  split; [exact Ht |].
  split; [rewrite (Ktid p1); [exact Ht | vm_compute; discriminate] |].
  split; [exact (Kdate p1 7 Hd) | exact (Kver p1 7 Hv)].
Defined.

(** ** [add_debt] *)

Lemma clean_creditor_username_valid (db : DB) (name v : string) :
  clean_creditor_username db name = Valid v ->
  v = name /\
  exists c, get_user db name = Some c /\ account_type c = "creditor".
Proof.
  unfold clean_creditor_username.
  destruct (get_user db name) as [c |]; [| discriminate].
  destruct (str_eq (account_type c) "creditor") eqn:E; cbn; [| discriminate].
  intros [= <-]. split; [reflexivity |].
  exists c. split; [reflexivity | by apply str_eq_true].
Qed.

Lemma clean_creditor_username_invalid (db : DB) (name : string) :
  (forall c, get_user db name = Some c -> account_type c <> "creditor") ->
  exists e, clean_creditor_username db name = Invalid e.
Proof.
  intros H. unfold clean_creditor_username.
  destruct (get_user db name) as [c |]; [| eauto].
  specialize (H c eq_refl). apply str_eq_false in H. rewrite H. cbn. eauto.
Qed.

Lemma is_valid_nil (form : DebtForm) : is_valid form = true -> errors form = [].
Proof. unfold is_valid. by destruct (errors form). Qed.

(** A valid form names a creditor. *)
Lemma full_clean_valid_creditor (db : DB) (data : DebtFormData) :
  is_valid (full_clean db data) = true ->
  exists name c,
    cd_creditor_username (full_clean db data) = Some name /\
    f_creditor_username data = Valid name /\
    get_user db name = Some c /\ account_type c = "creditor".
Proof.
  intros Hv. apply is_valid_nil in Hv. revert Hv.
  unfold full_clean.
  destruct (clean _ _ _) as [clean_errs pn]. cbn [errors cd_creditor_username].
  intros Hv.
  repeat (apply app_eq_nil in Hv; destruct Hv as [? Hv]).
  destruct (f_creditor_username data) as [name | e] eqn:Hname; [| discriminate].
  destruct (clean_creditor_username db name) as [v | e] eqn:Hc; [| discriminate].
  apply clean_creditor_username_valid in Hc as [-> (c & Hg & Hrole)].
  exists name, c. by cbn.
Qed.

(** A form whose username names no creditor has an error on that field. *)
Lemma full_clean_no_creditor (db : DB) (data : DebtFormData) :
  (forall c, ~ names_creditor db data c) ->
  exists msg, ("creditor_username", msg) ∈ errors (full_clean db data).
Proof.
  intros Hno. unfold full_clean.
  destruct (clean _ _ _) as [clean_errs pn]. cbn [errors].
  destruct (f_creditor_username data) as [name | e] eqn:Hname.
  - destruct (clean_creditor_username_invalid db name) as [e He].
    { intros c Hg Hrole. apply (Hno c). exists name. by rewrite Hname. }
    rewrite He. exists e. cbn. set_solver.
  - exists e. cbn. set_solver.
Qed.

(** C6.  [add_debt] creates a debt only when the submitted creditor
    username is that of an existing account whose role is creditor, and the
    debt it creates is owed to that account and is 'pending_confirmation'.
    When the username names no such account nothing is written, and a POST
    by a debtor gets the form back with a validation error on
    [creditor_username]. *)
Theorem add_debt_needs_creditor
    (db : DB) (request : HttpRequest) (data : DebtFormData) :
  let o := add_debt db request data in
  (forall (id : nat) (d : Debt.t),
     debts db !! id = None ->
     debts (out_db o) !! id = Some d ->
     (exists c, names_creditor db data c /\ Debt.creditor d = user_id c) /\
     Debt.status d = "pending_confirmation" /\
     Debt.debtor d = user_id (user request) /\
     response o = redirect "myapp:debtor_dashboard" None) /\
  (response o = redirect "myapp:debtor_dashboard" None ->
   exists d,
     debts db !! new_debt_id db = None /\
     debts (out_db o) !! new_debt_id db = Some d /\
     Debt.status d = "pending_confirmation" /\
     (exists c, names_creditor db data c /\ Debt.creditor d = user_id c)) /\
  ((forall c, ~ names_creditor db data c) ->
   out_db o = db /\
   (account_type (user request) = "debtor" -> method request = "POST" ->
    exists errs msg,
      response o = render "add_debt.html" errs /\
      ("creditor_username", msg) ∈ errs)).
Proof.
  cbn zeta. unfold add_debt.
  destruct (str_eq (account_type (user request)) "debtor") eqn:Hrole; cbn [negb].
  2:{ cbn. split_and!; try done.
      - intros id d Hnone Hsome. congruence.
      - intros _. split; [done |]. intros Hd. apply str_eq_false in Hrole. done. }
  destruct (str_eq (method request) "POST") eqn:Hpost.
  2:{ cbn. split_and!; try done.
      - intros id d Hnone Hsome. congruence.
      - intros _. split; [done |]. intros _ Hm.
        apply str_eq_false in Hpost. done. }
  destruct (is_valid (full_clean db data)) eqn:Hvalid.
  - destruct (full_clean_valid_creditor db data Hvalid)
      as (name & c & Hcd & Hname & Hget & Hc).
    rewrite Hcd. change (default "" (Some name)) with name.
    rewrite Hget. cbn.
    assert (Hcred : names_creditor db data c) by (exists name; done).
    split_and!.
    + intros id d Hnone Hsome.
      destruct (decide (id = new_debt_id db)) as [-> | Hne].
      * rewrite lookup_insert_eq in Hsome. injection Hsome as <-. cbn.
        split_and!; try done. by exists c.
      * rewrite lookup_insert_ne in Hsome by done. congruence.
    + intros _. eexists. split; [apply new_debt_id_fresh |].
      split; [apply lookup_insert_eq |]. cbn. split; [done |]. by exists c.
    + intros Hno. exfalso. by apply (Hno c).
  - cbn. split_and!; try done.
    + intros id d Hnone Hsome. congruence.
    + intros Hno. split; [done |]. intros _ _.
      destruct (full_clean_no_creditor db data Hno) as [msg Hmsg].
      by exists (errors (full_clean db data)), msg.
Qed.

(** Alice's debt to Bob is created; the same form naming herself, a
    debtor, writes nothing. *)
Lemma add_debt_needs_creditor_witness :
  (exists d,
     debts (out_db Trace.added) !! 1%nat = Some d /\
     Debt.status d = "pending_confirmation" /\
     Debt.creditor d = user_id Cast.bob) /\
  out_db (add_debt Cast.db0 (Cast.post Cast.alice [] [] Session.empty)
                   (Cast.money_form 50000 "alice")) = Cast.db0.
Proof.
  split.
  - destruct (add_debt_needs_creditor Cast.db0
                (Cast.post Cast.alice [] [] Session.empty)
                (Cast.money_form 50000 "bob")) as (_ & Hok & _).
    destruct Hok as (d & _ & Hd & Hst & c & Hc & Hcred);
      [vm_compute; reflexivity |].
    exists d. split; [exact Hd |]. split; [exact Hst |].
    destruct Hc as (name & Hname & Hget & _).
    injection Hname as <-. vm_compute in Hget. injection Hget as <-.
    exact Hcred.
  - destruct (add_debt_needs_creditor Cast.db0
                (Cast.post Cast.alice [] [] Session.empty)
                (Cast.money_form 50000 "alice")) as (_ & _ & Hno).
    apply Hno. intros c (name & Hname & Hget & Hrole).
    injection Hname as <-. vm_compute in Hget. injection Hget as <-.
    discriminate Hrole.
Defined.

(** ** [upload_debtor_proof] *)

(** C7.  A debtor who uploads the proof of a cash payment gets a new
    [Payment] with status 'pending_confirmation'; the debt becomes
    'awaiting_confirmation' while its [paid_amount], [amount] and balance
    stay as they were, and no other debt changes. *)
Theorem upload_debtor_proof_defers_payment
    (db : DB) (w : World) (request : HttpRequest) (payment_id debt_id : nat)
    (debt : Debt.t) (proof : UploadedFile) :
  account_type (user request) = "debtor" ->
  session_debt_id (session request) = Some debt_id ->
  debts db !! debt_id = Some debt ->
  Debt.id debt = debt_id ->
  Debt.debtor debt = user_id (user request) ->
  method request = "POST" ->
  FILES request !! "proof" = Some proof ->
  file_name proof <> "" ->
  let o := upload_debtor_proof db w request payment_id in
  payments db !! new_payment_id db = None /\
  (exists p,
     payments (out_db o) !! new_payment_id db = Some p /\
     Payment.status p = "pending_confirmation" /\
     Payment.method p = "cash" /\
     Payment.debt p = debt_id /\
     Payment.payer p = user_id (user request) /\
     Payment.amount p = default 0 (Session.payment_amount (session request)) /\
     Payment.payment_date p = None) /\
  (exists d,
     debts (out_db o) !! debt_id = Some d /\
     Debt.status d = "awaiting_confirmation" /\
     Debt.paid_amount d = Debt.paid_amount debt /\
     Debt.amount d = Debt.amount debt /\
     Debt.balance d = Debt.balance debt) /\
  (forall other, other <> debt_id ->
     debts (out_db o) !! other = debts db !! other) /\
  response o = redirect "myapp:payment_success" (Some (new_payment_id db)).
Proof.
  intros Hrole Hsess Hdebt Hid Howner Hpost Hfile Hname. cbn zeta.
  unfold upload_debtor_proof.
  rewrite Hrole, Hsess, Hdebt, Hpost, Hfile.
  rewrite (is_not_user_false _ _ Howner), (file_falsy_named _ Hname).
  cbn. rewrite Hid.
  split_and!.
  - apply new_payment_id_fresh.
  - eexists. split; [apply lookup_insert_eq |]. by cbn.
  - eexists. split; [apply lookup_insert_eq |]. by cbn.
  - intros other Hne. by rewrite lookup_insert_ne.
  - reflexivity.
Qed.

(** The first upload of [Trace]: 400.00 in cash on a debt of 500.00. *)
Lemma upload_debtor_proof_defers_payment_witness :
  exists p d,
    payments (out_db Trace.cash1_uploaded) !! 1%nat = Some p /\
    Payment.status p = "pending_confirmation" /\
    Payment.amount p = 40000 /\
    debts (out_db Trace.cash1_uploaded) !! 1%nat = Some d /\
    Debt.status d = "awaiting_confirmation" /\
    Debt.paid_amount d = 0 /\
    Debt.balance d = 50000.
Proof.
  destruct (upload_debtor_proof_defers_payment
              (out_db Trace.cash1_chosen) (Cast.world 4 Byte.x04)
              (Cast.post Cast.alice [] [("proof", Cast.photo)]
                         (out_session Trace.cash1_chosen))
              0%nat 1%nat
              (Debt.mk 1 2 1 "money" 50000 "" "" None None None 0 "active"
                       false false None)
              Cast.photo)
    as (_ & (p & Hp & Hst & _ & _ & _ & Hamt & _) &
        (d & Hd & Hds & Hpaid & _ & Hbal) & _ & _);
    try (vm_compute; reflexivity).
  { vm_compute. discriminate. }
  exists p, d.
  split; [exact Hp |]. split; [exact Hst |]. split; [exact Hamt |].
  split; [exact Hd |]. split; [exact Hds |]. split; [exact Hpaid | exact Hbal].
Defined.

(** ** [submit_payment] and [mark_as_paid] *)

(** [submit_payment] writes nothing to the database, whatever it answers. *)
Lemma submit_payment_db (float_of_str : string -> option Z) (db : DB)
    (request : HttpRequest) (id : nat) :
  out_db (submit_payment float_of_str db request id) = db.
Proof.
  unfold submit_payment.
  repeat (case_match; try reflexivity).
Qed.

(** What [mark_as_paid] records once its guards are passed: the payment is
    the entered amount, or the balance when that is smaller. *)
Lemma mark_as_paid_records
    (float_of_str : string -> option Z) (db : DB) (w : World)
    (request : HttpRequest) (id : nat) (debt : Debt.t) (proof : UploadedFile) :
  account_type (user request) = "creditor" ->
  debts db !! id = Some debt ->
  Debt.id debt = id ->
  Debt.creditor debt = user_id (user request) ->
  method request = "POST" ->
  FILES request !! "creditor_proof" = Some proof ->
  file_name proof <> "" ->
  let paid := Z.min (entered_amount float_of_str request debt) (Debt.balance debt) in
  let o := mark_as_paid float_of_str db w request id in
  payments db !! new_payment_id db = None /\
  (exists p,
     payments (out_db o) !! new_payment_id db = Some p /\
     Payment.status p = "completed" /\
     Payment.method p = "cash" /\
     Payment.debt p = id /\
     Payment.amount p = paid) /\
  (exists d,
     debts (out_db o) !! id = Some d /\
     Debt.amount d = Debt.amount debt /\
     Debt.paid_amount d = Debt.paid_amount debt + paid) /\
  (forall other, other <> id -> debts (out_db o) !! other = debts db !! other) /\
  response o = redirect "myapp:creditor_dashboard" None /\
  messages o =
    [(SUCCESS, "Debt marked as paid (" +:+ peso +:+ fmt2f paid +:+ ").")].
Proof.
  intros Hrole Hdebt Hid Howner Hpost Hfile Hname. cbn zeta.
  unfold mark_as_paid.
  rewrite Hrole, Hdebt, Hpost, Hfile.
  rewrite (is_not_user_false _ _ Howner), (file_falsy_named _ Hname).
  cbn [str_eq String.eqb Ascii.eqb Bool.eqb negb].
  set (e := entered_amount float_of_str request debt).
  assert (Hmin : (if e >? Debt.balance debt then Debt.balance debt else e)
                 = Z.min e (Debt.balance debt)).
  { destruct (Z.gtb_spec e (Debt.balance debt)); lia. }
  rewrite Hmin. clear Hmin.
  set (paid := Z.min e (Debt.balance debt)).
  split; [apply new_payment_id_fresh |].
  match goal with
  | |- context [if ?b then _ else _] => destruct b
  end; cbn; rewrite Hid;
    (split_and!;
     [ eexists; split; [apply lookup_insert_eq | by cbn]
     | eexists; split; [apply lookup_insert_eq | by cbn]
     | intros other Hne; by rewrite lookup_insert_ne
     | reflexivity
     | reflexivity ]).
Qed.

(** C5.  A debtor's [submit_payment] of an amount that is not positive, or
    that exceeds the balance, is answered with an error message and changes
    neither the database nor the session; a creditor's [mark_as_paid] of an
    amount above the balance succeeds and records a payment of exactly the
    balance. *)
Theorem over_balance_refused_or_capped
    (float_of_str : string -> option Z) (db : DB) (w : World)
    (request : HttpRequest) (id : nat) (debt : Debt.t) (a : Z) :
  debts db !! id = Some debt ->
  Debt.id debt = id ->
  method request = "POST" ->
  (account_type (user request) = "debtor" ->
   Debt.debtor debt = user_id (user request) ->
   float_of_str (default "0" (POST request !! "amount")) = Some a ->
   a <= 0 \/ Debt.balance debt < a ->
   let o := submit_payment float_of_str db request id in
   out_db o = db /\
   out_session o = session request /\
   response o = redirect "myapp:pay_debt" (Some id) /\
   messages o =
     [(ERROR,
       if a <=? 0 then "Payment amount must be greater than zero."
       else "Payment amount cannot exceed remaining balance (" +:+ peso +:+
            fmt2f (Debt.balance debt) +:+ ").")]) /\
  (account_type (user request) = "creditor" ->
   Debt.creditor debt = user_id (user request) ->
   forall (proof : UploadedFile) (s : string),
   FILES request !! "creditor_proof" = Some proof ->
   file_name proof <> "" ->
   POST request !! "payment_amount" = Some s ->
   float_of_str s = Some a ->
   Debt.balance debt < a ->
   let o := mark_as_paid float_of_str db w request id in
   payments db !! new_payment_id db = None /\
   (exists p,
      payments (out_db o) !! new_payment_id db = Some p /\
      Payment.status p = "completed" /\
      Payment.method p = "cash" /\
      Payment.amount p = Debt.balance debt) /\
   (exists d,
      debts (out_db o) !! id = Some d /\
      Debt.paid_amount d = Debt.paid_amount debt + Debt.balance debt) /\
   response o = redirect "myapp:creditor_dashboard" None /\
   messages o =
     [(SUCCESS, "Debt marked as paid (" +:+ peso +:+
                fmt2f (Debt.balance debt) +:+ ").")]).
Proof.
  intros Hdebt Hid Hpost. split.
  - intros Hrole Howner Hfloat Hbad. cbn zeta.
    split; [apply submit_payment_db |].
    unfold submit_payment.
    rewrite Hrole, Hdebt, Hpost, Hfloat, (is_not_user_false _ _ Howner).
    cbn [str_eq String.eqb Ascii.eqb Bool.eqb negb].
    destruct (Z.leb_spec a 0) as [Hle | Hgt]; [by cbn |].
    destruct (Z.gtb_spec a (Debt.balance debt)) as [Hover | Hin]; [by cbn |].
    lia.
  - intros Hrole Howner proof s Hfile Hname Hs Hfloat Hover. cbn zeta.
    pose proof (mark_as_paid_records float_of_str db w request id debt proof
                  Hrole Hdebt Hid Howner Hpost Hfile Hname) as H.
    cbn zeta in H.
    assert (He : entered_amount float_of_str request debt = a).
    { unfold entered_amount. by rewrite Hs, Hfloat. }
    rewrite He in H. rewrite Z.min_r in H by lia.
    destruct H as (Hfresh & (p & Hp & Hst & Hm & _ & Hamt) &
                   (d & Hd & _ & Hpaid) & _ & Hresp & Hmsg).
    split_and!; try done.
    + exists p. done.
    + exists d. done.
Qed.

(** C10.  When [mark_as_paid] is posted without a [payment_amount], or with
    one that [float] does not read, the request still succeeds: the debt's
    whole balance is taken as the amount and recorded as a completed cash
    payment. *)
Theorem mark_as_paid_defaults_to_balance
    (float_of_str : string -> option Z) (db : DB) (w : World)
    (request : HttpRequest) (id : nat) (debt : Debt.t) (proof : UploadedFile) :
  account_type (user request) = "creditor" ->
  debts db !! id = Some debt ->
  Debt.id debt = id ->
  Debt.creditor debt = user_id (user request) ->
  method request = "POST" ->
  FILES request !! "creditor_proof" = Some proof ->
  file_name proof <> "" ->
  (POST request !! "payment_amount" = None \/
   exists s, POST request !! "payment_amount" = Some s /\ float_of_str s = None) ->
  let o := mark_as_paid float_of_str db w request id in
  payments db !! new_payment_id db = None /\
  (exists p,
     payments (out_db o) !! new_payment_id db = Some p /\
     Payment.status p = "completed" /\
     Payment.method p = "cash" /\
     Payment.debt p = id /\
     Payment.amount p = Debt.balance debt) /\
  (exists d,
     debts (out_db o) !! id = Some d /\
     Debt.paid_amount d = Debt.paid_amount debt + Debt.balance debt) /\
  response o = redirect "myapp:creditor_dashboard" None /\
  messages o =
    [(SUCCESS, "Debt marked as paid (" +:+ peso +:+
               fmt2f (Debt.balance debt) +:+ ").")].
Proof.
  intros Hrole Hdebt Hid Howner Hpost Hfile Hname Hamount. cbn zeta.
  pose proof (mark_as_paid_records float_of_str db w request id debt proof
                Hrole Hdebt Hid Howner Hpost Hfile Hname) as H.
  cbn zeta in H.
  assert (He : entered_amount float_of_str request debt = Debt.balance debt).
  { unfold entered_amount.
    destruct Hamount as [-> | (s & -> & ->)]; reflexivity. }
  rewrite He, Z.min_id in H.
  destruct H as (Hfresh & (p & Hp & Hst & Hm & Hpd & Hamt) &
                 (d & Hd & _ & Hpaid) & _ & Hresp & Hmsg).
  split_and!; try done.
  - exists p. done.
  - exists d. done.
Qed.

(** On Alice's active debt of 500.00: her 600.00 are refused, Bob's
    900.00 are recorded as 500.00. *)
Lemma over_balance_refused_or_capped_witness :
  let db := out_db Trace.confirmed in
  let asks :=
    Cast.post Cast.alice [("amount", "600.00"); ("method", "cash")] []
              Session.empty in
  let marks :=
    Cast.post Cast.bob [("payment_amount", "900.00")]
              [("creditor_proof", Cast.photo)] Session.empty in
  (out_db (submit_payment float_decimal db asks 1) = db /\
   messages (submit_payment float_decimal db asks 1) =
     [(ERROR, "Payment amount cannot exceed remaining balance (" +:+ peso +:+
              "500.00).")]) /\
  (exists p,
     payments (out_db (mark_as_paid float_decimal db (Cast.world 3 Byte.x03)
                                    marks 1)) !! 1%nat = Some p /\
     Payment.amount p = 50000).
Proof.
  intros db asks marks.
  set (debt := Debt.mk 1 2 1 "money" 50000 "" "" None None None 0 "active"
                       false false None).
  split.
  - destruct (over_balance_refused_or_capped float_decimal db
                (Cast.world 3 Byte.x03) asks 1%nat debt 60000)
      as [Hsub _]; try (vm_compute; reflexivity).
    destruct Hsub as (Hdb & _ & _ & Hmsg); try (vm_compute; reflexivity).
    { right. vm_compute. reflexivity. }
    split; [exact Hdb | exact Hmsg].
  - destruct (over_balance_refused_or_capped float_decimal db
                (Cast.world 3 Byte.x03) marks 1%nat debt 90000)
      as [_ Hmark]; try (vm_compute; reflexivity).
    destruct (Hmark eq_refl eq_refl Cast.photo "900.00")
      as (_ & (p & Hp & _ & _ & Hamt) & _); try (vm_compute; reflexivity).
    { vm_compute. discriminate. }
    exists p. split; [exact Hp | exact Hamt].
Defined.

(** Bob marks the same debt paid and types "five hundred": the whole
    balance of 500.00 is recorded. *)
Lemma mark_as_paid_defaults_to_balance_witness :
  let marks :=
    Cast.post Cast.bob [("payment_amount", "five hundred")]
              [("creditor_proof", Cast.photo)] Session.empty in
  let o := mark_as_paid float_decimal (out_db Trace.confirmed)
                        (Cast.world 3 Byte.x03) marks 1 in
  (exists p,
     payments (out_db o) !! 1%nat = Some p /\
     Payment.status p = "completed" /\
     Payment.amount p = 50000) /\
  response o = redirect "myapp:creditor_dashboard" None.
Proof.
  intros marks o.
  destruct (mark_as_paid_defaults_to_balance float_decimal
              (out_db Trace.confirmed) (Cast.world 3 Byte.x03) marks 1%nat
              (Debt.mk 1 2 1 "money" 50000 "" "" None None None 0 "active"
                       false false None)
              Cast.photo)
    as (_ & (p & Hp & Hst & _ & _ & Hamt) & _ & Hresp & _);
    try (vm_compute; reflexivity).
  { vm_compute. discriminate. }
  { right. exists "five hundred". split; vm_compute; reflexivity. }
  split; [| exact Hresp].
  exists p. split; [exact Hp |]. split; [exact Hst | exact Hamt].
Defined.

(** ** [confirm_cash_payment] *)

(** Once its guards are passed, a confirmation completes the payment and
    adds its amount to the debt, which becomes 'paid' or 'active'. *)
Lemma confirm_cash_payment_confirms
    (db : DB) (w : World) (request : HttpRequest) (payment_id : nat)
    (payment : Payment.t) (debt : Debt.t) :
  account_type (user request) = "creditor" ->
  payments db !! payment_id = Some payment ->
  Payment.id payment = payment_id ->
  debts db !! Payment.debt payment = Some debt ->
  Debt.id debt = Payment.debt payment ->
  Debt.creditor debt = user_id (user request) ->
  Payment.status payment = "pending_confirmation" ->
  method request = "POST" ->
  POST request !! "action" = Some "confirm" ->
  let o := confirm_cash_payment db w request payment_id in
  (exists p,
     payments (out_db o) !! payment_id = Some p /\
     Payment.status p = "completed" /\
     Payment.amount p = Payment.amount payment) /\
  (exists d,
     debts (out_db o) !! Payment.debt payment = Some d /\
     Debt.amount d = Debt.amount debt /\
     Debt.paid_amount d = Debt.paid_amount debt + Payment.amount payment /\
     Debt.status d = if Debt.balance d <=? 0 then "paid" else "active") /\
  (forall other, other <> Payment.debt payment ->
     debts (out_db o) !! other = debts db !! other).
Proof.
  intros Hrole Hpay Hpid Hdebt Hid Howner Hstatus Hpost Haction. cbn zeta.
  unfold confirm_cash_payment.
  rewrite Hrole, Hpay, Hdebt, Hstatus, Hpost, Haction.
  rewrite (is_not_user_false _ _ Howner).
  cbn [str_eq String.eqb Ascii.eqb Bool.eqb negb].
  rewrite bool_decide_eq_true_2 by reflexivity.
  cbn [save_payment].
  set (p1 := Payment.pre_save w _).
  assert (Kid : Payment.id p1 = payment_id)
    by (unfold p1; by rewrite pre_save_id).
  assert (Kamt : Payment.amount p1 = Payment.amount payment)
    by (unfold p1; by rewrite pre_save_amount).
  assert (Kst : Payment.status p1 = "completed")
    by (unfold p1; by rewrite pre_save_status).
  rewrite Kamt.
  set (d1 := Debt.with_paid_amount _ debt).
  set (d2 := if Debt.balance d1 <=? 0 then _ else _).
  assert (Hd2 : Debt.id d2 = Payment.debt payment /\
                Debt.amount d2 = Debt.amount debt /\
                Debt.paid_amount d2 =
                  Debt.paid_amount debt + Payment.amount payment /\
                Debt.status d2 = if Debt.balance d2 <=? 0 then "paid" else "active").
  { unfold d2. destruct (Debt.balance d1 <=? 0) eqn:Hb; cbn.
    - unfold Debt.balance in *. cbn in *. rewrite Hb. done.
    - unfold Debt.balance in *. cbn in *. rewrite Hb. done. }
  destruct Hd2 as (Hd2id & Hd2amt & Hd2paid & Hd2st).
  assert (Hdebts : (exists d : Debt.t,
             <[Debt.id d2:=d2]> (debts db) !! Payment.debt payment = Some d /\
             Debt.amount d = Debt.amount debt /\
             Debt.paid_amount d =
               Debt.paid_amount debt + Payment.amount payment /\
             Debt.status d = if Debt.balance d <=? 0 then "paid" else "active") /\
           (forall other : nat, other <> Payment.debt payment ->
              <[Debt.id d2:=d2]> (debts db) !! other = debts db !! other)).
  { rewrite Hd2id. split.
    - exists d2. split; [apply lookup_insert_eq | done].
    - intros other Hne. by rewrite lookup_insert_ne. }
  unfold attach_receipt.
  destruct (REPORTLAB_AVAILABLE w); cbn; (split; [| exact Hdebts]).
  - set (p2 := Payment.pre_save w _).
    assert (Kid2 : Payment.id p2 = payment_id)
      by (unfold p2; by rewrite pre_save_id).
    exists p2. rewrite Kid2. split; [apply lookup_insert_eq |].
    unfold p2. by rewrite pre_save_status, pre_save_amount.
  - exists p1. rewrite Kid. split; [apply lookup_insert_eq | done].
Qed.

(** A payment that is not 'pending_confirmation' (a completed one, say) is
    not confirmed again by the creditor: the request is refused and nothing
    is written. *)
Lemma confirm_cash_payment_refuses_processed
    (db : DB) (w : World) (request : HttpRequest) (payment_id : nat)
    (payment : Payment.t) (debt : Debt.t) :
  account_type (user request) = "creditor" ->
  payments db !! payment_id = Some payment ->
  debts db !! Payment.debt payment = Some debt ->
  Debt.creditor debt = user_id (user request) ->
  Payment.status payment <> "pending_confirmation" ->
  confirm_cash_payment db w request payment_id =
  reply db request (redirect "myapp:creditor_dashboard" None)
        [(ERROR, "This payment has already been processed.")].
Proof.
  intros Hrole Hpay Hdebt Howner Hstatus.
  unfold confirm_cash_payment.
  rewrite Hrole, Hpay, Hdebt, (is_not_user_false _ _ Howner).
  apply str_eq_false in Hstatus. rewrite Hstatus. reflexivity.
Qed.

(** Once its guards are passed, a rejection by the creditor marks the
    payment 'rejected' and puts the debt back to 'active', whatever its
    status was, with the same [paid_amount]. *)
Lemma confirm_cash_payment_rejects
    (db : DB) (w : World) (request : HttpRequest) (payment_id : nat)
    (payment : Payment.t) (debt : Debt.t) :
  account_type (user request) = "creditor" ->
  payments db !! payment_id = Some payment ->
  Payment.id payment = payment_id ->
  debts db !! Payment.debt payment = Some debt ->
  Debt.id debt = Payment.debt payment ->
  Debt.creditor debt = user_id (user request) ->
  Payment.status payment = "pending_confirmation" ->
  method request = "POST" ->
  POST request !! "action" = Some "reject" ->
  let o := confirm_cash_payment db w request payment_id in
  (exists p,
     payments (out_db o) !! payment_id = Some p /\
     Payment.status p = "rejected") /\
  (exists d,
     debts (out_db o) !! Payment.debt payment = Some d /\
     Debt.status d = "active" /\
     Debt.paid_amount d = Debt.paid_amount debt /\
     Debt.amount d = Debt.amount debt).
Proof.
  intros Hrole Hpay Hpid Hdebt Hid Howner Hstatus Hpost Haction. cbn zeta.
  unfold confirm_cash_payment.
  rewrite Hrole, Hpay, Hdebt, Hstatus, Hpost, Haction.
  rewrite (is_not_user_false _ _ Howner).
  cbn [str_eq String.eqb Ascii.eqb Bool.eqb negb].
  rewrite bool_decide_eq_false_2 by discriminate.
  rewrite bool_decide_eq_true_2 by reflexivity.
  cbn [save_payment].
  set (p1 := Payment.pre_save w _).
  assert (Kid : Payment.id p1 = payment_id)
    by (unfold p1; by rewrite pre_save_id).
  assert (Kst : Payment.status p1 = "rejected")
    by (unfold p1; by rewrite pre_save_status).
  cbn. rewrite Kid, Hid. split.
  - exists p1. split; [apply lookup_insert_eq | done].
  - eexists. split; [apply lookup_insert_eq | done].
Qed.

(** ** The admin's two payment actions *)

(** [admin_reject_payment] never writes to the debt table. *)
Lemma admin_reject_payment_debts
    (db : DB) (w : World) (request : HttpRequest) (payment_id : nat) :
  debts (out_db (admin_reject_payment db w request payment_id)) = debts db.
Proof.
  unfold admin_reject_payment.
  repeat (case_match; try reflexivity).
Qed.

(** [admin_approve_payment] has no guard on the payment's status: for a
    superuser's POST, a payment of any status is saved as 'completed'. *)
Lemma admin_approve_payment_any_status
    (db : DB) (w : World) (request : HttpRequest) (payment_id : nat)
    (payment : Payment.t) :
  is_superuser (user request) = true ->
  payments db !! payment_id = Some payment ->
  Payment.id payment = payment_id ->
  method request = "POST" ->
  exists p,
    payments (out_db (admin_approve_payment db w request payment_id))
      !! payment_id = Some p /\
    Payment.status p = "completed".
Proof.
  intros Hsuper Hpay Hpid Hpost.
  unfold admin_approve_payment.
  rewrite Hsuper, Hpay, Hpost.
  cbn [str_eq String.eqb Ascii.eqb Bool.eqb negb save_payment].
  set (p1 := Payment.pre_save w _).
  assert (Kid : Payment.id p1 = payment_id)
    by (unfold p1; by rewrite pre_save_id).
  assert (Kst : Payment.status p1 = "completed")
    by (unfold p1; by rewrite pre_save_status).
  cbn [debts].
  destruct (debts db !! Payment.debt p1) as [debt |]; cbn.
  - unfold update_payment_status.
    match goal with
    | |- context [if ?b then _ else _] => destruct b
    end; cbn; exists p1; rewrite Kid;
      (split; [apply lookup_insert_eq | done]).
  - exists p1. rewrite Kid. split; [apply lookup_insert_eq | done].
Qed.

(** ** Where [paid_amount <= amount] is kept *)

Lemma within_amount_insert (db : DB) (key : nat) (d : Debt.t) :
  within_amount db ->
  Debt.paid_amount d <= Debt.amount d ->
  forall (id : nat) (d' : Debt.t),
    <[key := d]> (debts db) !! id = Some d' ->
    Debt.paid_amount d' <= Debt.amount d'.
Proof.
  intros Hdb Hd id d' Hlook.
  destruct (decide (key = id)) as [<- | Hne].
  - rewrite lookup_insert_eq in Hlook. by injection Hlook as <-.
  - rewrite lookup_insert_ne in Hlook by done. by apply (Hdb id).
Qed.

Lemma submit_payment_within_amount
    (float_of_str : string -> option Z) (db : DB) (request : HttpRequest)
    (id : nat) :
  within_amount db ->
  within_amount (out_db (submit_payment float_of_str db request id)).
Proof. by rewrite submit_payment_db. Qed.

Lemma upload_debtor_proof_within_amount
    (db : DB) (w : World) (request : HttpRequest) (payment_id : nat) :
  within_amount db ->
  within_amount (out_db (upload_debtor_proof db w request payment_id)).
Proof.
  intros Hdb. unfold upload_debtor_proof.
  destruct (negb _); [exact Hdb |].
  destruct (session_debt_id _) as [debt_id |]; [| exact Hdb].
  destruct (debts db !! debt_id) as [debt |] eqn:Hdebt; [| exact Hdb].
  destruct (is_not_user _ _); [exact Hdb |].
  destruct (str_eq (method request) "POST"); [| exact Hdb].
  destruct (file_falsy _); [exact Hdb |].
  cbn. intros k row.
  apply within_amount_insert; [exact Hdb |].
  cbn. by apply (Hdb debt_id).
Qed.

(** X22.  [mark_as_paid] never overpays: whoever requests it and whatever
    amount is typed, if every debt had [paid_amount <= amount] before the
    request, every debt has it afterwards. *)
Lemma mark_as_paid_within_amount
    (float_of_str : string -> option Z) (db : DB) (w : World)
    (request : HttpRequest) (id : nat) :
  within_amount db ->
  within_amount (out_db (mark_as_paid float_of_str db w request id)).
Proof.
  intros Hdb. unfold mark_as_paid.
  destruct (negb _); [exact Hdb |].
  destruct (debts db !! id) as [debt |] eqn:Hdebt; [| exact Hdb].
  destruct (is_not_user _ _); [exact Hdb |].
  destruct (str_eq (method request) "POST"); [| exact Hdb].
  destruct (file_falsy _); [exact Hdb |].
  pose proof (Hdb id debt Hdebt) as Hinv.
  set (e := entered_amount float_of_str request debt).
  set (pa := if e >? Debt.balance debt then Debt.balance debt else e).
  assert (Hpa : Debt.paid_amount debt + pa <= Debt.amount debt).
  { unfold pa, Debt.balance.
    destruct (Z.gtb_spec e (Z.max 0 (Debt.amount debt - Debt.paid_amount debt)));
      lia. }
  match goal with
  | |- context [if ?b then _ else _] => destruct b
  end; cbn; intros k d;
    apply within_amount_insert; try exact Hdb; cbn; exact Hpa.
Qed.

(** [within_amount] of a given table can be checked row by row. *)
Lemma within_amount_check (db : DB) :
  map_Forall (fun _ d => Debt.paid_amount d <= Debt.amount d) (debts db) <->
  within_amount db.
Proof. reflexivity. Qed.

(** ** Where the code leaves the lifecycle *)

(** C1 (not kept by the code).  [confirm_cash_payment] adds the payment's
    amount without looking at the balance.  In [Trace] both cash payments
    of 400.00 passed [submit_payment], each against the untouched balance of
    500.00; before Bob's second confirmation every debt has
    [paid_amount <= amount], after it the debt has 800.00 paid on 500.00. *)
Theorem confirm_cash_payment_overpays :
  within_amount (out_db Trace.cash1_confirmed) /\
  Trace.cash2_confirmed =
    confirm_cash_payment (out_db Trace.cash1_confirmed) (Cast.world 8 Byte.x08)
      (Cast.post Cast.bob [("action", "confirm")] [] Session.empty) 2 /\
  (exists d,
     debts (out_db Trace.cash2_confirmed) !! 1%nat = Some d /\
     Debt.amount d = 50000 /\
     Debt.paid_amount d = 80000 /\
     Debt.status d = "paid") /\
  ~ within_amount (out_db Trace.cash2_confirmed).
Proof.
  assert (Hafter : exists d,
            debts (out_db Trace.cash2_confirmed) !! 1%nat = Some d /\
            Debt.amount d = 50000 /\
            Debt.paid_amount d = 80000 /\
            Debt.status d = "paid").
  { eexists. split; [vm_compute; reflexivity |]. by cbn. }
  split_and!.
  - apply within_amount_check. apply (bool_decide_unpack _). by vm_compute.
  - reflexivity.
  - exact Hafter.
  - intros Hall. destruct Hafter as (d & Hd & Ha & Hp & _).
    specialize (Hall 1%nat d Hd). lia.
Qed.

(** The same happens on the GCash route when the balance shrinks between
    [submit_payment] and the POST to the gateway: Alice chooses to pay
    500.00, Bob marks the debt paid, and her payment still goes through. *)
Lemma gcash_payment_overpays :
  let chosen :=
    Cast.run (out_db Trace.confirmed) (Cast.world 3 Byte.x03)
      (Cast.post Cast.alice [("amount", "500.00"); ("method", "gcash")] []
                 Session.empty)
      (submit_payment_url 1) in
  let marked :=
    Cast.run (out_db chosen) (Cast.world 4 Byte.x04)
      (Cast.post Cast.bob [] [("creditor_proof", Cast.photo)] Session.empty)
      (mark_paid_url 1) in
  let paid :=
    Cast.run (out_db marked) (Cast.world 5 Byte.x05)
      (Cast.post Cast.alice [] [] (out_session chosen)) gcash_payment_url in
  within_amount (out_db marked) /\
  exists d,
    debts (out_db paid) !! 1%nat = Some d /\
    Debt.amount d = 50000 /\ Debt.paid_amount d = 100000.
Proof.
  cbn zeta. split.
  - apply within_amount_check. apply (bool_decide_unpack _). by vm_compute.
  - eexists. split; [vm_compute; reflexivity |]. by cbn.
Qed.

(** C2 (not kept by the admin route).  Bob's confirmation adds the 400.00
    once, and his second attempt on the completed payment is refused with
    nothing written.  [admin_approve_payment] has no such guard: on the same
    completed payment it records the approval, with its success message,
    and the debt goes from 400.00 to 800.00 paid.  And when the admin approves the payment while it is
    still pending, the payment is completed but the debt, which
    [update_payment_status] does not save unless it becomes 'paid' from
    'active', keeps [paid_amount] 0. *)
Theorem admin_approve_payment_applies_again :
  (exists p d,
     payments (out_db Trace.bob_confirmed800) !! 1%nat = Some p /\
     Payment.status p = "completed" /\ Payment.amount p = 40000 /\
     debts (out_db Trace.bob_confirmed800) !! 1%nat = Some d /\
     Debt.amount d = 80000 /\ Debt.paid_amount d = 40000) /\
  (out_db Trace.bob_again800 = out_db Trace.bob_confirmed800 /\
   messages Trace.bob_again800 =
     [(ERROR, "This payment has already been processed.")]) /\
  (messages Trace.admin_again800 =
     [(SUCCESS, "Payment #receipt-4 has been approved.")] /\
   exists d,
     debts (out_db Trace.admin_again800) !! 1%nat = Some d /\
     Debt.paid_amount d = 80000 /\ Debt.status d = "paid") /\
  (exists p d,
     payments (out_db Trace.admin_approved_pending) !! 1%nat = Some p /\
     Payment.status p = "completed" /\ Payment.amount p = 40000 /\
     debts (out_db Trace.admin_approved_pending) !! 1%nat = Some d /\
     Debt.paid_amount d = 0 /\ Debt.status d = "awaiting_confirmation").
Proof.
  assert (Hrefused :
      Trace.bob_again800 =
      reply (out_db Trace.bob_confirmed800)
        (Cast.post Cast.bob [("action", "confirm")] [] Session.empty)
        (redirect "myapp:creditor_dashboard" None)
        [(ERROR, "This payment has already been processed.")]).
  { eapply (confirm_cash_payment_refuses_processed _ _ _ _ _ _);
      try (vm_compute; reflexivity).
    vm_compute. discriminate. }
  split_and!.
  - do 2 eexists. split; [vm_compute; reflexivity |].
    split; [reflexivity |]. split; [reflexivity |].
    split; [vm_compute; reflexivity |]. repeat split.
  - by rewrite Hrefused.
  - by rewrite Hrefused.
  - by vm_compute.
  - eexists. split; [vm_compute; reflexivity |]. repeat split.
  - do 2 eexists. split; [vm_compute; reflexivity |].
    split; [reflexivity |]. split; [reflexivity |].
    split; [vm_compute; reflexivity |]. repeat split.
Qed.

(** C4 (not kept by the admin route).  Rejected by Bob, the pending payment
    of [Trace] becomes 'rejected' and the debt goes back to 'active'.
    Rejected by the admin, the payment becomes 'rejected' and the debt stays
    'awaiting_confirmation': [admin_reject_payment] does not touch it. *)
Theorem admin_reject_payment_leaves_debt_waiting :
  (exists p d,
     payments (out_db Trace.bob_rejected) !! 1%nat = Some p /\
     Payment.status p = "rejected" /\
     debts (out_db Trace.bob_rejected) !! 1%nat = Some d /\
     Debt.status d = "active") /\
  (exists p d,
     payments (out_db Trace.admin_rejected) !! 1%nat = Some p /\
     Payment.status p = "rejected" /\
     debts (out_db Trace.admin_rejected) !! 1%nat = Some d /\
     Debt.status d = "awaiting_confirmation") /\
  debts (out_db Trace.admin_rejected) = debts (out_db Trace.cash1_uploaded).
Proof.
  split_and!.
  - do 2 eexists. split; [vm_compute; reflexivity |].
    split; [reflexivity |]. split; [vm_compute; reflexivity |]. reflexivity.
  - do 2 eexists. split; [vm_compute; reflexivity |].
    split; [reflexivity |]. split; [vm_compute; reflexivity |]. reflexivity.
  - apply admin_reject_payment_debts.
Qed.

(** C8 (not kept by the code).  Only the page [pay_debt] looks at the
    debt's status.  On the debt that Bob rejected, the page refuses Alice,
    but her POST to [submit_payment] is accepted and the POST to the GCash
    gateway that follows creates a completed payment of 500.00 and turns
    the rejected debt into a paid one. *)
Theorem rejected_debt_can_be_paid :
  (exists d,
     debts (out_db Trace.debt_rejected) !! 1%nat = Some d /\
     Debt.status d = "rejected" /\ Debt.paid_amount d = 0) /\
  (response Trace.page_refused = redirect "myapp:debtor_dashboard" None /\
   messages Trace.page_refused = [(ERROR, "This debt cannot be paid.")]) /\
  (response Trace.gcash_chosen = redirect "myapp:gcash_payment" None /\
   messages Trace.gcash_chosen = []) /\
  payments (out_db Trace.gcash_chosen) !! 1%nat = None /\
  (exists p d,
     payments (out_db Trace.gcash_paid) !! 1%nat = Some p /\
     Payment.status p = "completed" /\ Payment.amount p = 50000 /\
     Payment.debt p = 1%nat /\
     debts (out_db Trace.gcash_paid) !! 1%nat = Some d /\
     Debt.status d = "paid" /\ Debt.paid_amount d = 50000).
Proof.
  split_and!.
  - eexists. split; [vm_compute; reflexivity |]. by cbn.
  - by vm_compute.
  - by vm_compute.
  - by vm_compute.
  - by vm_compute.
  - by vm_compute.
  - do 2 eexists. split; [vm_compute; reflexivity |].
    split; [reflexivity |]. split; [reflexivity |]. split; [reflexivity |].
    split; [vm_compute; reflexivity |]. by cbn.
Qed.

(** * More properties of the views *)

Lemma lifecycle_step_refl (db : DB) : lifecycle_step db db.
Proof.
  split_and!; [done | by left | by left | |];
    (exists []; split; [reflexivity | cbn; lia]).
Qed.

Lemma status_declared_active : "active" ∈ STATUS_CHOICES.
Proof. unfold STATUS_CHOICES. set_solver. Qed.
Lemma status_declared_paid : "paid" ∈ STATUS_CHOICES.
Proof. unfold STATUS_CHOICES. set_solver. Qed.
Lemma status_declared_rejected : "rejected" ∈ STATUS_CHOICES.
Proof. unfold STATUS_CHOICES. set_solver. Qed.
Lemma status_declared_awaiting : "awaiting_confirmation" ∈ STATUS_CHOICES.
Proof. unfold STATUS_CHOICES. set_solver. Qed.
Lemma status_declared_pending : "pending_confirmation" ∈ STATUS_CHOICES.
Proof. unfold STATUS_CHOICES. set_solver. Qed.

Lemma add_debt_step (db : DB) (request : HttpRequest) (data : DebtFormData) :
  lifecycle_step db (out_db (add_debt db request data)).
Proof.
  unfold add_debt.
  destruct (negb _); [apply lifecycle_step_refl |].
  destruct (str_eq (method request) "POST"); [| apply lifecycle_step_refl].
  destruct (is_valid _); [| apply lifecycle_step_refl].
  destruct (get_user db _) as [creditor |]; [| apply lifecycle_step_refl].
  cbn. split_and!.
  - done.
  - right. right. eexists. split; [reflexivity |]. by cbn.
  - by left.
  - eexists [_]. split; [reflexivity | cbn; lia].
  - exists []. split; [reflexivity | cbn; lia].
Qed.

Lemma confirm_debt_step (db : DB) (request : HttpRequest) (id : nat) :
  lifecycle_step db (out_db (confirm_debt db request id)).
Proof.
  unfold confirm_debt.
  destruct (debts db !! id) as [debt |] eqn:Hdebt; [| apply lifecycle_step_refl].
  destruct (is_not_user _ _); [apply lifecycle_step_refl |].
  destruct (negb _); [apply lifecycle_step_refl |].
  destruct (str_eq (method request) "POST"); [| apply lifecycle_step_refl].
  cbn. split_and!.
  - done.
  - right. left. exists id, debt. eexists. split; [done |].
    split; [reflexivity |]. split; [by repeat split |].
    right. apply status_declared_active.
  - by left.
  - eexists [_]. split; [reflexivity | cbn; lia].
  - exists []. split; [reflexivity | cbn; lia].
Qed.

Lemma reject_debt_step (db : DB) (request : HttpRequest) (id : nat) :
  lifecycle_step db (out_db (reject_debt db request id)).
Proof.
  unfold reject_debt.
  destruct (debts db !! id) as [debt |] eqn:Hdebt; [| apply lifecycle_step_refl].
  destruct (is_not_user _ _); [apply lifecycle_step_refl |].
  destruct (negb _); [apply lifecycle_step_refl |].
  destruct (str_eq (method request) "POST"); [| apply lifecycle_step_refl].
  cbn. split_and!.
  - done.
  - right. left. exists id, debt. eexists. split; [done |].
    split; [reflexivity |]. split; [by repeat split |].
    right. apply status_declared_rejected.
  - by left.
  - eexists [_]. split; [reflexivity | cbn; lia].
  - exists []. split; [reflexivity | cbn; lia].
Qed.

Lemma pay_debt_db (db : DB) (request : HttpRequest) (id : nat) :
  out_db (pay_debt db request id) = db.
Proof. unfold pay_debt. repeat (case_match; try reflexivity). Qed.

Lemma mark_as_paid_step (float_of_str : string -> option Z) (db : DB)
    (w : World) (request : HttpRequest) (id : nat) :
  lifecycle_step db (out_db (mark_as_paid float_of_str db w request id)).
Proof.
  unfold mark_as_paid.
  destruct (negb _); [apply lifecycle_step_refl |].
  destruct (debts db !! id) as [debt |] eqn:Hdebt; [| apply lifecycle_step_refl].
  destruct (is_not_user _ _); [apply lifecycle_step_refl |].
  destruct (str_eq (method request) "POST"); [| apply lifecycle_step_refl].
  destruct (file_falsy _); [apply lifecycle_step_refl |].
  set (pa := if _ >? _ then _ else _).
  match goal with
  | |- context [if ?b then _ else _] => destruct b
  end; cbn.
  all: split_and!;
    [ done
    | right; left; exists id, debt; eexists; split; [done |];
      split; [reflexivity |]; split; [by repeat split |];
      first [ by left | right; apply status_declared_paid ]
    | right; right; exists id, debt; eexists; split; [done |];
      split; [reflexivity |]; split; [reflexivity |];
      split; [reflexivity |];
      cbn; rewrite lookup_insert_eq; eauto
    | eexists [_]; split; [reflexivity | cbn; lia]
    | exists []; split; [reflexivity | cbn; lia] ].
Qed.

Lemma pre_save_same (w : World) (p : Payment.t) :
  same_payment p (Payment.pre_save w p).
Proof. unfold same_payment. apply pre_save_frame. Qed.

Lemma same_payment_trans (p q r : Payment.t) :
  same_payment p q -> same_payment q r -> same_payment p r.
Proof. unfold same_payment. intros ? ?. destruct_and!. split_and!; congruence. Qed.

Lemma gcash_payment_step (db : DB) (w : World) (request : HttpRequest) :
  lifecycle_step db (out_db (gcash_payment db w request)).
Proof.
  unfold gcash_payment.
  destruct (negb _); [apply lifecycle_step_refl |].
  destruct (session_debt_id _) as [debt_id |]; [| apply lifecycle_step_refl].
  destruct (debts db !! debt_id) as [debt |] eqn:Hdebt; [| apply lifecycle_step_refl].
  destruct (is_not_user _ _); [apply lifecycle_step_refl |].
  destruct (str_eq (method request) "POST"); [| apply lifecycle_step_refl].
  set (pa := default _ _).
  unfold attach_receipt.
  destruct (REPORTLAB_AVAILABLE w);
    match goal with
    | |- context [if ?b then _ else _] => destruct b
    end; cbn; rewrite ?insert_insert_eq.
  all: split_and!;
    [ done
    | right; left; exists debt_id, debt; eexists; split; [done |];
      split; [reflexivity |]; split; [by repeat split |];
      first [ by left | right; apply status_declared_paid ]
    | right; right; exists debt_id, debt; eexists; split; [done |];
      split; [reflexivity |]; split; [reflexivity |];
      split; [reflexivity |];
      cbn; rewrite lookup_insert_eq; eauto
    | eexists [_; _]; split; [reflexivity | cbn; lia]
    | exists []; split; [reflexivity | cbn; lia] ].
Qed.

Lemma upload_debtor_proof_step (db : DB) (w : World) (request : HttpRequest)
    (payment_id : nat) :
  lifecycle_step db (out_db (upload_debtor_proof db w request payment_id)).
Proof.
  unfold upload_debtor_proof.
  destruct (negb _); [apply lifecycle_step_refl |].
  destruct (session_debt_id _) as [debt_id |]; [| apply lifecycle_step_refl].
  destruct (debts db !! debt_id) as [debt |] eqn:Hdebt; [| apply lifecycle_step_refl].
  destruct (is_not_user _ _); [apply lifecycle_step_refl |].
  destruct (str_eq (method request) "POST"); [| apply lifecycle_step_refl].
  destruct (file_falsy _); [apply lifecycle_step_refl |].
  cbn. split_and!.
  - done.
  - right. left. exists debt_id, debt. eexists. split; [done |].
    split; [reflexivity |]. split; [by repeat split |].
    right. apply status_declared_awaiting.
  - right. right. exists debt_id, debt. eexists. split; [done |].
    split; [reflexivity |]. split; [reflexivity |]. split; [reflexivity |].
    cbn. rewrite lookup_insert_eq. eauto.
  - eexists [_; _]. split; [reflexivity | cbn; lia].
  - exists []. split; [reflexivity | cbn; lia].
Qed.

Lemma confirm_cash_payment_step (db : DB) (w : World) (request : HttpRequest)
    (payment_id : nat) :
  lifecycle_step db (out_db (confirm_cash_payment db w request payment_id)).
Proof.
  unfold confirm_cash_payment.
  destruct (negb _); [apply lifecycle_step_refl |].
  destruct (payments db !! payment_id) as [payment |] eqn:Hpay;
    [| apply lifecycle_step_refl].
  destruct (debts db !! Payment.debt payment) as [debt |] eqn:Hdebt;
    [| apply lifecycle_step_refl].
  destruct (is_not_user _ _); [apply lifecycle_step_refl |].
  destruct (negb _); [apply lifecycle_step_refl |].
  destruct (str_eq (method request) "POST"); [| apply lifecycle_step_refl].
  destruct (bool_decide (_ = Some "confirm")).
  - cbn [save_payment].
    set (p1 := Payment.pre_save w _).
    assert (Hp1 : same_payment payment p1).
    { eapply same_payment_trans; [| apply pre_save_same]. by repeat split. }
    pose proof Hp1 as (Kid & _).
    unfold attach_receipt.
    destruct (REPORTLAB_AVAILABLE w); cbn [save_payment].
    + set (p2 := Payment.pre_save w _).
      assert (Hp2 : same_payment payment p2).
      { eapply same_payment_trans; [exact Hp1 |].
        eapply same_payment_trans; [| apply pre_save_same]. by repeat split. }
      pose proof Hp2 as (Kid2 & _).
      match goal with
      | |- context [if ?b then _ else _] => destruct b
      end; cbn; rewrite Kid2, Kid, insert_insert_eq.
      all: split_and!;
        [ done
        | right; left; exists (Payment.debt payment), debt; eexists;
          split; [done |]; split; [reflexivity |];
          split; [by repeat split |]; right;
          first [apply status_declared_paid | apply status_declared_active]
        | right; left; exists payment_id, payment, p2; split; [done |];
          split; [reflexivity | exact Hp2]
        | eexists [_]; split; [reflexivity | cbn; lia]
        | exists []; split; [reflexivity | cbn; lia] ].
    + match goal with
      | |- context [if ?b then _ else _] => destruct b
      end; cbn; rewrite Kid.
      all: split_and!;
        [ done
        | right; left; exists (Payment.debt payment), debt; eexists;
          split; [done |]; split; [reflexivity |];
          split; [by repeat split |]; right;
          first [apply status_declared_paid | apply status_declared_active]
        | right; left; exists payment_id, payment, p1; split; [done |];
          split; [reflexivity | exact Hp1]
        | eexists [_]; split; [reflexivity | cbn; lia]
        | exists []; split; [reflexivity | cbn; lia] ].
  - destruct (bool_decide (_ = Some "reject")); [| apply lifecycle_step_refl].
    cbn [save_payment].
    set (p1 := Payment.pre_save w _).
    assert (Hp1 : same_payment payment p1).
    { eapply same_payment_trans; [| apply pre_save_same]. by repeat split. }
    pose proof Hp1 as (Kid & _).
    cbn. rewrite Kid. split_and!.
    + done.
    + right. left. exists (Payment.debt payment), debt. eexists.
      split; [done |]. split; [reflexivity |]. split; [by repeat split |].
      right. apply status_declared_active.
    + right. left. exists payment_id, payment, p1. split; [done |].
      split; [reflexivity | exact Hp1].
    + eexists [_]. split; [reflexivity | cbn; lia].
    + exists []. split; [reflexivity | cbn; lia].
Qed.

Lemma admin_approve_payment_step (db : DB) (w : World) (request : HttpRequest)
    (payment_id : nat) :
  lifecycle_step db (out_db (admin_approve_payment db w request payment_id)).
Proof.
  unfold admin_approve_payment, login_redirect.
  destruct (negb _); [apply lifecycle_step_refl |].
  destruct (payments db !! payment_id) as [payment |] eqn:Hpay;
    [| apply lifecycle_step_refl].
  destruct (str_eq (method request) "POST"); [| apply lifecycle_step_refl].
  cbn [save_payment].
  set (p1 := Payment.pre_save w _).
  assert (Hp1 : same_payment payment p1).
  { eapply same_payment_trans; [| apply pre_save_same]. by repeat split. }
  pose proof Hp1 as (Kid & Kdebt & _).
  assert (Hpays : forall db',
            payments db' = <[Payment.id p1 := p1]> (payments db) ->
            payments_change db db').
  { intros db' Hdb'. right. left. exists payment_id, payment, p1.
    split; [done |]. split; [by rewrite Hdb', Kid | exact Hp1]. }
  cbn [debts].
  destruct (debts db !! Payment.debt p1) as [debt |] eqn:Hdebt; cbn.
  - unfold update_payment_status.
    match goal with
    | |- context [if ?b then _ else _] => destruct b
    end; cbn.
    + split_and!.
      * done.
      * right. left. exists (Payment.debt p1), debt. eexists.
        split; [done |]. split; [reflexivity |]. split; [by repeat split |].
        right. apply status_declared_paid.
      * by apply Hpays.
      * exists []. split; [reflexivity | cbn; lia].
      * eexists [_]. split; [reflexivity | cbn; lia].
    + split_and!.
      * done.
      * by left.
      * by apply Hpays.
      * exists []. split; [reflexivity | cbn; lia].
      * eexists [_]. split; [reflexivity | cbn; lia].
  - split_and!.
    + done.
    + by left.
    + by apply Hpays.
    + exists []. split; [reflexivity | cbn; lia].
    + exists []. split; [reflexivity | cbn; lia].
Qed.

Lemma admin_reject_payment_step (db : DB) (w : World) (request : HttpRequest)
    (payment_id : nat) :
  lifecycle_step db (out_db (admin_reject_payment db w request payment_id)).
Proof.
  unfold admin_reject_payment, login_redirect.
  destruct (negb _); [apply lifecycle_step_refl |].
  destruct (payments db !! payment_id) as [payment |] eqn:Hpay;
    [| apply lifecycle_step_refl].
  destruct (str_eq (method request) "POST"); [| apply lifecycle_step_refl].
  cbn [save_payment].
  set (p1 := Payment.pre_save w _).
  assert (Hp1 : same_payment payment p1).
  { eapply same_payment_trans; [| apply pre_save_same]. by repeat split. }
  pose proof Hp1 as (Kid & _).
  cbn. rewrite Kid. split_and!.
  - done.
  - by left.
  - right. left. exists payment_id, payment, p1. split; [done |].
    split; [reflexivity | exact Hp1].
  - exists []. split; [reflexivity | cbn; lia].
  - eexists [_]. split; [reflexivity | cbn; lia].
Qed.

(** Every route of the payment flow is one such step. *)
Lemma dispatch_step (float_of_str : string -> option Z) (db : DB) (w : World)
    (request : HttpRequest) (r : Route) :
  lifecycle_step db (out_db (dispatch float_of_str db w request r)).
Proof.
  destruct r; cbn [dispatch].
  - apply add_debt_step.
  - apply confirm_debt_step.
  - apply reject_debt_step.
  - apply mark_as_paid_step.
  - rewrite pay_debt_db. apply lifecycle_step_refl.
  - rewrite submit_payment_db. apply lifecycle_step_refl.
  - apply gcash_payment_step.
  - apply upload_debtor_proof_step.
  - apply confirm_cash_payment_step.
  - apply admin_approve_payment_step.
  - apply admin_reject_payment_step.
Qed.

(** ** What a step keeps *)

Lemma debts_change_grow (db db' : DB) (k : nat) :
  debts_change db db' ->
  is_Some (debts db !! k) -> is_Some (debts db' !! k).
Proof.
  intros [-> | [(k0 & d & d' & _ & -> & _) | (d' & -> & _)]] Hk; [done | |].
  - rewrite lookup_insert. case_decide; eauto.
  - rewrite lookup_insert. case_decide; eauto.
Qed.

Lemma keyed_step (db db' : DB) :
  lifecycle_step db db' -> keyed db -> keyed db'.
Proof.
  intros (_ & Hd & Hp & _) [Kd Kp]. split.
  - intros k row.
    destruct Hd as [-> | [(k0 & d & d' & _ & -> & (Hid & _) & _) |
                           (d' & -> & Hid & _)]]; [apply Kd | |].
    + rewrite lookup_insert. case_decide as Hk; [| apply Kd].
      intros [= <-]. congruence.
    + rewrite lookup_insert. case_decide as Hk; [| apply Kd].
      intros [= <-]. congruence.
  - intros k row.
    destruct Hp as [-> | [(k0 & p & p' & _ & -> & (Hid & _)) |
                           (k0 & d & p' & _ & -> & Hid & _)]]; [apply Kp | |].
    + rewrite lookup_insert. case_decide as Hk; [| apply Kp].
      intros [= <-]. congruence.
    + rewrite lookup_insert. case_decide as Hk; [| apply Kp].
      intros [= <-]. congruence.
Qed.

Lemma attached_step (db db' : DB) :
  lifecycle_step db db' -> attached db -> attached db'.
Proof.
  intros (_ & Hd & Hp & _) Ha k row.
  destruct Hp as [-> | [(k0 & p & p' & Hp0 & -> & (_ & Hdebt & _)) |
                         (k0 & d & p' & _ & -> & _ & Hdebt & Hsome)]].
  - intros Hrow. eapply debts_change_grow; eauto.
  - rewrite lookup_insert. case_decide as Hk.
    + intros [= <-]. rewrite Hdebt. eapply debts_change_grow; eauto.
    + intros Hrow. eapply debts_change_grow; eauto.
  - rewrite lookup_insert. case_decide as Hk.
    + intros [= <-]. by rewrite Hdebt.
    + intros Hrow. eapply debts_change_grow; eauto.
Qed.

Lemma statuses_step (db db' : DB) :
  lifecycle_step db db' -> statuses_declared db -> statuses_declared db'.
Proof.
  intros (_ & Hd & _) Hs k row.
  destruct Hd as [-> | [(k0 & d & d' & Hd0 & -> & _ & Hst) |
                         (d' & -> & _ & Hst)]]; [apply Hs | |].
  - rewrite lookup_insert. case_decide as Hk; [| apply Hs].
    intros [= <-]. destruct Hst as [-> | Hst]; [by eapply Hs | done].
  - rewrite lookup_insert. case_decide as Hk; [| apply Hs].
    intros [= <-]. rewrite Hst. apply status_declared_pending.
Qed.

Lemma well_formed_step (db db' : DB) :
  lifecycle_step db db' -> well_formed db -> well_formed db'.
Proof.
  intros Hstep (Hk & Ha & Hs).
  split_and!; [by eapply keyed_step | by eapply attached_step |
               by eapply statuses_step].
Qed.

Lemma well_formed_delete (self : Debt.t) (db : DB) :
  well_formed db -> well_formed (delete_cascade self db).
Proof.
  intros ([Kd Kp] & Ha & Hs). unfold delete_cascade. split_and!.
  - split; cbn.
    + intros k d Hd. apply lookup_delete_Some in Hd as [_ Hd]. by apply Kd.
    + intros k p Hp. apply map_lookup_filter_Some in Hp as [Hp _].
      by apply Kp.
  - intros k p. cbn. intros Hp.
    apply map_lookup_filter_Some in Hp as [Hp Hne]. cbn in Hne.
    rewrite lookup_delete_ne by done. by eapply Ha.
  - intros k d. cbn. intros Hd.
    apply lookup_delete_Some in Hd as [_ Hd]. by eapply Hs.
Qed.

Lemma upload_proof_of_release_step (db : DB) (request : HttpRequest)
    (id : nat) :
  lifecycle_step db (out_db (upload_proof_of_release db request id)).
Proof.
  unfold upload_proof_of_release.
  destruct (debts db !! id) as [debt |] eqn:Hdebt; [| apply lifecycle_step_refl].
  destruct (is_not_user _ _); [apply lifecycle_step_refl |].
  destruct (_ && _); [apply lifecycle_step_refl |].
  destruct (str_eq (method request) "POST"); [| apply lifecycle_step_refl].
  destruct (negb _); [| apply lifecycle_step_refl].
  cbn [Debt.status Debt.with_creditor_proof].
  destruct (str_eq (Debt.status debt) "pending_confirmation"); cbn.
  all: split_and!;
    [ done
    | right; left; exists id, debt; eexists; split; [done |];
      split; [reflexivity |]; split; [by repeat split |];
      first [ by left | right; apply status_declared_active ]
    | by left
    | eexists [_]; split; [reflexivity | cbn; lia]
    | exists []; split; [reflexivity | cbn; lia] ].
Qed.

Lemma send_reminder_step (db : DB) (request : HttpRequest) (id : nat) :
  lifecycle_step db (out_db (send_reminder db request id)).
Proof.
  unfold send_reminder.
  destruct (negb _); [apply lifecycle_step_refl |].
  destruct (debts db !! id) as [debt |] eqn:Hdebt; [| apply lifecycle_step_refl].
  destruct (is_not_user _ _); [apply lifecycle_step_refl |].
  destruct (str_eq _ _); [apply lifecycle_step_refl |].
  cbn. split_and!; [done | by left | by left | |].
  - eexists [_]. split; [reflexivity | cbn; lia].
  - exists []. split; [reflexivity | cbn; lia].
Qed.

Lemma delete_debt_well_formed (db : DB) (request : HttpRequest) (id : nat) :
  well_formed db -> well_formed (out_db (delete_debt db request id)).
Proof.
  intros Hwf. unfold delete_debt.
  destruct (debts db !! id) as [debt |] eqn:Hdebt; [| exact Hwf].
  destruct (is_not_user _ _); [exact Hwf |].
  destruct (negb _); [exact Hwf |].
  destruct (str_eq (method request) "POST"); [| exact Hwf].
  destruct (str_eq (Debt.status debt) "paid"); cbn [out_db].
  - eapply well_formed_step; [| exact Hwf].
    cbn. split_and!; [done | | by left | |].
    + right. left. exists id, debt. eexists. split; [done |].
      split; [reflexivity |]. split; [by repeat split | by left].
    + exists []. split; [reflexivity | cbn; lia].
    + exists []. split; [reflexivity | cbn; lia].
  - by apply well_formed_delete.
Qed.

Lemma creditor_delete_debt_well_formed (db : DB) (request : HttpRequest)
    (id : nat) :
  well_formed db -> well_formed (out_db (creditor_delete_debt db request id)).
Proof.
  intros Hwf. unfold creditor_delete_debt.
  destruct (debts db !! id) as [debt |] eqn:Hdebt; [| exact Hwf].
  destruct (is_not_user _ _); [exact Hwf |].
  destruct (negb _); [exact Hwf |].
  destruct (str_eq (method request) "POST"); [| exact Hwf].
  by apply well_formed_delete.
Qed.

Lemma serve_well_formed (float_of_str : string -> option Z) (db : DB)
    (w : World) (request : HttpRequest) (page : Page) :
  well_formed db -> well_formed (out_db (serve float_of_str db w request page)).
Proof.
  intros Hwf. destruct page; cbn [serve].
  - eapply well_formed_step; [apply dispatch_step | exact Hwf].
  - eapply well_formed_step; [apply upload_proof_of_release_step | exact Hwf].
  - by apply delete_debt_well_formed.
  - by apply creditor_delete_debt_well_formed.
  - eapply well_formed_step; [apply send_reminder_step | exact Hwf].
Qed.

Lemma fresh_db_well_formed (accounts : list CustomUser) :
  well_formed (fresh_db accounts).
Proof.
  split_and!; [split |..]; intros k x; cbn; by rewrite lookup_empty.
Qed.

(** X1.  Whatever requests are served, in whatever order and by whomever,
    starting from the accounts alone: every debt and payment is stored under
    its own key, every payment belongs to a debt that exists, and every debt
    has one of the five declared statuses. *)
Theorem reachable_well_formed
    (float_of_str : string -> option Z) (accounts : list CustomUser)
    (requests : list (World * HttpRequest * Page)) :
  well_formed (serve_all float_of_str (fresh_db accounts) requests).
Proof.
  unfold serve_all.
  generalize (fresh_db_well_formed accounts).
  generalize (fresh_db accounts) as db.
  induction requests as [| [[w request] page] rest IH]; intros db Hwf;
    [exact Hwf |].
  cbn [fold_left]. apply IH. by apply serve_well_formed.
Qed.

(** X2.  A request of the payment flow never removes a debt and never
    changes who owes what to whom: in a keyed database, a debt found under
    a key before the request is found there afterwards with the same id,
    creditor, debtor, type, amount, product name and proof of debt. *)
Theorem debts_keep_their_terms
    (float_of_str : string -> option Z) (db : DB) (w : World)
    (request : HttpRequest) (r : Route) (k : nat) (d : Debt.t) :
  keyed db ->
  debts db !! k = Some d ->
  exists d',
    debts (out_db (dispatch float_of_str db w request r)) !! k = Some d' /\
    same_terms d d'.
Proof.
  intros [Kd _] Hd.
  destruct (dispatch_step float_of_str db w request r) as (_ & Hstep & _).
  destruct Hstep as [-> | [(k0 & d0 & d' & Hd0 & -> & Hsame & _) |
                            (d' & -> & _)]].
  - exists d. split; [done | by repeat split].
  - rewrite lookup_insert. case_decide as Hk.
    + exists d'. split; [done |].
      assert (k0 = k) as -> by (rewrite <- Hk; symmetry; by apply Kd).
      by replace d with d0 by congruence.
    + exists d. split; [done | by repeat split].
  - rewrite lookup_insert. case_decide as Hk.
    + pose proof (new_debt_id_fresh db) as Hfresh. congruence.
    + exists d. split; [done | by repeat split].
Qed.

Lemma keyed_check (db : DB) :
  map_Forall (fun k d => Debt.id d = k) (debts db) /\
  map_Forall (fun k p => Payment.id p = k) (payments db) <->
  keyed db.
Proof. reflexivity. Qed.

Lemma debts_keep_their_terms_witness :
  exists d',
    debts (out_db Trace.cash2_confirmed) !! 1%nat = Some d' /\
    Debt.amount d' = 50000 /\ Debt.creditor d' = 2%nat /\
    Debt.debtor d' = 1%nat.
Proof.
  destruct (debts_keep_their_terms float_decimal
              (out_db Trace.cash1_confirmed) (Cast.world 8 Byte.x08)
              (Cast.post Cast.bob [("action", "confirm")] [] Session.empty)
              (confirm_cash_payment_url 2) 1%nat
              (Debt.mk 1 2 1 "money" 50000 "" "" None None None 40000
                       "active" false false None))
    as (d' & Hd' & _ & Hc & Hdb & _ & Ha & _).
  - apply keyed_check. split; apply (bool_decide_unpack _); by vm_compute.
  - vm_compute. reflexivity.
  - exists d'. split; [exact Hd' |]. split; [exact Ha |].
    split; [exact Hc | exact Hdb].
Defined.

(** X3.  A request of the payment flow never removes a payment and never
    changes its debt, payer, amount, method or receipt number: in a keyed
    database, a payment found under a key before the request is found there
    afterwards with those fields as they were. *)
Theorem payments_keep_their_terms
    (float_of_str : string -> option Z) (db : DB) (w : World)
    (request : HttpRequest) (r : Route) (k : nat) (p : Payment.t) :
  keyed db ->
  payments db !! k = Some p ->
  exists p',
    payments (out_db (dispatch float_of_str db w request r)) !! k = Some p' /\
    same_payment p p'.
Proof.
  intros [_ Kp] Hp.
  destruct (dispatch_step float_of_str db w request r) as (_ & _ & Hstep & _).
  destruct Hstep as [-> | [(k0 & p0 & p' & Hp0 & -> & Hsame) |
                            (k0 & d & p' & _ & -> & _)]].
  - exists p. split; [done | by repeat split].
  - rewrite lookup_insert. case_decide as Hk.
    + exists p'. split; [done |].
      assert (k0 = k) as -> by (rewrite <- Hk; symmetry; by apply Kp).
      by replace p with p0 by congruence.
    + exists p. split; [done | by repeat split].
  - rewrite lookup_insert. case_decide as Hk.
    + pose proof (new_payment_id_fresh db) as Hfresh. congruence.
    + exists p. split; [done | by repeat split].
Qed.

Lemma payments_keep_their_terms_witness :
  exists p',
    payments (out_db Trace.cash2_confirmed) !! 1%nat = Some p' /\
    Payment.amount p' = 40000 /\ Payment.debt p' = 1%nat /\
    Payment.payer p' = 1%nat.
Proof.
  destruct (payments_keep_their_terms float_decimal
              (out_db Trace.cash1_confirmed) (Cast.world 8 Byte.x08)
              (Cast.post Cast.bob [("action", "confirm")] [] Session.empty)
              (confirm_cash_payment_url 2) 1%nat
              (Payment.mk 1 1 1 40000 "cash" (Some Cast.photo) None (Some 7)
                 "completed" "receipt-4" "TXN-0404040404040404"
                 (Some "receipt_receipt-4.pdf") (Some 7)))
    as (p' & Hp' & _ & Hd & Hpayer & Ha & _).
  - apply keyed_check. split; apply (bool_decide_unpack _); by vm_compute.
  - vm_compute. reflexivity.
  - exists p'. split; [exact Hp' |]. split; [exact Ha |].
    split; [exact Hd | exact Hpayer].
Defined.

(** X4.  A request of the payment flow leaves the accounts alone and never
    deletes or rewrites a notification or an entry of the admin log: it
    adds at most two notifications and at most one log entry in front of
    those that were there. *)
Theorem notifications_only_grow
    (float_of_str : string -> option Z) (db : DB) (w : World)
    (request : HttpRequest) (r : Route) :
  let db' := out_db (dispatch float_of_str db w request r) in
  users db' = users db /\
  (exists new, notifications db' = (new ++ notifications db)%list /\
               (List.length new <= 2)%nat) /\
  (exists new, activity_log db' = (new ++ activity_log db)%list /\
               (List.length new <= 1)%nat).
Proof.
  cbn zeta.
  destruct (dispatch_step float_of_str db w request r)
    as (Hu & _ & _ & Hn & Hl).
  done.
Qed.

(** ** Requests that are not POSTs *)

(** X5.  Every route of the payment flow writes only on POST: with any
    other method the database and the session come back as they were. *)
Theorem only_post_writes
    (float_of_str : string -> option Z) (db : DB) (w : World)
    (request : HttpRequest) (r : Route) :
  method request <> "POST" ->
  out_db (dispatch float_of_str db w request r) = db /\
  out_session (dispatch float_of_str db w request r) = session request.
Proof.
  intros Hm. apply str_eq_false in Hm.
  destruct r; cbn [dispatch].
  - unfold add_debt. rewrite Hm. by case_match.
  - unfold confirm_debt. rewrite Hm. by repeat case_match.
  - unfold reject_debt. rewrite Hm. by repeat case_match.
  - unfold mark_as_paid. rewrite Hm. by repeat case_match.
  - unfold pay_debt. by repeat case_match.
  - unfold submit_payment. rewrite Hm. by repeat case_match.
  - unfold gcash_payment. rewrite Hm. by repeat case_match.
  - unfold upload_debtor_proof. rewrite Hm. by repeat case_match.
  - unfold confirm_cash_payment. rewrite Hm. by repeat case_match.
  - unfold admin_approve_payment, login_redirect. rewrite Hm.
    by repeat case_match.
  - unfold admin_reject_payment, login_redirect. rewrite Hm.
    by repeat case_match.
Qed.

Lemma only_post_writes_witness :
  let get :=
    {| user := Cast.bob; method := "GET";
       POST := {["action" := "confirm"]}; FILES := ∅;
       session := Session.empty |} in
  out_db (dispatch float_decimal (out_db Trace.cash1_uploaded)
            (Cast.world 5 Byte.x05) get (confirm_cash_payment_url 1))
  = out_db Trace.cash1_uploaded.
Proof.
  intros get.
  destruct (only_post_writes float_decimal (out_db Trace.cash1_uploaded)
              (Cast.world 5 Byte.x05) get (confirm_cash_payment_url 1))
    as [Hdb _]; [discriminate | exact Hdb].
Defined.

(** ** Who can change what *)

Lemma is_not_user_true (pk : nat) (u : CustomUser) :
  pk <> user_id u -> is_not_user pk u = true.
Proof.
  intros H. unfold is_not_user. apply negb_true_iff. by apply Nat.eqb_neq.
Qed.

(** X6.  A user who is not a superuser and is neither the creditor nor the
    debtor of any debt changes nothing in the database, whatever page he
    requests, except by recording a new debt of his own with [add_debt]. *)
Theorem strangers_change_nothing
    (float_of_str : string -> option Z) (db : DB) (w : World)
    (request : HttpRequest) (page : Page) :
  is_superuser (user request) = false ->
  (forall (k : nat) (d : Debt.t),
     debts db !! k = Some d ->
     Debt.creditor d <> user_id (user request) /\
     Debt.debtor d <> user_id (user request)) ->
  (forall data, page <> lifecycle (add_debt_url data)) ->
  out_db (serve float_of_str db w request page) = db.
Proof.
  intros Hsuper Hparty Hpage.
  assert (Hc : forall k d, debts db !! k = Some d ->
                 is_not_user (Debt.creditor d) (user request) = true).
  { intros k d Hd. apply is_not_user_true. by apply (Hparty k d). }
  assert (Hd : forall k d, debts db !! k = Some d ->
                 is_not_user (Debt.debtor d) (user request) = true).
  { intros k d Hd. apply is_not_user_true. by apply (Hparty k d). }
  destruct page as [r | id | id | id | id]; cbn [serve].
  - destruct r; cbn [dispatch].
    + by destruct (Hpage data).
    + unfold confirm_debt.
      destruct (debts db !! id) as [debt |] eqn:E; [| done].
      by rewrite (Hc _ _ E).
    + unfold reject_debt.
      destruct (debts db !! id) as [debt |] eqn:E; [| done].
      by rewrite (Hc _ _ E).
    + unfold mark_as_paid. destruct (negb _); [done |].
      destruct (debts db !! id) as [debt |] eqn:E; [| done].
      by rewrite (Hc _ _ E).
    + apply pay_debt_db.
    + apply submit_payment_db.
    + unfold gcash_payment. destruct (negb _); [done |].
      destruct (session_debt_id _) as [debt_id |]; [| done].
      destruct (debts db !! debt_id) as [debt |] eqn:E; [| done].
      by rewrite (Hd _ _ E).
    + unfold upload_debtor_proof. destruct (negb _); [done |].
      destruct (session_debt_id _) as [debt_id |]; [| done].
      destruct (debts db !! debt_id) as [debt |] eqn:E; [| done].
      by rewrite (Hd _ _ E).
    + unfold confirm_cash_payment. destruct (negb _); [done |].
      destruct (payments db !! payment_id) as [payment |]; [| done].
      destruct (debts db !! Payment.debt payment) as [debt |] eqn:E; [| done].
      by rewrite (Hc _ _ E).
    + unfold admin_approve_payment. by rewrite Hsuper.
    + unfold admin_reject_payment. by rewrite Hsuper.
  - unfold upload_proof_of_release.
    destruct (debts db !! id) as [debt |] eqn:E; [| done].
    by rewrite (Hc _ _ E).
  - unfold delete_debt.
    destruct (debts db !! id) as [debt |] eqn:E; [| done].
    by rewrite (Hd _ _ E).
  - unfold creditor_delete_debt.
    destruct (debts db !! id) as [debt |] eqn:E; [| done].
    by rewrite (Hc _ _ E).
  - unfold send_reminder. destruct (negb _); [done |].
    destruct (debts db !! id) as [debt |] eqn:E; [| done].
    by rewrite (Hc _ _ E).
Qed.

(** Carol, a creditor who has no part in Alice's debt to Bob, posts a
    confirmation of Alice's pending payment. *)
Lemma strangers_change_nothing_witness :
  let carol :=
    {| user_id := 9; username := "carol"; full_name := "Carol Tan";
       account_type := "creditor"; is_superuser := false |} in
  out_db (serve float_decimal (out_db Trace.cash1_uploaded)
            (Cast.world 5 Byte.x05)
            (Cast.post carol [("action", "confirm")] [] Session.empty)
            (lifecycle (confirm_cash_payment_url 1)))
  = out_db Trace.cash1_uploaded.
Proof.
  intros carol.
  refine (strangers_change_nothing float_decimal (out_db Trace.cash1_uploaded)
            (Cast.world 5 Byte.x05)
            (Cast.post carol [("action", "confirm")] [] Session.empty)
            (lifecycle (confirm_cash_payment_url 1)) eq_refl _ _).
  - apply (bool_decide_unpack
             (map_Forall (fun _ d =>
                Debt.creditor d <> 9%nat /\ Debt.debtor d <> 9%nat)
                (debts (out_db Trace.cash1_uploaded)))).
    by vm_compute.
  - discriminate.
Defined.

(** ** The creditor's decision on a new debt *)

(** X8.  The creditor's POST to [confirm_debt] turns his pending debt into
    an active one, and his POST to [reject_debt] into a rejected one, with
    the amount and the paid amount untouched.  Either decision is final:
    afterwards no request to [confirm_debt] or [reject_debt], by anyone,
    changes the database. *)
Theorem debt_decision_is_final
    (db : DB) (request later : HttpRequest) (id : nat) (debt : Debt.t) :
  debts db !! id = Some debt ->
  Debt.id debt = id ->
  Debt.creditor debt = user_id (user request) ->
  Debt.status debt = "pending_confirmation" ->
  method request = "POST" ->
  let confirmed := out_db (confirm_debt db request id) in
  let rejected := out_db (reject_debt db request id) in
  debts confirmed !! id = Some (Debt.with_status "active" debt) /\
  debts rejected !! id = Some (Debt.with_status "rejected" debt) /\
  out_db (confirm_debt confirmed later id) = confirmed /\
  out_db (reject_debt confirmed later id) = confirmed /\
  out_db (confirm_debt rejected later id) = rejected /\
  out_db (reject_debt rejected later id) = rejected.
Proof.
  intros Hdebt Hid Howner Hstatus Hpost. cbn zeta.
  assert (Hc : debts (out_db (confirm_debt db request id)) !! id =
               Some (Debt.with_status "active" debt)).
  { unfold confirm_debt.
    rewrite Hdebt, Hstatus, Hpost, (is_not_user_false _ _ Howner).
    cbn. rewrite Hid. apply lookup_insert_eq. }
  assert (Hr : debts (out_db (reject_debt db request id)) !! id =
               Some (Debt.with_status "rejected" debt)).
  { unfold reject_debt.
    rewrite Hdebt, Hstatus, Hpost, (is_not_user_false _ _ Howner).
    cbn. rewrite Hid. apply lookup_insert_eq. }
  split; [exact Hc |]. split; [exact Hr |].
  split_and!.
  - unfold confirm_debt at 1. rewrite Hc. cbn. by destruct (is_not_user _ _).
  - unfold reject_debt at 1. rewrite Hc. cbn. by destruct (is_not_user _ _).
  - unfold confirm_debt at 1. rewrite Hr. cbn. by destruct (is_not_user _ _).
  - unfold reject_debt at 1. rewrite Hr. cbn. by destruct (is_not_user _ _).
Qed.

(** Bob's confirmation in [Trace], and his attempt to reject the debt
    afterwards. *)
Lemma debt_decision_is_final_witness :
  debts (out_db Trace.confirmed) !! 1%nat =
    Some (Debt.mk 1 2 1 "money" 50000 "" "" None None None 0 "active"
                  false false None) /\
  out_db (reject_debt (out_db Trace.confirmed)
            (Cast.post Cast.bob [] [] Session.empty) 1)
  = out_db Trace.confirmed.
Proof.
  destruct (debt_decision_is_final (out_db Trace.added)
              (Cast.post Cast.bob [] [] Session.empty)
              (Cast.post Cast.bob [] [] Session.empty) 1%nat
              (Debt.mk 1 2 1 "money" 50000 "" "" None None None 0
                       "pending_confirmation" false false None))
    as (Hc & _ & _ & Hlater & _);
    [vm_compute; reflexivity | reflexivity | reflexivity | reflexivity
    | reflexivity |].
  split; [exact Hc | exact Hlater].
Defined.

(** ** What [submit_payment] leaves in the session *)

(** X9.  When [float] reads the submitted amount as a number of centavos,
    [submit_payment] either leaves the session as it was, or stores in it
    the id of an existing debt of the requesting debtor together with that
    amount, which is then positive and at most the debt's balance; the
    method is stored as submitted, stripped, even when it is neither cash
    nor gcash. *)
Theorem submit_payment_session
    (float_of_str : string -> option Z) (db : DB) (request : HttpRequest)
    (id : nat) (a : Z) :
  float_of_str (default "0" (POST request !! "amount")) = Some a ->
  let o := submit_payment float_of_str db request id in
  out_session o = session request \/
  exists debt : Debt.t,
    debts db !! id = Some debt /\
    Debt.debtor debt = user_id (user request) /\
    account_type (user request) = "debtor" /\
    0 < a <= Debt.balance debt /\
    out_session o =
      Session.mk (Some (Debt.id debt)) (Some a)
                 (Some (strip (default "" (POST request !! "method")))).
Proof.
  intros Hfloat. cbn zeta. unfold submit_payment.
  destruct (str_eq (account_type (user request)) "debtor") eqn:Hrole;
    [| by left].
  apply str_eq_true in Hrole. cbn [negb].
  destruct (debts db !! id) as [debt |] eqn:Hdebt; [| by left].
  destruct (is_not_user _ _) eqn:Howner; [by left |].
  destruct (str_eq (method request) "POST"); [| by left].
  rewrite Hfloat.
  destruct (Z.leb_spec a 0) as [Hle | Hpos]; [by left |].
  destruct (Z.gtb_spec a (Debt.balance debt)) as [Hover | Hin]; [by left |].
  right. exists debt.
  assert (Debt.debtor debt = user_id (user request)).
  { unfold is_not_user in Howner. apply negb_false_iff in Howner.
    by apply Nat.eqb_eq. }
  split_and!; try done; try lia.
  by repeat case_match.
Qed.

(** Alice's 400.00 in cash on her debt of 500.00, the method typed with
    a space before it and a no-break space (U+00A0) after it. *)
Lemma submit_payment_session_witness :
  let nbsp := String (ascii_of_nat 194) (String (ascii_of_nat 160) "") in
  let request :=
    Cast.post Cast.alice
      [("amount", "400.00"); ("method", " cash" +:+ nbsp)] []
      Session.empty in
  out_session (submit_payment float_decimal (out_db Trace.confirmed) request 1)
  = Session.mk (Some 1%nat) (Some 40000) (Some "cash").
Proof.
  intros nbsp request.
  assert (Hread : float_decimal (default "0" (POST request !! "amount"))
                  = Some 40000) by (vm_compute; reflexivity).
  destruct (submit_payment_session float_decimal (out_db Trace.confirmed)
              request 1%nat 40000 Hread)
    as [Hsame | (debt & Hdebt & _ & _ & _ & Hsession)].
  - vm_compute in Hsame. discriminate Hsame.
  - rewrite Hsession. vm_compute in Hdebt. injection Hdebt as <-.
    vm_compute. reflexivity.
Defined.

(** ** The GCash gateway *)

(** X10.  A debtor's POST to the gateway with a payment session, for
    amounts that fit the decimal fields, records a completed GCash payment
    of the session's amount (the balance when the session has none), adds
    it to the debt's [paid_amount], and empties the session.  The debt is
    marked paid only when nothing is left to pay: while something is left
    its status stays as it was.  Replayed with the session it left, the
    request is refused and writes nothing. *)
Theorem gcash_payment_pays_once
    (db : DB) (w w' : World) (request : HttpRequest) (debt_id : nat)
    (debt : Debt.t) :
  let a := default (Debt.balance debt) (Session.payment_amount (session request)) in
  account_type (user request) = "debtor" ->
  session_debt_id (session request) = Some debt_id ->
  debts db !! debt_id = Some debt ->
  Debt.id debt = debt_id ->
  Debt.debtor debt = user_id (user request) ->
  method request = "POST" ->
  fits_decimal a ->
  fits_decimal (Debt.paid_amount debt + a) ->
  let o := gcash_payment db w request in
  let replay :=
    {| user := user request; method := method request; POST := POST request;
       FILES := FILES request; session := out_session o |} in
  payments db !! new_payment_id db = None /\
  (exists p,
     payments (out_db o) !! new_payment_id db = Some p /\
     Payment.status p = "completed" /\
     Payment.method p = "gcash" /\
     Payment.debt p = debt_id /\
     Payment.amount p = a) /\
  (exists d,
     debts (out_db o) !! debt_id = Some d /\
     Debt.paid_amount d = Debt.paid_amount debt + a /\
     (Debt.status d = "paid" \/ Debt.status d = Debt.status debt) /\
     (0 < Debt.amount debt - (Debt.paid_amount debt + a) ->
      Debt.status d = Debt.status debt)) /\
  out_session o = Session.empty /\
  gcash_payment (out_db o) w' replay =
    reply (out_db o) replay (redirect "myapp:debtor_dashboard" None)
          [(ERROR, "No payment session found. Please start a new payment.")].
Proof.
  intros a0 Hrole Hsess Hdebt Hid Howner Hpost _ _. subst a0. cbn zeta.
  assert (Hsession : out_session (gcash_payment db w request) = Session.empty).
  { unfold gcash_payment.
    rewrite Hrole, Hsess, Hdebt, Hpost, (is_not_user_false _ _ Howner).
    unfold attach_receipt. by destruct (REPORTLAB_AVAILABLE w). }
  split; [apply new_payment_id_fresh |].
  split_and!.
  - unfold gcash_payment.
    rewrite Hrole, Hsess, Hdebt, Hpost, (is_not_user_false _ _ Howner).
    unfold attach_receipt.
    destruct (REPORTLAB_AVAILABLE w); cbn; rewrite ?insert_insert_eq;
      (eexists; split; [apply lookup_insert_eq | by cbn]).
  - unfold gcash_payment.
    rewrite Hrole, Hsess, Hdebt, Hpost, (is_not_user_false _ _ Howner).
    cbn [str_eq String.eqb Ascii.eqb Bool.eqb negb].
    set (a := default _ _).
    unfold attach_receipt.
    assert (Hbal : forall x, (Z.max 0 x <=? 0) = (x <=? 0)).
    { intros x. destruct (Z.leb_spec x 0), (Z.leb_spec (Z.max 0 x) 0); lia. }
    destruct (REPORTLAB_AVAILABLE w); cbn; unfold Debt.balance; cbn;
      rewrite Hbal;
      destruct (Z.leb_spec (Debt.amount debt - (Debt.paid_amount debt + a)) 0);
      cbn; rewrite Hid;
      (eexists; split; [apply lookup_insert_eq |]; cbn;
       split; [reflexivity |]; split; [by auto |]; intros; first [lia | done]).
  - exact Hsession.
  - unfold gcash_payment at 1. cbn [user session method].
    rewrite Hrole, Hsession. reflexivity.
Qed.

(** Alice's payment of the whole 500.00 to Bob through the gateway. *)
Lemma gcash_payment_pays_once_witness :
  let chosen :=
    Cast.run (out_db Trace.confirmed) (Cast.world 3 Byte.x03)
      (Cast.post Cast.alice [("amount", "500.00"); ("method", "gcash")] []
                 Session.empty)
      (submit_payment_url 1) in
  let request := Cast.post Cast.alice [] [] (out_session chosen) in
  exists d,
    debts (out_db (gcash_payment (out_db chosen) (Cast.world 4 Byte.x04)
                                 request)) !! 1%nat = Some d /\
    Debt.paid_amount d = 50000 /\
    out_session (gcash_payment (out_db chosen) (Cast.world 4 Byte.x04)
                               request) = Session.empty.
Proof.
  intros chosen request.
  destruct (gcash_payment_pays_once (out_db chosen) (Cast.world 4 Byte.x04)
              (Cast.world 5 Byte.x05) request 1%nat
              (Debt.mk 1 2 1 "money" 50000 "" "" None None None 0 "active"
                       false false None))
    as (_ & _ & (d & Hd & Hpaid & _) & Hsession & _);
    [reflexivity | vm_compute; reflexivity | vm_compute; reflexivity
    | reflexivity | reflexivity | reflexivity
    | vm_compute; split; reflexivity | vm_compute; split; reflexivity |].
  exists d. split; [exact Hd |]. split; [exact Hpaid | exact Hsession].
Defined.

(** ** More on [mark_as_paid] and the confirmations *)

(** X11.  [mark_as_paid] has no lower bound on the amount: when the
    creditor posts a negative amount that the decimal fields can hold, and
    the [paid_amount] it leaves can be held too, the request succeeds, a
    completed cash payment of that negative amount is recorded and the
    debt's [paid_amount] goes down by it. *)
Theorem mark_as_paid_takes_negative_amounts
    (float_of_str : string -> option Z) (db : DB) (w : World)
    (request : HttpRequest) (id : nat) (debt : Debt.t) (proof : UploadedFile)
    (s : string) (a : Z) :
  account_type (user request) = "creditor" ->
  debts db !! id = Some debt ->
  Debt.id debt = id ->
  Debt.creditor debt = user_id (user request) ->
  method request = "POST" ->
  FILES request !! "creditor_proof" = Some proof ->
  file_name proof <> "" ->
  POST request !! "payment_amount" = Some s ->
  float_of_str s = Some a ->
  a < 0 ->
  fits_decimal a ->
  fits_decimal (Debt.paid_amount debt + a) ->
  let o := mark_as_paid float_of_str db w request id in
  (exists p,
     payments (out_db o) !! new_payment_id db = Some p /\
     Payment.status p = "completed" /\
     Payment.amount p = a) /\
  (exists d,
     debts (out_db o) !! id = Some d /\
     Debt.paid_amount d = Debt.paid_amount debt + a /\
     Debt.paid_amount d < Debt.paid_amount debt) /\
  response o = redirect "myapp:creditor_dashboard" None.
Proof.
  intros Hrole Hdebt Hid Howner Hpost Hfile Hname Hs Hfloat Hneg _ _.
  cbn zeta.
  pose proof (mark_as_paid_records float_of_str db w request id debt proof
                Hrole Hdebt Hid Howner Hpost Hfile Hname) as H.
  cbn zeta in H.
  assert (He : entered_amount float_of_str request debt = a).
  { unfold entered_amount. by rewrite Hs, Hfloat. }
  pose proof (balance_nonneg debt) as Hbal.
  rewrite He in H. rewrite Z.min_l in H by lia.
  destruct H as (_ & (p & Hp & Hst & _ & _ & Hamt) &
                 (d & Hd & _ & Hpaid) & _ & Hresp & _).
  split_and!; [by exists p | exists d; split_and!; [done | done | lia] | done].
Qed.

Lemma mark_as_paid_takes_negative_amounts_witness :
  let marks :=
    Cast.post Cast.bob [("payment_amount", "-100.00")]
              [("creditor_proof", Cast.photo)] Session.empty in
  exists d,
    debts (out_db (mark_as_paid float_decimal (out_db Trace.cash1_confirmed)
                     (Cast.world 9 Byte.x09) marks 1)) !! 1%nat = Some d /\
    Debt.paid_amount d = 40000 + -10000.
Proof.
  intros marks.
  destruct (mark_as_paid_takes_negative_amounts float_decimal
              (out_db Trace.cash1_confirmed) (Cast.world 9 Byte.x09) marks
              1%nat
              (Debt.mk 1 2 1 "money" 50000 "" "" None None None 40000
                       "active" false false None)
              Cast.photo "-100.00" (-10000))
    as (_ & (d & Hd & Hpaid & _) & _);
    [ reflexivity | vm_compute; reflexivity | reflexivity | reflexivity
    | reflexivity | vm_compute; reflexivity | vm_compute; discriminate
    | vm_compute; reflexivity | vm_compute; reflexivity | lia
    | vm_compute; split; reflexivity | vm_compute; split; reflexivity | ].
  exists d. split; [exact Hd | exact Hpaid].
Defined.

(** X12.  Once the debt's creditor has confirmed or rejected a pending cash
    payment, no later request to [confirm_cash_payment] for that payment,
    by anyone and with any action, changes the database. *)
Theorem creditor_decision_on_payment_is_final
    (db : DB) (w w' : World) (request later : HttpRequest) (payment_id : nat)
    (payment : Payment.t) (debt : Debt.t) (decision : string) :
  account_type (user request) = "creditor" ->
  payments db !! payment_id = Some payment ->
  Payment.id payment = payment_id ->
  debts db !! Payment.debt payment = Some debt ->
  Debt.id debt = Payment.debt payment ->
  Debt.creditor debt = user_id (user request) ->
  Payment.status payment = "pending_confirmation" ->
  method request = "POST" ->
  POST request !! "action" = Some decision ->
  decision = "confirm" \/ decision = "reject" ->
  let decided := out_db (confirm_cash_payment db w request payment_id) in
  (exists p,
     payments decided !! payment_id = Some p /\
     Payment.status p = (if str_eq decision "confirm" then "completed"
                         else "rejected")) /\
  out_db (confirm_cash_payment decided w' later payment_id) = decided.
Proof.
  intros Hrole Hpay Hpid Hdebt Hid Howner Hstatus Hpost Haction Hdecision.
  cbn zeta.
  assert (Hp : exists p,
            payments (out_db (confirm_cash_payment db w request payment_id))
              !! payment_id = Some p /\
            Payment.status p = (if str_eq decision "confirm" then "completed"
                                else "rejected")).
  { destruct Hdecision as [-> | ->].
    - destruct (confirm_cash_payment_confirms db w request payment_id payment
                  debt Hrole Hpay Hpid Hdebt Hid Howner Hstatus Hpost Haction)
        as ((p & Hp & Hst & _) & _).
      by exists p.
    - destruct (confirm_cash_payment_rejects db w request payment_id payment
                  debt Hrole Hpay Hpid Hdebt Hid Howner Hstatus Hpost Haction)
        as ((p & Hp & Hst) & _).
      by exists p. }
  split; [exact Hp |].
  destruct Hp as (p & Hp & Hst).
  unfold confirm_cash_payment at 1.
  destruct (negb _); [done |]. rewrite Hp.
  destruct (debts _ !! Payment.debt p); [| done].
  destruct (is_not_user _ _); [done |].
  rewrite Hst. by destruct Hdecision as [-> | ->].
Qed.

Lemma creditor_decision_on_payment_is_final_witness :
  out_db (confirm_cash_payment (out_db Trace.bob_rejected)
            (Cast.world 6 Byte.x06)
            (Cast.post Cast.bob [("action", "confirm")] [] Session.empty) 1)
  = out_db Trace.bob_rejected.
Proof.
  destruct (creditor_decision_on_payment_is_final (out_db Trace.cash1_uploaded)
              (Cast.world 5 Byte.x05) (Cast.world 6 Byte.x06)
              (Cast.post Cast.bob [("action", "reject")] [] Session.empty)
              (Cast.post Cast.bob [("action", "confirm")] [] Session.empty)
              1%nat
              (Payment.mk 1 1 1 40000 "cash" (Some Cast.photo) None None
                 "pending_confirmation" "receipt-4" "TXN-0404040404040404"
                 None None)
              (Debt.mk 1 2 1 "money" 50000 "" "" None None None 0
                       "awaiting_confirmation" false false None)
              "reject")
    as [_ Hlater];
    [ reflexivity | vm_compute; reflexivity | reflexivity
    | vm_compute; reflexivity | reflexivity | reflexivity | reflexivity
    | reflexivity | vm_compute; reflexivity | by right | ].
  exact Hlater.
Defined.

Lemma pre_save_settled (w : World) (q : Payment.t) :
  str_falsy (Payment.transaction_id q) = false ->
  (str_eq (Payment.status q) "completed" = true ->
   none_falsy (Payment.payment_date q) = false /\
   none_falsy (Payment.verified_at q) = false) ->
  Payment.pre_save w q = q.
Proof.
  destruct q as [pk d u a m dp cp pd st rn tid rf va].
  unfold Payment.pre_save, str_falsy, str_eq. cbn.
  intros Htid Hdates. rewrite Htid.
  destruct (st =? "completed")%string eqn:Es.
  - destruct (Hdates eq_refl) as [Hpd Hva].
    repeat (cbn; rewrite ?Es, ?Hpd, ?Hva). reflexivity.
  - repeat (cbn; rewrite ?Es). reflexivity.
Qed.

(** X13.  Saving a payment twice is saving it once: after a first
    [save()], a second one, at any later time and with any random bytes,
    returns the same instance and leaves the same table. *)
Theorem payment_save_idempotent
    (w w' : World) (p : Payment.t) (db : DB) :
  save_payment w' (save_payment w p db).1 (save_payment w p db).2 =
  save_payment w p db.
Proof.
  assert (Hidem : Payment.pre_save w' (Payment.pre_save w p) =
                  Payment.pre_save w p).
  { apply pre_save_settled.
    - rewrite pre_save_transaction_id.
      by destruct (str_falsy (Payment.transaction_id p)) eqn:E.
    - rewrite pre_save_status, pre_save_payment_date, pre_save_verified_at.
      intros ->. cbn.
      by destruct (Payment.payment_date p), (Payment.verified_at p). }
  unfold save_payment. cbv zeta. cbn [fst snd payments users debts
    notifications activity_log].
  rewrite Hidem. f_equal. f_equal. apply insert_insert_eq.
Qed.

(** X14.  [admin_approve_payment] writes to the debt table only to turn an
    active debt into a paid one: every debt whose status is not 'active'
    is exactly as it was after the request, whichever payment is
    approved. *)
Theorem admin_approve_payment_spares_inactive_debts
    (db : DB) (w : World) (request : HttpRequest) (payment_id k : nat)
    (d : Debt.t) :
  keyed db ->
  debts db !! k = Some d ->
  Debt.status d <> "active" ->
  debts (out_db (admin_approve_payment db w request payment_id)) !! k = Some d.
Proof.
  intros [Kd _] Hd Hstatus.
  unfold admin_approve_payment, login_redirect.
  destruct (negb _); [done |].
  destruct (payments db !! payment_id) as [payment |]; [| done].
  destruct (str_eq (method request) "POST"); [| done].
  cbn [save_payment debts].
  set (p1 := Payment.pre_save w _).
  destruct (debts db !! Payment.debt p1) as [debt |] eqn:Hdebt; [| done].
  unfold update_payment_status. cbn [Debt.status Debt.with_paid_amount].
  destruct (str_eq (Debt.status debt) "active") eqn:Hactive.
  - apply str_eq_true in Hactive.
    destruct (_ <=? 0); cbn; [| done].
    rewrite lookup_insert_ne; [done |].
    intros Heq. pose proof (Kd _ _ Hdebt) as Hkey.
    rewrite Hkey in Heq. rewrite Heq in Hdebt. congruence.
  - rewrite andb_false_r. done.
Qed.

Lemma admin_approve_payment_spares_inactive_debts_witness :
  debts (out_db Trace.admin_approved_pending) !! 1%nat =
  Some (Debt.mk 1 2 1 "money" 50000 "" "" None None None 0
                "awaiting_confirmation" false false None).
Proof.
  refine (admin_approve_payment_spares_inactive_debts
            (out_db Trace.cash1_uploaded) (Cast.world 5 Byte.x05)
            (Cast.post Cast.root [] [] Session.empty) 1%nat 1%nat _ _ _ _).
  - apply keyed_check. split; apply (bool_decide_unpack _); by vm_compute.
  - vm_compute. reflexivity.
  - discriminate.
Defined.

(** ** [DebtForm] *)

(** X15.  A form that [is_valid] accepts yields, through
    [form.save(commit=False)], a debt with the submitted type and amount,
    unpaid and pending; a money debt has a non-zero amount and an empty
    product name whatever was typed in that field, and a product debt has
    a non-zero amount and a product name. *)
Theorem valid_debt_form
    (db : DB) (data : DebtFormData) :
  is_valid (full_clean db data) = true ->
  let d := form_save (full_clean db data) in
  exists (t : string) (a : Z),
    f_type data = Valid t /\ f_amount data = Valid a /\
    Debt.type_ d = t /\ Debt.amount d = a /\
    Debt.paid_amount d = 0 /\ Debt.status d = "pending_confirmation" /\
    (t = "money" -> a <> 0 /\ Debt.product_name d = "") /\
    (t = "product" -> a <> 0 /\ Debt.product_name d <> "").
Proof.
  intros Hv. apply is_valid_nil in Hv. revert Hv. cbn zeta.
  unfold form_save, full_clean.
  destruct (clean _ _ _) as [clean_errs pn] eqn:Hclean.
  cbn [errors cd_type cd_amount cd_product_name cd_description
       cd_debt_proof cd_creditor_username].
  intros Hv.
  repeat (apply app_eq_nil in Hv; destruct Hv as [? Hv]).
  destruct (f_type data) as [t | e]; [| discriminate].
  destruct (f_amount data) as [a | e]; [| discriminate].
  destruct (f_product_name data) as [n | e]; [| discriminate].
  subst clean_errs. cbn in Hclean |- *.
  exists t, a. split_and!; try done.
  - intros ->. revert Hclean. unfold clean.
    rewrite bool_decide_eq_true_2 by done. cbn.
    destruct (Z.eqb_spec a 0); [discriminate |].
    intros [= <-]. done.
  - intros ->. revert Hclean. unfold clean.
    rewrite bool_decide_eq_false_2 by discriminate.
    rewrite bool_decide_eq_true_2 by done. cbn.
    destruct (str_falsy n) eqn:Hn; [discriminate |].
    destruct (Z.eqb_spec a 0); [discriminate |].
    intros [= <-]. split; [done |]. cbn. by apply str_eq_false.
Qed.

Lemma valid_debt_form_witness :
  exists t a,
    f_type (Cast.money_form 50000 "bob") = Valid t /\
    f_amount (Cast.money_form 50000 "bob") = Valid a /\
    t = "money" /\ a <> 0.
Proof.
  destruct (valid_debt_form Cast.db0 (Cast.money_form 50000 "bob"))
    as (t & a & Ht & Ha & _ & _ & _ & _ & Hmoney & _);
    [vm_compute; reflexivity |].
  exists t, a. split; [exact Ht |]. split; [exact Ha |].
  injection Ht as <-. split; [reflexivity | by apply Hmoney].
Defined.

Lemma lower_app (s t : string) : lower (s +:+ t) = lower s +:+ lower t.
Proof.
  induction s as [| c s IH]; [done |]. simpl. rewrite IH. reflexivity.
Qed.

Lemma lower_ascii_dot (c : ascii) :
  Ascii.eqb (lower_ascii c) "."%char = Ascii.eqb c "."%char.
Proof. destruct c as [[] [] [] [] [] [] [] []]; reflexivity. Qed.

Lemma string_app_nil_r (s : string) : s +:+ "" = s.
Proof.
  induction s as [| a s IH]; [done |].
  change (String a (s +:+ "") = String a s). by rewrite IH.
Qed.

Lemma string_app_snoc (acc e : string) (c : ascii) :
  (acc +:+ String c "") +:+ e = acc +:+ String c e.
Proof.
  induction acc as [| a acc IH]; [done |].
  change (String a ((acc +:+ String c "") +:+ e) =
          String a (acc +:+ String c e)).
  by rewrite IH.
Qed.

(** Without a dot, the whole string is kept. *)
Lemma split_dot_last_no_dot (e acc : string) :
  string_forall (fun c => negb (Ascii.eqb c "."%char)) e = true ->
  split_dot_last e acc = acc +:+ e.
Proof.
  revert acc. induction e as [| c e IH]; intros acc He.
  - cbn. by rewrite string_app_nil_r.
  - cbn in He. apply andb_true_iff in He as [Hc He].
    apply negb_true_iff in Hc. cbn [split_dot_last]. rewrite Hc, (IH _ He).
    apply string_app_snoc.
Qed.

Lemma split_dot_last_extension (stem e acc : string) :
  string_forall (fun c => negb (Ascii.eqb c "."%char)) e = true ->
  split_dot_last (stem +:+ "." +:+ e) acc = e.
Proof.
  intros He. revert acc. induction stem as [| c stem IH]; intros acc.
  - change (split_dot_last e "" = e). by rewrite split_dot_last_no_dot.
  - change (split_dot_last (String c (stem +:+ "." +:+ e)) acc = e).
    cbn [split_dot_last]. destruct (Ascii.eqb c "."%char); apply IH.
Qed.

Lemma no_dot_lower (e : string) :
  string_forall (fun c => negb (Ascii.eqb c "."%char)) e = true ->
  string_forall (fun c => negb (Ascii.eqb c "."%char)) (lower e) = true.
Proof.
  induction e as [| c e IH]; [done |]. cbn.
  intros H. apply andb_true_iff in H as [Hc He].
  by rewrite lower_ascii_dot, Hc, IH.
Qed.

(** X16.  [clean_debt_proof] looks only at what follows the last dot of
    the file name, in any letter case: a file of at most 10 MB named
    [stem.ext] is accepted whenever [ext], lower-cased, is one of jpg,
    jpeg, png, gif, pdf, bmp, webp; and a named file of more than 10 MB is
    refused whatever its name. *)
Theorem debt_proof_by_extension (stem ext : string) (size : Z) :
  let f := {| file_name := stem +:+ "." +:+ ext; file_size := size |} in
  (string_forall (fun c => negb (Ascii.eqb c "."%char)) ext = true ->
   lower ext ∈ ["jpg"; "jpeg"; "png"; "gif"; "pdf"; "bmp"; "webp"] ->
   size <= 10 * 1024 * 1024 ->
   clean_debt_proof (Some f) = Valid (Some f)) /\
  (10 * 1024 * 1024 < size ->
   clean_debt_proof (Some f) = Invalid "File size must not exceed 10MB.").
Proof.
  cbn zeta.
  assert (Hname : str_falsy (stem +:+ "." +:+ ext) = false)
    by (by destruct stem).
  split.
  - intros Hdot Hext Hsize. unfold clean_debt_proof.
    cbn [file_name file_size]. rewrite Hname.
    destruct (Z.gtb_spec size (10 * 1024 * 1024)) as [Hbig | _]; [lia |].
    rewrite !lower_app.
    rewrite split_dot_last_extension by (by apply no_dot_lower).
    repeat (apply elem_of_cons in Hext as [-> | Hext]; [reflexivity |]).
    by apply elem_of_nil in Hext.
  - intros Hsize. unfold clean_debt_proof.
    cbn [file_name file_size]. rewrite Hname.
    destruct (Z.gtb_spec size (10 * 1024 * 1024)) as [_ | Hsmall];
      [reflexivity | lia].
Qed.

Lemma debt_proof_by_extension_witness :
  clean_debt_proof (Some {| file_name := "iou.2024.PDF"; file_size := 52000 |})
  = Valid (Some {| file_name := "iou.2024.PDF"; file_size := 52000 |}) /\
  clean_debt_proof (Some {| file_name := "iou.pdf"; file_size := 10485761 |})
  = Invalid "File size must not exceed 10MB.".
Proof.
  split.
  - apply (debt_proof_by_extension "iou.2024" "PDF" 52000).
    + reflexivity.
    + cbn. set_solver.
    + lia.
  - apply (debt_proof_by_extension "iou" "pdf" 10485761). lia.
Defined.

(** ** The other debt views *)

(** X17.  The creditor's POST of a proof of release stores the file and
    leaves the debt active: a pending debt is activated, an active one
    stays active, and the amount and the paid amount are untouched.  For a
    debt in any other status the request is refused and nothing is
    written. *)
Theorem upload_proof_of_release_activates
    (db : DB) (request : HttpRequest) (id : nat) (debt : Debt.t)
    (proof : UploadedFile) :
  debts db !! id = Some debt ->
  Debt.id debt = id ->
  Debt.creditor debt = user_id (user request) ->
  method request = "POST" ->
  FILES request !! "creditor_proof" = Some proof ->
  file_name proof <> "" ->
  let o := upload_proof_of_release db request id in
  (Debt.status debt = "pending_confirmation" \/ Debt.status debt = "active" ->
   debts (out_db o) !! id =
     Some (Debt.with_status "active"
             (Debt.with_creditor_proof (Some proof) debt))) /\
  (Debt.status debt <> "pending_confirmation" ->
   Debt.status debt <> "active" ->
   o = reply db request (redirect "myapp:creditor_dashboard" None)
             [(ERROR, "Cannot upload proof for this debt.")]).
Proof.
  intros Hdebt Hid Howner Hpost Hfile Hname. cbn zeta.
  unfold upload_proof_of_release.
  rewrite Hdebt, Hpost, Hfile, (is_not_user_false _ _ Howner),
    (file_falsy_named _ Hname).
  destruct debt as [pk c dbt ty am pn de dp cp pp paid st hd hc dpaid].
  cbn in Hid |- *. subst pk.
  split.
  - intros [-> | ->]; cbn; by rewrite lookup_insert_eq.
  - intros Hp Ha. apply String.eqb_neq in Hp, Ha. by rewrite Hp, Ha.
Qed.

Lemma upload_proof_of_release_activates_witness :
  debts (out_db (upload_proof_of_release (out_db Trace.added)
                   (Cast.post Cast.bob [] [("creditor_proof", Cast.photo)]
                              Session.empty) 1)) !! 1%nat =
  Some (Debt.mk 1 2 1 "money" 50000 "" "" None (Some Cast.photo) None 0
                "active" false false None).
Proof.
  destruct (upload_proof_of_release_activates (out_db Trace.added)
              (Cast.post Cast.bob [] [("creditor_proof", Cast.photo)]
                         Session.empty) 1%nat
              (Debt.mk 1 2 1 "money" 50000 "" "" None None None 0
                       "pending_confirmation" false false None)
              Cast.photo)
    as [Hok _];
    [ vm_compute; reflexivity | reflexivity | reflexivity | reflexivity
    | vm_compute; reflexivity | vm_compute; discriminate | ].
  apply Hok. by left.
Defined.

(** X18.  A debtor's POST to [delete_debt] for her own debt: a paid debt
    is only hidden from her, the row and every payment staying in place; a
    pending or rejected debt is deleted together with all its payments and
    notifications, and nothing else; a debt in any other status is left
    alone. *)
Theorem delete_debt_hides_or_deletes
    (db : DB) (request : HttpRequest) (id : nat) (debt : Debt.t) :
  debts db !! id = Some debt ->
  Debt.id debt = id ->
  Debt.debtor debt = user_id (user request) ->
  method request = "POST" ->
  let db' := out_db (delete_debt db request id) in
  (Debt.status debt = "paid" ->
   debts db' !! id = Some (with_hidden_from_debtor true debt) /\
   payments db' = payments db /\
   notifications db' = notifications db) /\
  (Debt.status debt = "pending_confirmation" \/ Debt.status debt = "rejected" ->
   debts db' !! id = None /\
   (forall k, k <> id -> debts db' !! k = debts db !! k) /\
   (forall k p, payments db' !! k = Some p <->
                payments db !! k = Some p /\ Payment.debt p <> id) /\
   (forall n, n ∈ notifications db' <->
              n ∈ notifications db /\ related_debt n <> Some id)) /\
  (Debt.status debt = "active" \/ Debt.status debt = "awaiting_confirmation" ->
   db' = db).
Proof.
  intros Hdebt Hid Howner Hpost. cbn zeta.
  unfold delete_debt.
  rewrite Hdebt, Hpost, (is_not_user_false _ _ Howner).
  split_and!.
  - intros ->. cbn. rewrite Hid. split; [apply lookup_insert_eq | done].
  - intros [-> | ->]; cbn; rewrite Hid.
    all: split; [apply lookup_delete_eq |].
    all: split; [intros k Hk; by apply lookup_delete_ne |].
    all: split; [intros k p; apply map_lookup_filter_Some |].
    all: intros n; rewrite list_elem_of_filter; tauto.
  - by intros [-> | ->].
Qed.

(** In [Trace], Alice deletes the debt that Bob rejected. *)
Lemma delete_debt_hides_or_deletes_witness :
  debts (out_db (delete_debt (out_db Trace.debt_rejected)
                   (Cast.post Cast.alice [] [] Session.empty) 1)) !! 1%nat
  = None.
Proof.
  destruct (delete_debt_hides_or_deletes (out_db Trace.debt_rejected)
              (Cast.post Cast.alice [] [] Session.empty) 1%nat
              (Debt.mk 1 2 1 "money" 50000 "" "" None None None 0
                       "rejected" false false None))
    as (_ & Hdel & _);
    [ vm_compute; reflexivity | reflexivity | reflexivity | reflexivity | ].
  apply Hdel. by right.
Defined.

(** X19.  A creditor's POST to [creditor_delete_debt] deletes his paid
    debt for good, with every payment made on it, so the debtor loses the
    record too; a debt that is not paid is left alone. *)
Theorem creditor_delete_debt_erases_payments
    (db : DB) (request : HttpRequest) (id : nat) (debt : Debt.t) :
  debts db !! id = Some debt ->
  Debt.id debt = id ->
  Debt.creditor debt = user_id (user request) ->
  method request = "POST" ->
  let db' := out_db (creditor_delete_debt db request id) in
  (Debt.status debt = "paid" ->
   debts db' !! id = None /\
   (forall k p, payments db' !! k = Some p <->
                payments db !! k = Some p /\ Payment.debt p <> id)) /\
  (Debt.status debt <> "paid" -> db' = db).
Proof.
  intros Hdebt Hid Howner Hpost. cbn zeta.
  unfold creditor_delete_debt.
  rewrite Hdebt, Hpost, (is_not_user_false _ _ Howner).
  split.
  - intros ->. cbn. rewrite Hid. split; [apply lookup_delete_eq |].
    intros k p. apply map_lookup_filter_Some.
  - intros Hst. apply str_eq_false in Hst. by rewrite Hst.
Qed.

(** After Alice's GCash payment in [Trace], Bob deletes the paid debt:
    her payment is gone. *)
Lemma creditor_delete_debt_erases_payments_witness :
  payments (out_db (creditor_delete_debt (out_db Trace.gcash_paid)
                      (Cast.post Cast.bob [] [] Session.empty) 1)) !! 1%nat
  = None.
Proof.
  destruct (creditor_delete_debt_erases_payments (out_db Trace.gcash_paid)
              (Cast.post Cast.bob [] [] Session.empty) 1%nat
              (Debt.mk 1 2 1 "money" 50000 "" "" None None None 50000
                       "paid" false false (Some 4)))
    as [Hdel _];
    [ vm_compute; reflexivity | reflexivity | reflexivity | reflexivity | ].
  destruct (Hdel eq_refl) as [_ Hpay].
  destruct (payments _ !! 1%nat) as [p |] eqn:Hp; [| reflexivity].
  apply Hpay in Hp as [Hp Hne]. vm_compute in Hp. injection Hp as <-.
  by destruct Hne.
Defined.

(** X20.  [send_reminder] does not look at the request method: any request
    of the creditor for his unpaid debt, a GET included, adds one
    'payment_reminder' notification for the debtor and changes nothing
    else; for a paid debt nothing is written. *)
Theorem send_reminder_on_any_method
    (db : DB) (request : HttpRequest) (id : nat) (debt : Debt.t) :
  account_type (user request) = "creditor" ->
  debts db !! id = Some debt ->
  Debt.creditor debt = user_id (user request) ->
  let db' := out_db (send_reminder db request id) in
  debts db' = debts db /\ payments db' = payments db /\
  (Debt.status debt <> "paid" ->
   exists n,
     notifications db' = n :: notifications db /\
     notif_user n = Debt.debtor debt /\
     notification_type n = "payment_reminder" /\
     related_debt n = Some (Debt.id debt)) /\
  (Debt.status debt = "paid" -> db' = db).
Proof.
  intros Hrole Hdebt Howner. cbn zeta.
  unfold send_reminder.
  rewrite Hrole, Hdebt, (is_not_user_false _ _ Howner).
  rewrite str_eq_refl. cbn [negb].
  destruct (str_eq (Debt.status debt) "paid") eqn:Hst.
  - apply str_eq_true in Hst. cbn. split_and!.
    + reflexivity.
    + reflexivity.
    + intros Hne. by destruct Hne.
    + intros _. reflexivity.
  - apply str_eq_false in Hst. cbn. split_and!.
    + reflexivity.
    + reflexivity.
    + intros _. eexists. split; [reflexivity | done].
    + intros Heq. by destruct Hst.
Qed.

Lemma send_reminder_on_any_method_witness :
  let get :=
    {| user := Cast.bob; method := "GET"; POST := ∅; FILES := ∅;
       session := Session.empty |} in
  exists n,
    notifications (out_db (send_reminder (out_db Trace.confirmed) get 1))
    = n :: notifications (out_db Trace.confirmed) /\
    notif_user n = 1%nat.
Proof.
  intros get.
  destruct (send_reminder_on_any_method (out_db Trace.confirmed) get 1%nat
              (Debt.mk 1 2 1 "money" 50000 "" "" None None None 0 "active"
                       false false None))
    as (_ & _ & Hsend & _);
    [ reflexivity | vm_compute; reflexivity | reflexivity | ].
  destruct Hsend as (n & Hn & Hu & _); [discriminate |].
  exists n. split; [exact Hn | exact Hu].
Defined.

(** ** The grouping of [all_debts_view] *)

Section GroupingFacts.

Context {F : Type} (float : Z -> F) (fadd : F -> F -> F).

Lemma dict_has_keys (k : nat) (d : list (nat * DebtorGroup F)) :
  dict_has k d = true <-> k ∈ d.*1.
Proof.
  unfold dict_has. rewrite existsb_exists. split.
  - intros ([k' g] & Hin & Heq). cbn in Heq. apply Nat.eqb_eq in Heq as ->.
    apply list_elem_of_In in Hin. apply list_elem_of_fmap. by exists (k, g).
  - intros Hk. apply list_elem_of_fmap in Hk as ([k' g] & -> & Hin).
    exists (k', g). split; [by apply list_elem_of_In | cbn; apply Nat.eqb_refl].
Qed.

Lemma dict_update_keys (k : nat) (f : DebtorGroup F -> DebtorGroup F)
    (d : list (nat * DebtorGroup F)) :
  (dict_update k f d).*1 = d.*1.
Proof.
  induction d as [| [k' g] d IH]; [done |]. cbn.
  destruct (Nat.eqb k' k); cbn; [done | by rewrite IH].
Qed.

Lemma dict_update_elem (k : nat) (f : DebtorGroup F -> DebtorGroup F)
    (d : list (nat * DebtorGroup F)) (k' : nat) (g' : DebtorGroup F) :
  NoDup d.*1 ->
  (k', g') ∈ dict_update k f d ->
  (k' <> k /\ (k', g') ∈ d) \/
  (k' = k /\ exists g, (k, g) ∈ d /\ g' = f g).
Proof.
  induction d as [| [k0 g0] d IH]; cbn; intros Hnd Hin.
  - by apply elem_of_nil in Hin.
  - apply NoDup_cons in Hnd as [Hk0 Hnd].
    destruct (Nat.eqb_spec k0 k) as [-> | Hne].
    + apply elem_of_cons in Hin as [[= -> ->] | Hin].
      * right. split; [done |]. exists g0. split; [left | done].
      * left. split; [| by right].
        intros ->. apply Hk0. apply list_elem_of_fmap. by exists (k, g').
    + apply elem_of_cons in Hin as [[= -> ->] | Hin].
      * left. split; [done | left].
      * destruct (IH Hnd Hin) as [[? ?] | [-> (g & ? & ->)]].
        -- left. split; [done | by right].
        -- right. split; [done |]. exists g. split; [by right | done].
Qed.

Lemma running_total_snoc (f : Debt.t -> Z) (l : list Debt.t) (d : Debt.t) :
  running_total float fadd f (l ++ [d])
  = fadd (running_total float fadd f l) (float (f d)).
Proof. unfold running_total. by rewrite fold_left_app. Qed.

Lemma filter_debtor_none (k : nat) (l : list Debt.t) :
  (forall d, d ∈ l -> Debt.debtor d <> k) ->
  filter (fun d => Debt.debtor d = k) l = [].
Proof.
  induction l as [| x l IH]; intros Hl; [done |].
  rewrite filter_cons_False by (apply Hl; left).
  apply IH. intros d Hd. apply Hl. by right.
Qed.

Lemma grouped_new (groups : list (nat * DebtorGroup F)) (l : list Debt.t)
    (k : nat) :
  grouped float fadd groups l ->
  k ∉ groups.*1 ->
  grouped float fadd (groups ++ [(k, group_new float k)]) l.
Proof.
  intros (Hnd & Hall & Hg) Hk.
  split_and!.
  - rewrite fmap_app. apply NoDup_app. split; [done |].
    split; [| cbn; apply NoDup_singleton].
    intros x Hx. cbn. intros Hx'%list_elem_of_singleton. by subst.
  - intros d Hd. rewrite fmap_app. apply elem_of_app. left. by apply Hall.
  - intros k' g Hin. apply elem_of_app in Hin as [Hin | Hin]; [by apply Hg |].
    apply list_elem_of_singleton in Hin as [= -> ->]. cbn.
    rewrite filter_debtor_none; [done |].
    intros d Hd Heq. apply Hk. rewrite <- Heq. by apply Hall.
Qed.

Lemma grouped_add (groups : list (nat * DebtorGroup F)) (l : list Debt.t)
    (debt : Debt.t) :
  grouped float fadd groups l ->
  Debt.debtor debt ∈ groups.*1 ->
  grouped float fadd
          (dict_update (Debt.debtor debt) (group_add float fadd debt) groups)
          (l ++ [debt]).
Proof.
  intros (Hnd & Hall & Hg) Hk.
  split_and!.
  - by rewrite dict_update_keys.
  - intros d Hd. rewrite dict_update_keys.
    apply elem_of_app in Hd as [Hd | Hd]; [by apply Hall |].
    by apply list_elem_of_singleton in Hd as ->.
  - intros k g Hin.
    apply dict_update_elem in Hin as [[Hne Hin] | [-> (g0 & Hin & ->)]];
      [| | done].
    + destruct (Hg k g Hin) as (H1 & H2 & H3 & H4 & H5).
      rewrite filter_app, filter_cons_False, filter_nil, app_nil_r by done.
      done.
    + destruct (Hg _ g0 Hin) as (H1 & H2 & H3 & H4 & H5).
      rewrite filter_app, filter_cons_True, filter_nil by done.
      cbn [group_add group_debtor group_debts total_amount total_paid
           total_balance].
      rewrite !running_total_snoc, H3, H4, H5, H2.
      split_and!; reflexivity || assumption.
Qed.

Lemma grouped_step (groups : list (nat * DebtorGroup F)) (l : list Debt.t)
    (debt : Debt.t) :
  grouped float fadd groups l ->
  grouped float fadd (group_step float fadd groups debt) (l ++ [debt]).
Proof.
  intros Hg. unfold group_step.
  destruct (dict_has (Debt.debtor debt) groups) eqn:Hhas; cbn [negb].
  - apply grouped_add; [done |]. by apply dict_has_keys.
  - apply grouped_add.
    + apply grouped_new; [done |]. intros Hk%dict_has_keys. congruence.
    + rewrite fmap_app. apply elem_of_app. right. cbn. left.
Qed.

Lemma grouped_fold (l : list Debt.t) :
  forall (groups : list (nat * DebtorGroup F)) (l0 : list Debt.t),
    grouped float fadd groups l0 ->
    grouped float fadd (fold_left (group_step float fadd) l groups) (l0 ++ l).
Proof.
  induction l as [| d l IH]; intros groups l0 Hg.
  - by rewrite app_nil_r.
  - cbn [fold_left].
    replace (l0 ++ d :: l)%list with ((l0 ++ [d]) ++ l)%list
      by (by rewrite <- app_assoc).
    apply IH. by apply grouped_step.
Qed.

Lemma group_step_keys (groups : list (nat * DebtorGroup F)) (debt : Debt.t)
    (k : nat) :
  k ∈ (group_step float fadd groups debt).*1 <->
  k ∈ groups.*1 \/ k = Debt.debtor debt.
Proof.
  unfold group_step. rewrite dict_update_keys.
  destruct (dict_has (Debt.debtor debt) groups) eqn:Hhas; cbn [negb].
  - split; [by left |]. intros [Hk | ->]; [done | by apply dict_has_keys].
  - rewrite fmap_app, elem_of_app. cbn. by rewrite list_elem_of_singleton.
Qed.

Lemma group_fold_keys (l : list Debt.t) :
  forall (groups : list (nat * DebtorGroup F)) (k : nat),
    k ∈ (fold_left (group_step float fadd) l groups).*1 <->
    k ∈ groups.*1 \/ exists d, d ∈ l /\ Debt.debtor d = k.
Proof.
  induction l as [| d l IH]; intros groups k; cbn [fold_left].
  - split; [by left |]. intros [Hk | (d & Hd & _)]; [done |].
    by apply elem_of_nil in Hd.
  - rewrite IH, group_step_keys. split.
    + intros [[Hk | ->] | (d' & Hd' & Hk)].
      * by left.
      * right. exists d. split; [left | done].
      * right. exists d'. split; [by right | done].
    + intros [Hk | (d' & Hd' & Hk)]; [by left; left |].
      apply elem_of_cons in Hd' as [-> | Hd'].
      * left. by right.
      * right. by exists d'.
Qed.

End GroupingFacts.



(** Bob marks Alice's half-paid debt as paid and types ten times its
    amount. *)
Lemma mark_as_paid_within_amount_witness :
  within_amount
    (out_db (mark_as_paid float_decimal (out_db Trace.cash1_confirmed)
               (Cast.world 9 Byte.x09)
               (Cast.post Cast.bob [("payment_amount", "5000.00")]
                          [("creditor_proof", Cast.photo)] Session.empty)
               1)).
Proof.
  apply mark_as_paid_within_amount.
  apply within_amount_check. apply (bool_decide_unpack _). by vm_compute.
Defined.

(** ** Where the money moves *)

Lemma money_untouched_same (db db' : DB) :
  debts db' = debts db -> money_untouched db db'.
Proof.
  intros E k d d' Hd Hd'. rewrite E, Hd in Hd'. injection Hd' as <-.
  repeat split; done.
Qed.

Lemma money_untouched_insert (db db' : DB) (k1 : nat) (d1 d1' : Debt.t) :
  keyed db ->
  debts db !! k1 = Some d1 ->
  debts db' = <[Debt.id d1 := d1']> (debts db) ->
  Debt.amount d1' = Debt.amount d1 ->
  Debt.paid_amount d1' = Debt.paid_amount d1 ->
  Debt.date_paid d1' = Debt.date_paid d1 ->
  (Debt.status d1' = "paid" -> Debt.status d1 = "paid") ->
  money_untouched db db'.
Proof.
  intros [Kd _] H1 E Ha Hp Hdate Hs k d d' Hd Hd'.
  rewrite E, (Kd _ _ H1) in Hd'.
  destruct (decide (k1 = k)) as [-> | Hne].
  - rewrite lookup_insert_eq in Hd'. injection Hd' as <-.
    rewrite H1 in Hd. injection Hd as <-. repeat split; assumption.
  - rewrite lookup_insert_ne in Hd' by done.
    rewrite Hd in Hd'. injection Hd' as <-. repeat split; done.
Qed.

Lemma money_untouched_new (db db' : DB) (d' : Debt.t) :
  debts db' = <[new_debt_id db := d']> (debts db) ->
  money_untouched db db'.
Proof.
  intros E k d d0 Hd Hd'. rewrite E in Hd'.
  destruct (decide (new_debt_id db = k)) as [<- | Hne].
  - rewrite new_debt_id_fresh in Hd. discriminate.
  - rewrite lookup_insert_ne in Hd' by done.
    rewrite Hd in Hd'. injection Hd' as <-. repeat split; done.
Qed.

Lemma money_untouched_delete (self : Debt.t) (db : DB) :
  money_untouched db (delete_cascade self db).
Proof.
  intros k d d' Hd Hd'. cbn in Hd'.
  apply lookup_delete_Some in Hd' as [_ Hd'].
  rewrite Hd in Hd'. injection Hd' as <-. repeat split; done.
Qed.

Lemma money_untouched_settled (w : World) (db db' : DB) :
  money_untouched db db' -> paid_when_settled w db db'.
Proof.
  intros H k d d' Hd Hnot Hd' Hpaid.
  destruct (H k d d' Hd Hd') as (_ & _ & _ & Hs). by apply Hs in Hpaid.
Qed.

Lemma paid_when_settled_same (w : World) (db db' : DB) :
  debts db' = debts db -> paid_when_settled w db db'.
Proof. intros E. by apply money_untouched_settled, money_untouched_same. Qed.

Lemma paid_when_settled_insert (w : World) (db db' : DB) (k1 : nat)
    (d1 d1' : Debt.t) :
  keyed db ->
  debts db !! k1 = Some d1 ->
  debts db' = <[Debt.id d1 := d1']> (debts db) ->
  (Debt.status d1' = "paid" ->
   Debt.status d1 = "paid" \/
   (Debt.balance d1' = 0 /\ Debt.date_paid d1' = Some (now w))) ->
  paid_when_settled w db db'.
Proof.
  intros [Kd _] H1 E Hs k d d' Hd Hnot Hd' Hpaid.
  rewrite E, (Kd _ _ H1) in Hd'.
  destruct (decide (k1 = k)) as [-> | Hne].
  - rewrite lookup_insert_eq in Hd'. injection Hd' as <-.
    rewrite H1 in Hd. injection Hd as <-.
    destruct (Hs Hpaid) as [? | ?]; [done | assumption].
  - rewrite lookup_insert_ne in Hd' by done.
    rewrite Hd in Hd'. injection Hd' as <-. done.
Qed.

Lemma balance_zero (d : Debt.t) :
  (Debt.balance d <=? 0) = true -> Debt.balance d = 0.
Proof.
  intros H%Z.leb_le. pose proof (balance_nonneg d). lia.
Qed.

Lemma add_debt_money (db : DB) (request : HttpRequest) (data : DebtFormData) :
  money_untouched db (out_db (add_debt db request data)).
Proof.
  unfold add_debt.
  destruct (negb _); [by apply money_untouched_same |].
  destruct (str_eq (method request) "POST"); [| by apply money_untouched_same].
  destruct (is_valid _); [| by apply money_untouched_same].
  destruct (get_user db _) as [creditor |]; [| by apply money_untouched_same].
  eapply money_untouched_new. cbn. reflexivity.
Qed.

Lemma confirm_debt_money (db : DB) (request : HttpRequest) (id : nat) :
  keyed db -> money_untouched db (out_db (confirm_debt db request id)).
Proof.
  intros Hk. unfold confirm_debt.
  destruct (debts db !! id) as [debt |] eqn:Hdebt; [| by apply money_untouched_same].
  destruct (is_not_user _ _); [by apply money_untouched_same |].
  destruct (negb _); [by apply money_untouched_same |].
  destruct (str_eq (method request) "POST"); [| by apply money_untouched_same].
  eapply (money_untouched_insert _ _ id debt); [done | done | cbn; reflexivity | ..];
    cbn; try reflexivity. discriminate.
Qed.

Lemma reject_debt_money (db : DB) (request : HttpRequest) (id : nat) :
  keyed db -> money_untouched db (out_db (reject_debt db request id)).
Proof.
  intros Hk. unfold reject_debt.
  destruct (debts db !! id) as [debt |] eqn:Hdebt; [| by apply money_untouched_same].
  destruct (is_not_user _ _); [by apply money_untouched_same |].
  destruct (negb _); [by apply money_untouched_same |].
  destruct (str_eq (method request) "POST"); [| by apply money_untouched_same].
  eapply (money_untouched_insert _ _ id debt); [done | done | cbn; reflexivity | ..];
    cbn; try reflexivity. discriminate.
Qed.

Lemma upload_debtor_proof_money (db : DB) (w : World) (request : HttpRequest)
    (payment_id : nat) :
  keyed db ->
  money_untouched db (out_db (upload_debtor_proof db w request payment_id)).
Proof.
  intros Hk. unfold upload_debtor_proof.
  destruct (negb _); [by apply money_untouched_same |].
  destruct (session_debt_id _) as [debt_id |]; [| by apply money_untouched_same].
  destruct (debts db !! debt_id) as [debt |] eqn:Hdebt; [| by apply money_untouched_same].
  destruct (is_not_user _ _); [by apply money_untouched_same |].
  destruct (str_eq (method request) "POST"); [| by apply money_untouched_same].
  destruct (file_falsy _); [by apply money_untouched_same |].
  eapply (money_untouched_insert _ _ debt_id debt); [done | done | cbn; reflexivity | ..];
    cbn; try reflexivity. discriminate.
Qed.

Lemma admin_reject_payment_money (db : DB) (w : World) (request : HttpRequest)
    (payment_id : nat) :
  money_untouched db (out_db (admin_reject_payment db w request payment_id)).
Proof.
  apply money_untouched_same. apply admin_reject_payment_debts.
Qed.

Lemma upload_proof_of_release_money (db : DB) (request : HttpRequest)
    (id : nat) :
  keyed db ->
  money_untouched db (out_db (upload_proof_of_release db request id)).
Proof.
  intros Hk. unfold upload_proof_of_release.
  destruct (debts db !! id) as [debt |] eqn:Hdebt; [| by apply money_untouched_same].
  destruct (is_not_user _ _); [by apply money_untouched_same |].
  destruct (_ && _); [by apply money_untouched_same |].
  destruct (str_eq (method request) "POST"); [| by apply money_untouched_same].
  destruct (negb _); [| by apply money_untouched_same].
  cbn [Debt.status Debt.with_creditor_proof].
  destruct (str_eq (Debt.status debt) "pending_confirmation").
  all: eapply (money_untouched_insert _ _ id debt);
    [done | done | cbn; reflexivity | ..]; cbn; try reflexivity;
    first [discriminate | done].
Qed.

Lemma send_reminder_money (db : DB) (request : HttpRequest) (id : nat) :
  money_untouched db (out_db (send_reminder db request id)).
Proof.
  apply money_untouched_same. unfold send_reminder.
  repeat (case_match; try reflexivity).
Qed.

Lemma delete_debt_money (db : DB) (request : HttpRequest) (id : nat) :
  keyed db -> money_untouched db (out_db (delete_debt db request id)).
Proof.
  intros Hk. unfold delete_debt.
  destruct (debts db !! id) as [debt |] eqn:Hdebt; [| by apply money_untouched_same].
  destruct (is_not_user _ _); [by apply money_untouched_same |].
  destruct (negb _); [by apply money_untouched_same |].
  destruct (str_eq (method request) "POST"); [| by apply money_untouched_same].
  destruct (str_eq (Debt.status debt) "paid"); cbn [out_db].
  - eapply (money_untouched_insert _ _ id debt);
      [done | done | cbn; reflexivity | ..]; cbn; try reflexivity. done.
  - apply money_untouched_delete.
Qed.

Lemma creditor_delete_debt_money (db : DB) (request : HttpRequest) (id : nat) :
  money_untouched db (out_db (creditor_delete_debt db request id)).
Proof.
  unfold creditor_delete_debt.
  destruct (debts db !! id) as [debt |] eqn:Hdebt; [| by apply money_untouched_same].
  destruct (is_not_user _ _); [by apply money_untouched_same |].
  destruct (negb _); [by apply money_untouched_same |].
  destruct (str_eq (method request) "POST"); [| by apply money_untouched_same].
  apply money_untouched_delete.
Qed.

(** X23.  Of the fifteen views served here, only [mark_as_paid],
    [gcash_payment], [confirm_cash_payment] and [admin_approve_payment]
    move money: a request to any of the eleven others leaves the amount,
    the paid amount and the date of payment of every debt as they were,
    and turns no debt into a paid one. *)
Theorem only_four_views_move_money
    (float_of_str : string -> option Z) (db : DB) (w : World)
    (request : HttpRequest) (page : Page) :
  keyed db ->
  takes_money page = false ->
  money_untouched db (out_db (serve float_of_str db w request page)).
Proof.
  intros Hk Hpage.
  destruct page as [r | id | id | id | id]; cbn [serve].
  - destruct r; cbn [dispatch]; try discriminate Hpage.
    + apply add_debt_money.
    + by apply confirm_debt_money.
    + by apply reject_debt_money.
    + apply money_untouched_same. by rewrite pay_debt_db.
    + apply money_untouched_same. by rewrite submit_payment_db.
    + by apply upload_debtor_proof_money.
    + apply admin_reject_payment_money.
  - by apply upload_proof_of_release_money.
  - by apply delete_debt_money.
  - apply creditor_delete_debt_money.
  - apply send_reminder_money.
Qed.

(** Alice uploads the proof of her cash payment: the debt waits for Bob,
    its amounts as they were. *)
Lemma only_four_views_move_money_witness :
  money_untouched (out_db Trace.cash1_chosen)
    (out_db (serve float_decimal (out_db Trace.cash1_chosen)
               (Cast.world 4 Byte.x04)
               (Cast.post Cast.alice [] [("proof", Cast.photo)]
                          (out_session Trace.cash1_chosen))
               (lifecycle (upload_debtor_proof_url 0)))).
Proof.
  apply only_four_views_move_money.
  - apply keyed_check. split; apply (bool_decide_unpack _); by vm_compute.
  - reflexivity.
Defined.

Lemma mark_as_paid_settles (float_of_str : string -> option Z) (db : DB)
    (w : World) (request : HttpRequest) (id : nat) :
  keyed db ->
  paid_when_settled w db (out_db (mark_as_paid float_of_str db w request id)).
Proof.
  intros Hk. unfold mark_as_paid.
  destruct (negb _); [by apply paid_when_settled_same |].
  destruct (debts db !! id) as [debt |] eqn:Hdebt; [| by apply paid_when_settled_same].
  destruct (is_not_user _ _); [by apply paid_when_settled_same |].
  destruct (str_eq (method request) "POST"); [| by apply paid_when_settled_same].
  destruct (file_falsy _); [by apply paid_when_settled_same |].
  set (pa := if _ >? _ then _ else _).
  match goal with
  | |- context [if ?b then _ else _] => destruct b eqn:Hb
  end.
  - eapply (paid_when_settled_insert _ _ _ id debt);
      [done | done | cbn; reflexivity |].
    intros _. right. split; [| reflexivity]. by apply balance_zero in Hb.
  - eapply (paid_when_settled_insert _ _ _ id debt);
      [done | done | cbn; reflexivity |].
    cbn. intros Hs. by left.
Qed.

Lemma gcash_payment_settles (db : DB) (w : World) (request : HttpRequest) :
  keyed db ->
  paid_when_settled w db (out_db (gcash_payment db w request)).
Proof.
  intros Hk. unfold gcash_payment.
  destruct (negb _); [by apply paid_when_settled_same |].
  destruct (session_debt_id _) as [debt_id |]; [| by apply paid_when_settled_same].
  destruct (debts db !! debt_id) as [debt |] eqn:Hdebt; [| by apply paid_when_settled_same].
  destruct (is_not_user _ _); [by apply paid_when_settled_same |].
  destruct (str_eq (method request) "POST"); [| by apply paid_when_settled_same].
  set (pa := default _ _).
  unfold attach_receipt.
  destruct (REPORTLAB_AVAILABLE w);
    match goal with
    | |- context [if ?b then _ else _] => destruct b eqn:Hb
    end.
  all: eapply (paid_when_settled_insert _ _ _ debt_id debt);
    [done | done | cbn; reflexivity |].
  all: first
    [ intros _; right; split; [by apply balance_zero in Hb | reflexivity]
    | cbn; intros Hs; by left ].
Qed.

Lemma confirm_cash_payment_settles (db : DB) (w : World)
    (request : HttpRequest) (payment_id : nat) :
  keyed db ->
  paid_when_settled w db
    (out_db (confirm_cash_payment db w request payment_id)).
Proof.
  intros Hk. unfold confirm_cash_payment.
  destruct (negb _); [by apply paid_when_settled_same |].
  destruct (payments db !! payment_id) as [payment |] eqn:Hpay;
    [| by apply paid_when_settled_same].
  destruct (debts db !! Payment.debt payment) as [debt |] eqn:Hdebt;
    [| by apply paid_when_settled_same].
  destruct (is_not_user _ _); [by apply paid_when_settled_same |].
  destruct (negb _); [by apply paid_when_settled_same |].
  destruct (str_eq (method request) "POST"); [| by apply paid_when_settled_same].
  destruct (bool_decide (_ = Some "confirm")).
  - cbn [save_payment]. unfold attach_receipt.
    destruct (REPORTLAB_AVAILABLE w); cbn [save_payment];
      match goal with
      | |- context [if ?b then _ else _] => destruct b eqn:Hb
      end.
    all: eapply (paid_when_settled_insert _ _ _ (Payment.debt payment) debt);
      [done | done | cbn; reflexivity |].
    all: first
      [ intros _; right; split; [by apply balance_zero in Hb | reflexivity]
      | cbn; discriminate ].
  - destruct (bool_decide (_ = Some "reject")); [| by apply paid_when_settled_same].
    cbn [save_payment].
    apply money_untouched_settled.
    eapply (money_untouched_insert _ _ (Payment.debt payment) debt);
      [done | done | cbn; reflexivity | ..]; cbn; try reflexivity.
    discriminate.
Qed.

Lemma admin_approve_payment_settles (db : DB) (w : World)
    (request : HttpRequest) (payment_id : nat) :
  keyed db ->
  paid_when_settled w db
    (out_db (admin_approve_payment db w request payment_id)).
Proof.
  intros Hk. unfold admin_approve_payment, login_redirect.
  destruct (negb _); [by apply paid_when_settled_same |].
  destruct (payments db !! payment_id) as [payment |] eqn:Hpay;
    [| by apply paid_when_settled_same].
  destruct (str_eq (method request) "POST"); [| by apply paid_when_settled_same].
  cbn [save_payment].
  set (p1 := Payment.pre_save w _).
  cbn [debts].
  destruct (debts db !! Payment.debt p1) as [debt |] eqn:Hdebt;
    [| by apply paid_when_settled_same].
  unfold update_payment_status.
  match goal with
  | |- context [if ?b then _ else _] => destruct b eqn:Hb
  end.
  - apply andb_true_iff in Hb as [Hb _].
    eapply (paid_when_settled_insert _ _ _ (Payment.debt p1) debt);
      [done | done | cbn; reflexivity |].
    intros _. right. split; [by apply balance_zero in Hb | reflexivity].
  - by apply paid_when_settled_same.
Qed.

(** X24.  A debt becomes paid only when it is settled: whichever of the
    fifteen views is requested, by whomever, a debt that was not paid
    before the request and is paid after it has a balance of zero and the
    time of the request as its date of payment. *)
Theorem paid_only_when_settled
    (float_of_str : string -> option Z) (db : DB) (w : World)
    (request : HttpRequest) (page : Page) (k : nat) (d d' : Debt.t) :
  keyed db ->
  debts db !! k = Some d ->
  Debt.status d <> "paid" ->
  debts (out_db (serve float_of_str db w request page)) !! k = Some d' ->
  Debt.status d' = "paid" ->
  Debt.balance d' = 0 /\ Debt.date_paid d' = Some (now w).
Proof.
  intros Hk Hd Hnot Hd' Hpaid.
  assert (H : paid_when_settled w db
                (out_db (serve float_of_str db w request page))).
  { destruct page as [r | id | id | id | id]; cbn [serve].
    - destruct r; cbn [dispatch].
      + apply money_untouched_settled, add_debt_money.
      + by apply money_untouched_settled, confirm_debt_money.
      + by apply money_untouched_settled, reject_debt_money.
      + by apply mark_as_paid_settles.
      + apply paid_when_settled_same. by rewrite pay_debt_db.
      + apply paid_when_settled_same. by rewrite submit_payment_db.
      + by apply gcash_payment_settles.
      + by apply money_untouched_settled, upload_debtor_proof_money.
      + by apply confirm_cash_payment_settles.
      + by apply admin_approve_payment_settles.
      + apply money_untouched_settled, admin_reject_payment_money.
    - by apply money_untouched_settled, upload_proof_of_release_money.
    - by apply money_untouched_settled, delete_debt_money.
    - apply money_untouched_settled, creditor_delete_debt_money.
    - apply money_untouched_settled, send_reminder_money. }
  exact (H k d d' Hd Hnot Hd' Hpaid).
Qed.

(** Bob confirms Alice's second payment of 400.00 on her debt of 500.00,
    of which 400.00 is paid: the debt is paid, with nothing left. *)
Lemma paid_only_when_settled_witness :
  let paid :=
    Debt.mk 1 2 1 "money" 50000 "" "" None None None 80000 "paid" false
            false (Some 8) in
  Debt.balance paid = 0 /\ Debt.date_paid paid = Some 8.
Proof.
  intros paid.
  apply (paid_only_when_settled float_decimal
           (out_db Trace.cash1_confirmed) (Cast.world 8 Byte.x08)
           (Cast.post Cast.bob [("action", "confirm")] [] Session.empty)
           (lifecycle (confirm_cash_payment_url 2)) 1%nat
           (Debt.mk 1 2 1 "money" 50000 "" "" None None None 40000
                    "active" false false None)
           paid).
  - apply keyed_check. split; apply (bool_decide_unpack _); by vm_compute.
  - vm_compute. reflexivity.
  - discriminate.
  - vm_compute. reflexivity.
  - reflexivity.
Defined.
